(** * Feedback aggregation and device registration client

    A shallow embedding of the display logic of the escalations list
    screen (getAverageRating, getRatingColor, getAvailableRatings,
    getAllComments, the severity banner) and of the device registration
    client (DeviceService and the notification channel screen), followed
    by the loading of the list screen, the push token provider, and the
    row of stars and the contact action of the detail screen.

    JavaScript numbers are IEEE 754 binary64 values, modelled with the
    Standard Library's [spec_float] at precision 53 and exponent bound
    1024.  JavaScript strings are sequences of UTF-16 code units.
    Asynchronous functions pass the state of the world along and may
    end by throwing; each one is modelled running alone, no other
    handler running at its await points. *)

From stdpp Require Import gmap strings list.
From Stdlib Require Import ZArith NArith Lia SpecFloat Sorted.

Local Open Scope Z_scope.

(** ** JavaScript strings *)

Module JsString.

(** A string is the list of its UTF-16 code units. *)
Definition jsstring : Type := list N.

(** The string written by an ASCII literal of the source. *)
Definition js (s : string) : jsstring :=
  map Ascii.N_of_ascii (String.list_ascii_of_string s).

(** [s.charAt(i)]: the one-unit string at [i], or the empty string. *)
Definition charAt (s : jsstring) (i : nat) : jsstring := take 1 (drop i s).

(** [s.slice(i)] for a non-negative [i]. *)
Definition slice_from (s : jsstring) (i : nat) : jsstring := drop i s.

(** [s.startsWith(p)]. *)
Fixpoint startsWith (s p : jsstring) : bool :=
  match p, s with
  | [], _ => true
  | c :: p', d :: s' => if N.eqb c d then startsWith s' p' else false
  | _ :: _, [] => false
  end.

(** WhiteSpace and LineTerminator code units, the ones [trim] strips. *)
Definition is_whitespace (c : N) : bool :=
  match c with
  | 9 | 10 | 11 | 12 | 13 | 32 | 160 | 5760 | 8232 | 8233 | 8239 | 8287
  | 12288 | 65279 => true
  | _ => N.leb 8192 c && N.leb c 8202
  end%N.

Fixpoint trimStart (s : jsstring) : jsstring :=
  match s with
  | c :: s' => if is_whitespace c then trimStart s' else s
  | [] => []
  end.

Definition trimEnd (s : jsstring) : jsstring := rev (trimStart (rev s)).

Definition trim (s : jsstring) : jsstring := trimEnd (trimStart s).

(** [xs.join(sep)] on an array of strings: the separator goes before
    every element but the first. *)
Definition join (sep : jsstring) (xs : list jsstring) : jsstring :=
  snd (fold_left
         (fun '(first, r) x => (false, if first : bool then r ++ x else r ++ sep ++ x))
         xs (true, [])).

(** The decimal digits of a natural number, most significant first. *)
Fixpoint decimal_fuel (fuel : nat) (n : N) (acc : jsstring) : jsstring :=
  match fuel with
  | O => acc
  | S fuel' =>
      let acc' := (48 + n mod 10)%N :: acc in
      if (n <? 10)%N then acc' else decimal_fuel fuel' (n / 10)%N acc'
  end.

Definition decimal (n : N) : jsstring := decimal_fuel (S (N.to_nat (N.log2 n))) n [].

(** The first occurrence of [pat] in [s]: the text before it and the
    text after it. *)
Fixpoint find_first (pat s : jsstring) : option (jsstring * jsstring) :=
  if startsWith s pat then Some ([], drop (length pat) s)
  else match s with
       | [] => None
       | c :: s' =>
           match find_first pat s' with
           | Some (before, after) => Some (c :: before, after)
           | None => None
           end
       end.

(** GetSubstitution for a string pattern (no captures): in the
    replacement text "$$" stands for a dollar sign, "$&" for the matched
    text, "$`" for the text before the match and "$'" for the text after
    it; any other dollar sign stands for itself. *)
Fixpoint substitution (matched before after repl : jsstring) : jsstring :=
  match repl with
  | 36 :: rest =>
      match rest with
      | 36 :: rest' => 36 :: substitution matched before after rest'
      | 38 :: rest' => matched ++ substitution matched before after rest'
      | 96 :: rest' => before ++ substitution matched before after rest'
      | 39 :: rest' => after ++ substitution matched before after rest'
      | _ => 36 :: substitution matched before after rest
      end
  | c :: rest => c :: substitution matched before after rest
  | [] => []
  end%N.

(** [s.replace(pat, repl)] with a string pattern: the first occurrence
    only. *)
Definition replace (s pat repl : jsstring) : jsstring :=
  match find_first pat s with
  | Some (before, after) => before ++ substitution pat before after repl ++ after
  | None => s
  end.

End JsString.
Export JsString.

(** ** JavaScript numbers *)

Module JsNumber.

Definition number : Type := spec_float.

Definition prec : Z := 53.
Definition emax : Z := 1024.

Definition num_of_Z (z : Z) : number := binary_normalize prec emax z 0 false.
Definition num_add : number -> number -> number := SFadd prec emax.
Definition num_div : number -> number -> number := SFdiv prec emax.

(** The relational operators of the language; every comparison with NaN
    is false. *)
Definition num_lt (x y : number) : bool := SFltb x y.
Definition num_gt (x y : number) : bool := SFltb y x.
Definition num_ge (x y : number) : bool := SFleb y x.

(** A decimal literal [n / d] of the source, correctly rounded. *)
Definition num_of_ratio (n d : Z) : number := num_div (num_of_Z n) (num_of_Z d).

(** ToBoolean on a number: false for +0, -0 and NaN. *)
Definition num_truthy (x : number) : bool :=
  match x with
  | S754_zero _ | S754_nan => false
  | _ => true
  end.

(** *** Number.prototype.toFixed(1) *)

(** Whether [m * 2^e] is at least [10^21]. *)
Definition at_least_1e21 (m : positive) (e : Z) : bool :=
  if 0 <=? e then 10 ^ 21 <=? Z.pos m * 2 ^ e
  else 10 ^ 21 * 2 ^ (- e) <=? Z.pos m.

(** The integer [n] for which [n / 10 - m * 2^e] is as close to zero as
    possible, the larger one when there are two. *)
Definition tenths (m : positive) (e : Z) : Z :=
  if 0 <=? e then 10 * Z.pos m * 2 ^ e
  else (20 * Z.pos m + 2 ^ (- e)) / 2 ^ (- e + 1).

(** The digits of [n] with a point before the last one, padded to two
    digits. *)
Definition fixed1_digits (n : Z) : jsstring :=
  let m := decimal (Z.to_N n) in
  let m := if (length m <=? 1)%nat then replicate (2 - length m) 48%N ++ m else m in
  let k := length m in
  take (k - 1) m ++ js "." ++ drop (k - 1) m.

(** *** Number::toString for an integral value of at least 10^21 *)

Definition rounds_to (x : number) (v : Z) : bool := SFeqb (num_of_Z v) x.

Fixpoint strip_zeros_rev (s : jsstring) : jsstring :=
  match s with
  | 48%N :: s' => strip_zeros_rev s'
  | _ => s
  end.

Definition strip_trailing_zeros (s : jsstring) : jsstring :=
  rev (strip_zeros_rev (rev s)).

(** The shortest digit string [s] and the exponent [n] such that
    [s * 10^(n - k)] converts to [x], where [k] is the length of [s];
    [v] is the value of [x] and [n0] the number of its digits. *)
Fixpoint shortest_digits (fuel k : nat) (x : number) (v : Z) (n0 : nat)
  : jsstring * nat :=
  match fuel with
  | O => (decimal (Z.to_N v), n0)
  | S fuel' =>
      let p := 10 ^ Z.of_nat (n0 - k) in
      let lo := v / p in
      let hi := lo + 1 in
      let pick s :=
        let d := decimal (Z.to_N s) in
        (strip_trailing_zeros d, (n0 + (length d - k))%nat) in
      match rounds_to x (lo * p), rounds_to x (hi * p) with
      | true, true => if v - lo * p <=? hi * p - v then pick lo else pick hi
      | true, false => pick lo
      | false, true => pick hi
      | false, false => shortest_digits fuel' (S k) x v n0
      end
  end.

Definition toString_large (m : positive) (e : Z) : jsstring :=
  let v := Z.pos m * 2 ^ e in
  let n0 := length (decimal (Z.to_N v)) in
  let '(digits, n) := shortest_digits 17 1 (S754_finite false m e) v n0 in
  let mantissa :=
    match digits with
    | d :: (_ :: _) as rest => d :: js "." ++ rest
    | _ => digits
    end in
  mantissa ++ js "e+" ++ decimal (N.of_nat (n - 1)).

Definition toFixed1 (x : number) : jsstring :=
  match x with
  | S754_nan => js "NaN"
  | S754_infinity s => if s then js "-Infinity" else js "Infinity"
  | S754_zero _ => js "0.0"
  | S754_finite s m e =>
      (if s then js "-" else []) ++
      (if at_least_1e21 m e then toString_large m e
       else fixed1_digits (tenths m e))
  end.

End JsNumber.
Export JsNumber.

(** ** JavaScript values and completions *)

#[local] Set Warnings "-register-all".

Module JsValue.

(** The values a parsed JSON payload can hold, and [undefined].  The
    properties of an object are listed in the order in which
    [Object.entries] enumerates them. *)
Inductive JsVal : Type :=
  | JUndefined
  | JNull
  | JBool (b : bool)
  | JNum (x : number)
  | JStr (s : jsstring)
  | JArr (items : list JsVal)
  | JObj (props : list (jsstring * JsVal)).

(** The results of the [typeof] operator. *)
Inductive TypeTag : Type :=
  | TUndefined | TObject | TBoolean | TNumber | TString.

Definition TypeTag_eqb (a b : TypeTag) : bool :=
  match a, b with
  | TUndefined, TUndefined | TObject, TObject | TBoolean, TBoolean
  | TNumber, TNumber | TString, TString => true
  | _, _ => false
  end.

Definition typeof (v : JsVal) : TypeTag :=
  match v with
  | JUndefined => TUndefined
  | JNull | JArr _ | JObj _ => TObject
  | JBool _ => TBoolean
  | JNum _ => TNumber
  | JStr _ => TString
  end.

(** ToBoolean. *)
Definition truthy (v : JsVal) : bool :=
  match v with
  | JUndefined | JNull => false
  | JBool b => b
  | JNum x => num_truthy x
  | JStr s => negb (bool_decide (s = []))
  | JArr _ | JObj _ => true
  end.

(** What a [throw] or a rejected promise carries. *)
Inductive Thrown : Type :=
  | TypeError (message : jsstring)
  | Error (message : jsstring)
  | Rejection (reason : JsVal).

Inductive Completion (A : Type) : Type :=
  | Normal (a : A)
  | Throw (e : Thrown).
Arguments Normal {A} a.
Arguments Throw {A} e.

Definition cbind {A B} (c : Completion A) (k : A -> Completion B) : Completion B :=
  match c with
  | Normal a => k a
  | Throw e => Throw e
  end.

(** The own enumerable string-keyed properties of a value, as
    [Object.entries] lists them; [undefined] and [null] cannot be
    converted to an object. *)
Definition Object_entries (v : JsVal) : Completion (list (jsstring * JsVal)) :=
  match v with
  | JUndefined | JNull =>
      Throw (TypeError (js "Cannot convert undefined or null to object"))
  | JBool _ | JNum _ => Normal []
  | JStr s => Normal (imap (fun i c => (decimal (N.of_nat i), JStr [c])) s)
  | JArr items => Normal (imap (fun i x => (decimal (N.of_nat i), x)) items)
  | JObj props => Normal props
  end.

Definition Object_values (v : JsVal) : Completion (list JsVal) :=
  cbind (Object_entries v) (fun entries => Normal (map snd entries)).

(** [v[key]] on a value that may be [undefined] or [null]. *)
Definition get_property (v : JsVal) (key : jsstring) : Completion JsVal :=
  cbind (Object_entries v) (fun entries =>
    Normal (match find (fun kv => bool_decide (fst kv = key)) entries with
            | Some kv => snd kv
            | None => JUndefined
            end)).

End JsValue.
Export JsValue.

Notation "x <~ c ;; k" := (cbind c (fun x => k))
  (at level 100, c at next level, right associativity).

(** ** The escalation record served to a device *)

Module Escalation.

Inductive FeedbackType : Type := inStore | delivery.

(** Optional fields hold [None] when the property is absent.  The
    interface declares [severity] as one of four literals; the banner
    compares it with string literals, so any string is admitted here. *)
Record DeviceFilteredEscalation : Type := {
  id : jsstring;
  restaurantId : jsstring;
  formData : JsVal;
  customerName : option jsstring;
  customerPhone : option jsstring;
  feedbackType : FeedbackType;
  isEscalated : bool;
  escalationReason : option jsstring;
  createdAt : jsstring;
  severity : option jsstring;
  ratings : JsVal;
  comments : JsVal;
  primaryRating : option number;
  primaryComment : option jsstring
}.

End Escalation.

Abbreviation DeviceFilteredEscalation := Escalation.DeviceFilteredEscalation.

(** ** The list screen: rating, colour, ratings grid, comments *)

(** The type guard [typeof rating === 'number' && rating > 0]. *)
Definition positive_number (v : JsVal) : option number :=
  match v with
  | JNum x => if num_gt x (num_of_Z 0) then Some x else None
  | _ => None
  end.

Definition is_positive_number (v : JsVal) : bool :=
  TypeTag_eqb (typeof v) TNumber &&
  match v with JNum x => num_gt x (num_of_Z 0) | _ => false end.

Definition getAverageRating (feedback : DeviceFilteredEscalation)
  : Completion jsstring :=
  let fromRatings :=
    if truthy (Escalation.ratings feedback)
       && TypeTag_eqb (typeof (Escalation.ratings feedback)) TObject
    then
      values <~ Object_values (Escalation.ratings feedback) ;;
      let ratingValues := omap positive_number values in
      if (0 <? length ratingValues)%nat
      then Normal (toFixed1
             (num_div (fold_left num_add ratingValues (num_of_Z 0))
                      (num_of_Z (Z.of_nat (length ratingValues)))))
      else Normal (js "0.0")
    else Normal (js "0.0") in
  match Escalation.primaryRating feedback with
  | Some primaryRating =>
      if num_truthy primaryRating && num_gt primaryRating (num_of_Z 0)
      then Normal (toFixed1 primaryRating)
      else fromRatings
  | None => fromRatings
  end.

Definition color_success : jsstring := js "#10B981".
Definition color_warning : jsstring := js "#F59E0B".
Definition color_error : jsstring := js "#EF4444".
Definition color_info : jsstring := js "#3B82F6".

Definition getRatingColor (rating : number) : jsstring :=
  if num_ge rating (num_of_Z 4) then color_success
  else if num_ge rating (num_of_Z 3) then color_warning
  else color_error.

(** One cell of the ratings grid. *)
Record RatingCell : Type := {
  key : jsstring;
  label : jsstring;
  value : JsVal
}.

(** The non-empty comment strings: the type guard
    [typeof comment === 'string' && comment.trim().length > 0]. *)
Definition nonblank_string (v : JsVal) : option jsstring :=
  match v with
  | JStr comment => if (0 <? length (trim comment))%nat then Some comment else None
  | _ => None
  end.

(** [null] is [None]. *)
Definition getAllComments (feedback : DeviceFilteredEscalation)
  : Completion (option jsstring) :=
  let fromComments :=
    if truthy (Escalation.comments feedback)
       && TypeTag_eqb (typeof (Escalation.comments feedback)) TObject
    then
      values <~ Object_values (Escalation.comments feedback) ;;
      let commentValues := omap nonblank_string values in
      if (0 <? length commentValues)%nat
      then Normal (Some (join (js " | ") commentValues))
      else Normal None
    else Normal None in
  match Escalation.primaryComment feedback with
  | Some primaryComment =>
      if truthy (JStr primaryComment) && truthy (JStr (trim primaryComment))
      then Normal (Some primaryComment)
      else fromComments
  | None => fromComments
  end.

(** The colours and the icon of the escalation banner. *)
Record BannerStyle : Type := {
  backgroundColor : jsstring;
  iconName : jsstring;
  iconColor : jsstring;
  textColor : jsstring
}.

(** [severity === literal] on a field that may be absent. *)
Definition strict_equals (severity : option jsstring) (literal : jsstring) : bool :=
  match severity with
  | Some s => bool_decide (s = literal)
  | None => false
  end.

Definition bannerStyle (severity : option jsstring) : BannerStyle :=
  {| backgroundColor :=
       if strict_equals severity (js "high") then js "#FEF2F2"
       else if strict_equals severity (js "medium") then js "#FFFBEB"
       else js "#EBF4FF";
     iconName :=
       if strict_equals severity (js "high") then js "alert-circle"
       else if strict_equals severity (js "medium") then js "warning"
       else js "information-circle";
     iconColor :=
       if strict_equals severity (js "high") then color_error
       else if strict_equals severity (js "medium") then color_warning
       else color_info;
     textColor :=
       if strict_equals severity (js "high") then color_error
       else if strict_equals severity (js "medium") then color_warning
       else color_info |}.

Section Screen.

(** String.prototype.toUpperCase, the Unicode upper-case mapping of the
    platform. *)
Variable toUpperCase : jsstring -> jsstring.

Definition getAvailableRatings (feedback : DeviceFilteredEscalation)
  : Completion (list RatingCell) :=
  if truthy (Escalation.ratings feedback)
     && TypeTag_eqb (typeof (Escalation.ratings feedback)) TObject
  then
    entries <~ Object_entries (Escalation.ratings feedback) ;;
    Normal
      (map (fun '(key, value) =>
              {| key := key;
                 label := toUpperCase (charAt key 0) ++ slice_from key 1;
                 value := value |})
           (take 5 (filter (fun kv => is_positive_number (snd kv) = true) entries)))
  else Normal [].

(** The banner of an escalated item: its style and its text. *)
Definition escalationBanner (item : DeviceFilteredEscalation)
  : option (BannerStyle * jsstring) :=
  if Escalation.isEscalated item then
    Some (bannerStyle (Escalation.severity item),
          match Escalation.severity item with
          | Some s => toUpperCase s
          | None => []
          end ++ js " PRIORITY: " ++
          match Escalation.escalationReason item with
          | Some reason => if truthy (JStr reason) then reason else js "Issue Escalated"
          | None => js "Issue Escalated"
          end)
  else None.

End Screen.

(** ** API configuration *)

Definition API_CONFIG_baseUrl : jsstring := js "https://api.twelvelabs.tech".

Definition buildApiUrl (endpoint : jsstring) : jsstring :=
  let cleanEndpoint :=
    if startsWith endpoint (js "/") then endpoint else js "/" ++ endpoint in
  API_CONFIG_baseUrl ++ cleanEndpoint.

Module API_ENDPOINTS.
Definition DEVICE_REGISTER : jsstring := js "/api/devices/register".
Definition DEVICE_SUBSCRIPTION : jsstring := js "/api/devices/:deviceId/subscription".
Definition DEVICE_HEARTBEAT : jsstring := js "/api/devices/heartbeat".
Definition ESCALATIONS_DEVICE : jsstring := js "/api/escalations/device".
End API_ENDPOINTS.

(** ** The world of the device client *)

Inductive SeverityLevel : Type := low | medium | high.

Definition severity_text (s : SeverityLevel) : jsstring :=
  match s with
  | low => js "low"
  | medium => js "medium"
  | high => js "high"
  end.

(** The arguments of one axios call. *)
Record HttpRequest : Type := {
  method : jsstring;
  url : jsstring;
  body : JsVal;
  headers : list (jsstring * jsstring)
}.

(** The outcome of a request: the [data] of the response, or the error
    the promise rejects with (no connection, or a failure status). *)
Inductive HttpReply : Type :=
  | Fulfilled (data : JsVal)
  | Failed (error : JsVal).

Inductive ConsoleLevel : Type := LevelLog | LevelError.

Record ConsoleCall : Type := {
  level : ConsoleLevel;
  text : jsstring;
  detail : option Thrown
}.

Record AlertCall : Type := {
  title : jsstring;
  message : jsstring;
  buttons : list jsstring
}.

(** The state hooks of the notification channel screen. *)
Record ChannelState : Type := {
  registering : bool;
  deviceRegistration : JsVal;
  selectedSeverity : SeverityLevel;
  permissionStatus : jsstring
}.

Record World : Type := {
  storage : gmap jsstring jsstring;
  requests : list HttpRequest;
  console : list ConsoleCall;
  alerts : list AlertCall;
  screen : ChannelState
}.

(** What lies outside the program: the faults of the key-value store,
    the server, the notification service and the device. *)
Record Environment : Type := {
  getItem_fault : jsstring -> option JsVal;
  setItem_fault : jsstring -> option JsVal;
  setItem_other : jsstring -> JsVal -> Completion jsstring;
  server : list HttpRequest -> HttpRequest -> HttpReply;
  requestPermissionsAsync : Completion jsstring;
  getExpoPushTokenAsync : Completion jsstring;
  osInternalBuildId : option jsstring;
  modelId : option jsstring;
  deviceName : option jsstring;
  brand : option jsstring;
  modelName : option jsstring
}.

Definition with_storage (w : World) (s : gmap jsstring jsstring) : World :=
  {| storage := s; requests := requests w; console := console w;
     alerts := alerts w; screen := screen w |}.

Definition with_requests (w : World) (r : list HttpRequest) : World :=
  {| storage := storage w; requests := r; console := console w;
     alerts := alerts w; screen := screen w |}.

Definition with_console (w : World) (c : list ConsoleCall) : World :=
  {| storage := storage w; requests := requests w; console := c;
     alerts := alerts w; screen := screen w |}.

Definition with_alerts (w : World) (a : list AlertCall) : World :=
  {| storage := storage w; requests := requests w; console := console w;
     alerts := a; screen := screen w |}.

Definition with_screen (w : World) (st : ChannelState) : World :=
  {| storage := storage w; requests := requests w; console := console w;
     alerts := alerts w; screen := st |}.

(** *** Asynchronous code: state passing with exceptions *)

Definition Action (A : Type) : Type := World -> Completion A * World.

Definition ret {A} (a : A) : Action A := fun w => (Normal a, w).

Definition throw {A} (e : Thrown) : Action A := fun w => (Throw e, w).

Definition lift {A} (c : Completion A) : Action A := fun w => (c, w).

Definition bind {A B} (m : Action A) (k : A -> Action B) : Action B :=
  fun w =>
    match m w with
    | (Normal a, w') => k a w'
    | (Throw e, w') => (Throw e, w')
    end.

Definition try_catch {A} (block : Action A) (handler : Thrown -> Action A)
  : Action A :=
  fun w =>
    match block w with
    | (Normal a, w') => (Normal a, w')
    | (Throw e, w') => handler e w'
    end.

Definition try_finally {A} (block : Action A) (finalizer : Action unit)
  : Action A :=
  fun w =>
    let '(r, w') := block w in
    match finalizer w' with
    | (Normal _, w'') => (r, w'')
    | (Throw e, w'') => (Throw e, w'')
    end.

Notation "'await' x <- m ;; k" := (bind m (fun x => k))
  (at level 100, x name, m at next level, right associativity).
Notation "m ;;; k" := (bind m (fun _ => k))
  (at level 100, right associativity).

Definition console_log (text : jsstring) : Action unit :=
  fun w => (Normal tt,
            with_console w (console w ++
              [{| level := LevelLog; text := text; detail := None |}])).

Definition console_error (text : jsstring) (error : Thrown) : Action unit :=
  fun w => (Normal tt,
            with_console w (console w ++
              [{| level := LevelError; text := text; detail := Some error |}])).

Definition Alert_alert (title message : jsstring) (buttons : list jsstring)
  : Action unit :=
  fun w => (Normal tt,
            with_alerts w (alerts w ++
              [{| title := title; message := message; buttons := buttons |}])).

(** [!s] on a string that may be [null]. *)
Definition absent (s : option jsstring) : bool :=
  match s with
  | Some s => negb (truthy (JStr s))
  | None => true
  end.

(** [a || b] on strings that may be [null]. *)
Definition or_else (a : option jsstring) (b : jsstring) : jsstring :=
  match a with
  | Some s => if truthy (JStr s) then s else b
  | None => b
  end.

(** A string that may be [null] inside a template literal. *)
Definition template (a : option jsstring) : jsstring :=
  match a with
  | Some s => s
  | None => js "null"
  end.

(** [{...v, key: x}]. *)
Fixpoint set_property (props : list (jsstring * JsVal)) (key : jsstring) (x : JsVal)
  : list (jsstring * JsVal) :=
  match props with
  | [] => [(key, x)]
  | (k, y) :: rest =>
      if bool_decide (k = key) then (k, x) :: rest
      else (k, y) :: set_property rest key x
  end.

Definition spread_with (v : JsVal) (key : jsstring) (x : JsVal) : JsVal :=
  JObj (set_property
          (match Object_entries v with Normal props => props | Throw _ => [] end)
          key x).

Record Credentials : Type := {
  deviceId : jsstring;
  deviceSecret : jsstring
}.

Section Device.

(** The built-ins of the language the client calls. *)
Variable toUpperCase : jsstring -> jsstring.
Variable JSON_stringify : JsVal -> jsstring.
Variable JSON_parse : jsstring -> Completion JsVal.

Variable env : Environment.

(** *** AsyncStorage and axios *)

Definition AsyncStorage_getItem (key : jsstring) : Action (option jsstring) :=
  fun w =>
    match getItem_fault env key with
    | Some reason => (Throw (Rejection reason), w)
    | None => (Normal (storage w !! key), w)
    end.

Definition AsyncStorage_setItem (key : jsstring) (value : JsVal) : Action unit :=
  fun w =>
    match value with
    | JStr s =>
        match setItem_fault env key with
        | Some reason => (Throw (Rejection reason), w)
        | None => (Normal tt, with_storage w (<[key := s]> (storage w)))
        end
    | _ =>
        match setItem_other env key value with
        | Throw e => (Throw e, w)
        | Normal s => (Normal tt, with_storage w (<[key := s]> (storage w)))
        end
    end.

(** One request: it is recorded whether or not it succeeds. *)
Definition axios (request : HttpRequest) : Action JsVal :=
  fun w =>
    let w' := with_requests w (requests w ++ [request]) in
    match server env (requests w) request with
    | Fulfilled data => (Normal data, w')
    | Failed error => (Throw (Rejection error), w')
    end.

(** *** DeviceService *)

Definition getDeviceCredentials : Action (option Credentials) :=
  try_catch
    (await deviceId <- AsyncStorage_getItem (js "deviceId") ;;
     await deviceSecret <- AsyncStorage_getItem (js "deviceSecret") ;;
     match deviceId, deviceSecret with
     | Some deviceId, Some deviceSecret =>
         if absent (Some deviceId) || absent (Some deviceSecret) then ret None
         else ret (Some {| deviceId := deviceId; deviceSecret := deviceSecret |})
     | _, _ => ret None
     end)
    (fun error =>
       console_error (js "Failed to get device credentials:") error ;;;
       ret None).

(** The parsed registration, or [null]. *)
Definition getDeviceRegistration : Action JsVal :=
  try_catch
    (await storedRegistration <- AsyncStorage_getItem (js "deviceRegistration") ;;
     match storedRegistration with
     | Some stored =>
         if absent (Some stored) then ret JNull else lift (JSON_parse stored)
     | None => ret JNull
     end)
    (fun error =>
       console_error (js "Failed to get device registration:") error ;;;
       ret JNull).

Definition getDeviceFilteredEscalations : Action JsVal :=
  try_catch
    (await credentials <- getDeviceCredentials ;;
     match credentials with
     | None =>
         console_log (js "No device credentials found for escalations") ;;;
         ret (JArr [])
     | Some credentials =>
         await data <- axios
           {| method := js "GET";
              url := buildApiUrl API_ENDPOINTS.ESCALATIONS_DEVICE;
              body := JUndefined;
              headers := [(js "x-device-id", deviceId credentials);
                          (js "x-device-secret", deviceSecret credentials)] |} ;;
         ret (if truthy data then data else JArr [])
     end)
    (fun error =>
       console_error (js "Failed to fetch device-filtered escalations:") error ;;;
       throw error).

Definition updateSubscriptionSeverity (newSeverity : SeverityLevel) : Action bool :=
  try_catch
    (await credentials <- getDeviceCredentials ;;
     match credentials with
     | None => throw (Error (js "Device not registered"))
     | Some credentials =>
         let endpoint :=
           replace API_ENDPOINTS.DEVICE_SUBSCRIPTION (js ":deviceId")
                   (deviceId credentials) in
         await response <- axios
           {| method := js "PATCH";
              url := buildApiUrl endpoint;
              body := JObj [(js "subscriptionSeverity", JStr (severity_text newSeverity))];
              headers := [(js "x-device-secret", deviceSecret credentials)] |} ;;
         await registration <- getDeviceRegistration ;;
         (if truthy registration then
            AsyncStorage_setItem (js "deviceRegistration")
              (JStr (JSON_stringify
                 (spread_with registration (js "subscriptionSeverity")
                    (JStr (severity_text newSeverity)))))
          else ret tt) ;;;
         console_log (js "Subscription updated to " ++ severity_text newSeverity) ;;;
         ret true
     end)
    (fun error =>
       console_error (js "Failed to update subscription severity:") error ;;;
       ret false).

(** *** The notification channel screen *)

Definition setRegistering (b : bool) : Action unit :=
  fun w => (Normal tt,
            with_screen w
              {| registering := b;
                 deviceRegistration := deviceRegistration (screen w);
                 selectedSeverity := selectedSeverity (screen w);
                 permissionStatus := permissionStatus (screen w) |}).

Definition setDeviceRegistration (r : JsVal) : Action unit :=
  fun w => (Normal tt,
            with_screen w
              {| registering := registering (screen w);
                 deviceRegistration := r;
                 selectedSeverity := selectedSeverity (screen w);
                 permissionStatus := permissionStatus (screen w) |}).

Definition setSelectedSeverity (s : SeverityLevel) : Action unit :=
  fun w => (Normal tt,
            with_screen w
              {| registering := registering (screen w);
                 deviceRegistration := deviceRegistration (screen w);
                 selectedSeverity := s;
                 permissionStatus := permissionStatus (screen w) |}).

Definition setPermissionStatus (p : jsstring) : Action unit :=
  fun w => (Normal tt,
            with_screen w
              {| registering := registering (screen w);
                 deviceRegistration := deviceRegistration (screen w);
                 selectedSeverity := selectedSeverity (screen w);
                 permissionStatus := p |}).

Definition requestNotificationPermission : Action bool :=
  try_catch
    (await status <- lift (requestPermissionsAsync env) ;;
     setPermissionStatus status ;;;
     if negb (bool_decide (status = js "granted")) then
       Alert_alert (js "Permission Required")
         (js "Please enable notifications in your device settings to receive escalation alerts.")
         [js "OK"] ;;;
       ret false
     else ret true)
    (fun error =>
       console_error (js "Error requesting notification permission:") error ;;;
       ret false).

(** [user] is the signed-in user of the session, if any.  The values of
    the state hooks are those of the render in which the handler was
    created. *)
Definition registerDevice (user : option JsVal) : Action unit :=
  fun w0 =>
    let permissionStatus := permissionStatus (screen w0) in
    let selectedSeverity := selectedSeverity (screen w0) in
    (if negb (match user with Some u => truthy u | None => false end) then
       Alert_alert (js "Error") (js "Please log in to register your device") []
     else
       setRegistering true ;;;
       try_finally
         (try_catch
            (await granted <-
               (if negb (bool_decide (permissionStatus = js "granted"))
                then requestNotificationPermission else ret true) ;;
             if negb granted then setRegistering false
             else
               await pushToken <- lift (getExpoPushTokenAsync env) ;;
               let deviceId :=
                 or_else (osInternalBuildId env)
                         (or_else (modelId env) (js "unknown")) in
               let deviceName :=
                 or_else (deviceName env)
                         (template (brand env) ++ js " " ++ template (modelName env)) in
               await data <- axios
                 {| method := js "POST";
                    url := buildApiUrl API_ENDPOINTS.DEVICE_REGISTER;
                    body := JObj [(js "deviceId", JStr deviceId);
                                  (js "deviceName", JStr deviceName);
                                  (js "pushToken", JStr pushToken);
                                  (js "subscriptionSeverity",
                                   JStr (severity_text selectedSeverity))];
                    headers := [] |} ;;
               await id <- lift (get_property data (js "id")) ;;
               await secret <- lift (get_property data (js "deviceSecret")) ;;
               await severity <- lift (get_property data (js "subscriptionSeverity")) ;;
               let registration :=
                 JObj [(js "id", id); (js "deviceSecret", secret);
                       (js "subscriptionSeverity", severity)] in
               AsyncStorage_setItem (js "deviceRegistration")
                 (JStr (JSON_stringify registration)) ;;;
               AsyncStorage_setItem (js "deviceId") (JStr deviceId) ;;;
               AsyncStorage_setItem (js "deviceSecret") secret ;;;
               setDeviceRegistration registration ;;;
               Alert_alert (js "Device Registered")
                 (js "Your device is now subscribed to " ++
                  toUpperCase (severity_text selectedSeverity) ++
                  js " priority notifications.")
                 [js "OK"])
            (fun error =>
               console_error (js "Failed to register device:") error ;;;
               Alert_alert (js "Registration Failed")
                 (js "Unable to register your device for notifications. Please try again.")
                 [js "OK"]))
         (setRegistering false)) w0.

Definition updateSubscription (newSeverity : SeverityLevel) : Action unit :=
  fun w0 =>
    let deviceRegistration := deviceRegistration (screen w0) in
    let credentialsNotFound :=
      Alert_alert (js "Error")
        (js "Device credentials not found. Please re-register.") [] in
    (if negb (truthy deviceRegistration) then
       Alert_alert (js "Error") (js "Device not registered. Please register first.") []
     else
       try_catch
         (await deviceId <- AsyncStorage_getItem (js "deviceId") ;;
          await deviceSecret <- AsyncStorage_getItem (js "deviceSecret") ;;
          match deviceId, deviceSecret with
          | Some deviceId, Some deviceSecret =>
              if absent (Some deviceId) || absent (Some deviceSecret)
              then credentialsNotFound
              else
                let endpoint :=
                  replace API_ENDPOINTS.DEVICE_SUBSCRIPTION (js ":deviceId") deviceId in
                axios
                  {| method := js "PATCH";
                     url := buildApiUrl endpoint;
                     body := JObj [(js "subscriptionSeverity",
                                    JStr (severity_text newSeverity))];
                     headers := [(js "x-device-secret", deviceSecret)] |} ;;;
                let updatedRegistration :=
                  spread_with deviceRegistration (js "subscriptionSeverity")
                    (JStr (severity_text newSeverity)) in
                AsyncStorage_setItem (js "deviceRegistration")
                  (JStr (JSON_stringify updatedRegistration)) ;;;
                setDeviceRegistration updatedRegistration ;;;
                setSelectedSeverity newSeverity ;;;
                Alert_alert (js "Subscription Updated")
                  (js "You will now receive " ++
                   toUpperCase (severity_text newSeverity) ++
                   js " priority notifications.")
                  [js "OK"]
          | _, _ => credentialsNotFound
          end)
         (fun error =>
            console_error (js "Failed to update subscription:") error ;;;
            Alert_alert (js "Update Failed")
              (js "Unable to update your notification subscription. Please try again.")
              [js "OK"])) w0.

End Device.

(** * Specification *)

(** ** Ratings *)

(** The primary rating counts when it is present and greater than 0. *)
Definition primary_rating_unset (feedback : DeviceFilteredEscalation) : Prop :=
  match Escalation.primaryRating feedback with
  | None => True
  | Some p => num_gt p (num_of_Z 0) = false
  end.

(** The entries of a mapping whose value is a number greater than 0, in
    the order of the mapping. *)
Fixpoint positive_entries (props : list (jsstring * JsVal))
  : list (jsstring * number) :=
  match props with
  | [] => []
  | (k, JNum x) :: rest =>
      if num_gt x (num_of_Z 0) then (k, x) :: positive_entries rest
      else positive_entries rest
  | _ :: rest => positive_entries rest
  end.

Definition positive_ratings (props : list (jsstring * JsVal)) : list number :=
  map snd (positive_entries props).

(** The sum of a list of numbers, added from left to right. *)
Fixpoint sum_from (acc : number) (xs : list number) : number :=
  match xs with
  | [] => acc
  | x :: rest => sum_from (num_add acc x) rest
  end.

(** The arithmetic mean in the arithmetic of the language: the sum
    divided by the count. *)
Definition arithmetic_mean (xs : list number) : number :=
  num_div (sum_from (num_of_Z 0) xs) (num_of_Z (Z.of_nat (length xs))).

(** The magnitude [m * 2^e] as a fraction [p / q]. *)
Definition magnitude (m : positive) (e : Z) : Z * Z :=
  if 0 <=? e then (Z.pos m * 2 ^ e, 1) else (Z.pos m, 2 ^ (- e)).

(** [n / 10] is the multiple of one tenth nearest to [m * 2^e], the
    upper one when two are equally near. *)
Definition nearest_tenth (m : positive) (e : Z) (n : Z) : Prop :=
  (2 * n - 1) * snd (magnitude m e) <= 20 * fst (magnitude m e)
  /\ 20 * fst (magnitude m e) < (2 * n + 1) * snd (magnitude m e).

(** [n] tenths written with one decimal. *)
Definition one_decimal (n : Z) : jsstring :=
  decimal (Z.to_N (n / 10)) ++ js "." ++ decimal (Z.to_N (n mod 10)).

(** [s] is the number [x] rounded to one decimal place. *)
Inductive rounded_to_one_decimal : number -> jsstring -> Prop :=
  | rounded_nan : rounded_to_one_decimal S754_nan (js "NaN")
  | rounded_infinity (s : bool) :
      rounded_to_one_decimal (S754_infinity s)
        ((if s then js "-" else []) ++ js "Infinity")
  | rounded_zero (s : bool) :
      rounded_to_one_decimal (S754_zero s) (js "0.0")
  | rounded_tenths (s : bool) (m : positive) (e n : Z) :
      fst (magnitude m e) < 10 ^ 21 * snd (magnitude m e) ->
      nearest_tenth m e n ->
      rounded_to_one_decimal (S754_finite s m e)
        ((if s then js "-" else []) ++ one_decimal n)
  | rounded_large (s : bool) (m : positive) (e : Z) :
      10 ^ 21 * snd (magnitude m e) <= fst (magnitude m e) ->
      rounded_to_one_decimal (S754_finite s m e)
        ((if s then js "-" else []) ++ toString_large m e).

(** A record for examples: only the four fields the aggregation reads
    vary. *)
Definition escalation_with (primaryRating : option number) (ratings : JsVal)
    (primaryComment : option jsstring) (comments : JsVal)
  : DeviceFilteredEscalation :=
  {| Escalation.id := js "e1";
     Escalation.restaurantId := js "r1";
     Escalation.formData := JObj [];
     Escalation.customerName := None;
     Escalation.customerPhone := None;
     Escalation.feedbackType := Escalation.inStore;
     Escalation.isEscalated := true;
     Escalation.escalationReason := None;
     Escalation.createdAt := js "2025-01-01T00:00:00.000Z";
     Escalation.severity := Some (js "high");
     Escalation.ratings := ratings;
     Escalation.comments := comments;
     Escalation.primaryRating := primaryRating;
     Escalation.primaryComment := primaryComment |}.

(** ** Ratings grid *)

(** A key with its first character upper-cased. *)
Definition capitalized (toUpperCase : jsstring -> jsstring) (key : jsstring)
  : jsstring :=
  match key with
  | [] => toUpperCase []
  | c :: rest => toUpperCase [c] ++ rest
  end.

(** The upper-case mapping on the letters a to z, which is all of it on
    ASCII text; it stands for the mapping of the platform in examples. *)
Definition ascii_toUpperCase (s : jsstring) : jsstring :=
  map (fun c => if (97 <=? c)%N && (c <=? 122)%N then (c - 32)%N else c) s.

Definition entry_of_cell (c : RatingCell) : jsstring * JsVal := (key c, value c).

Definition entry_of_rating (kx : jsstring * number) : jsstring * JsVal :=
  (fst kx, JNum (snd kx)).

(** ** The order of the keys of an object *)

Fixpoint digits_value (acc : N) (s : jsstring) : option N :=
  match s with
  | [] => Some acc
  | c :: rest =>
      if (48 <=? c)%N && (c <=? 57)%N
      then digits_value (10 * acc + (c - 48))%N rest
      else None
  end.

(** An array index: the canonical decimal string of an integer from 0
    to 2^32 - 2. *)
Definition array_index (key : jsstring) : option N :=
  match key with
  | [] => None
  | c :: rest =>
      if (c =? 48)%N && negb (bool_decide (rest = [])) then None
      else match digits_value 0 key with
           | Some n => if (n <? 2 ^ 32 - 1)%N then Some n else None
           | None => None
           end
  end.

Definition indexed (props : list (jsstring * JsVal))
  : list (N * (jsstring * JsVal)) :=
  omap (fun kv => match array_index (fst kv) with
                  | Some n => Some (n, kv)
                  | None => None
                  end) props.

Fixpoint insert_by_index (n : N) (kv : jsstring * JsVal)
    (sorted : list (N * (jsstring * JsVal))) : list (N * (jsstring * JsVal)) :=
  match sorted with
  | [] => [(n, kv)]
  | (m, kv') :: rest =>
      if (n <=? m)%N then (n, kv) :: sorted
      else (m, kv') :: insert_by_index n kv rest
  end.

Definition by_index (entries : list (N * (jsstring * JsVal)))
  : list (N * (jsstring * JsVal)) :=
  foldr (fun nkv acc => insert_by_index (fst nkv) (snd nkv) acc) [] entries.

(** OrdinaryOwnPropertyKeys on properties given in the order of their
    creation: the array indices in ascending order, then the other keys
    in the order of their creation. *)
Definition own_property_order (props : list (jsstring * JsVal))
  : list (jsstring * JsVal) :=
  map snd (by_index (indexed props))
  ++ filter (fun kv => array_index (fst kv) = None) props.

(** The properties of the object that a sequence of insertions builds,
    in the order of their creation: a key inserted again keeps its
    place and takes the new value. *)
Definition created (inserted : list (jsstring * JsVal)) : list (jsstring * JsVal) :=
  fold_left (fun props kv => set_property props (fst kv) (snd kv)) inserted [].

Definition object_of (inserted : list (jsstring * JsVal)) : JsVal :=
  JObj (own_property_order (created inserted)).

(** The grid keeps the order of insertion, on the mapping that the
    insertions build. *)
Definition insertion_order_kept (toUpperCase : jsstring -> jsstring)
    (inserted : list (jsstring * JsVal)) : Prop :=
  exists cells,
    getAvailableRatings toUpperCase
      (escalation_with None (object_of inserted) None JUndefined) = Normal cells /\
    map entry_of_cell cells = take 5 (map entry_of_rating (positive_entries inserted)).

Definition seven_descending : list (jsstring * JsVal) :=
  [(js "7", JNum (num_of_Z 7)); (js "6", JNum (num_of_Z 6));
   (js "5", JNum (num_of_Z 5)); (js "4", JNum (num_of_Z 4));
   (js "3", JNum (num_of_Z 3)); (js "2", JNum (num_of_Z 2));
   (js "1", JNum (num_of_Z 1))].

Definition seven_named : list (jsstring * JsVal) :=
  [(js "a", JNum (num_of_Z 1)); (js "b", JNum (num_of_Z 2));
   (js "c", JNum (num_of_Z 3)); (js "d", JNum (num_of_Z 4));
   (js "e", JNum (num_of_Z 5)); (js "f", JNum (num_of_Z 1));
   (js "g", JNum (num_of_Z 2))].

(** ** Comments *)

(** A string is blank when trimming leaves nothing of it. *)
Definition blank (s : jsstring) : bool := forallb is_whitespace s.

Definition primary_comment_unset (feedback : DeviceFilteredEscalation) : Prop :=
  match Escalation.primaryComment feedback with
  | None => True
  | Some c => blank c = true
  end.

(** The string values of a mapping that are not blank, in its order. *)
Fixpoint nonblank_comments (props : list (jsstring * JsVal)) : list jsstring :=
  match props with
  | [] => []
  | (_, JStr c) :: rest =>
      if blank c then nonblank_comments rest else c :: nonblank_comments rest
  | _ :: rest => nonblank_comments rest
  end.

(** The strings of a list with a separator between neighbours. *)
Fixpoint separated (sep : jsstring) (xs : list jsstring) : jsstring :=
  match xs with
  | [] => []
  | x :: rest =>
      match rest with
      | [] => x
      | _ :: _ => x ++ sep ++ separated sep rest
      end
  end.

(** ** Severity presentation *)

Definition high_style : BannerStyle :=
  {| backgroundColor := js "#FEF2F2"; iconName := js "alert-circle";
     iconColor := js "#EF4444"; textColor := js "#EF4444" |}.

Definition medium_style : BannerStyle :=
  {| backgroundColor := js "#FFFBEB"; iconName := js "warning";
     iconColor := js "#F59E0B"; textColor := js "#F59E0B" |}.

Definition info_style : BannerStyle :=
  {| backgroundColor := js "#EBF4FF"; iconName := js "information-circle";
     iconColor := js "#3B82F6"; textColor := js "#3B82F6" |}.

Definition defined_style (st : BannerStyle) : Prop :=
  backgroundColor st <> [] /\ iconName st <> [] /\
  iconColor st <> [] /\ textColor st <> [].

(** ** Device registration *)

(** No registration is held locally: the device identifier or the
    device secret is missing from the store. *)
Definition unregistered (w : World) : Prop :=
  storage w !! js "deviceId" = None \/ storage w !! js "deviceSecret" = None.

(** The identifier and the secret are stored together or not at all. *)
Definition credentials_paired (s : gmap jsstring jsstring) : Prop :=
  is_Some (s !! js "deviceId") <-> is_Some (s !! js "deviceSecret").

(** Only the console differs between two worlds. *)
Definition only_logged (w w' : World) : Prop :=
  storage w' = storage w /\ requests w' = requests w /\
  alerts w' = alerts w /\ screen w' = screen w.

Definition escalations_request (credentials : Credentials) : HttpRequest :=
  {| method := js "GET";
     url := js "https://api.twelvelabs.tech/api/escalations/device";
     body := JUndefined;
     headers := [(js "x-device-id", deviceId credentials);
                 (js "x-device-secret", deviceSecret credentials)] |}.

Definition not_registered_error : ConsoleCall :=
  {| level := LevelError;
     text := js "Failed to update subscription severity:";
     detail := Some (Error (js "Device not registered")) |}.

Definition not_registered_alert : AlertCall :=
  {| title := js "Error";
     message := js "Device not registered. Please register first.";
     buttons := [] |}.

Definition registration_failed_alert : AlertCall :=
  {| title := js "Registration Failed";
     message := js "Unable to register your device for notifications. Please try again.";
     buttons := [js "OK"] |}.

(** A platform for examples: a store without faults, a server that is
    down, notifications granted. *)
Definition offline_environment : Environment :=
  {| getItem_fault := fun _ => None;
     setItem_fault := fun _ => None;
     setItem_other := fun _ _ => Throw (TypeError (js "value is not a string"));
     server := fun _ _ => Failed (JStr (js "Network Error"));
     requestPermissionsAsync := Normal (js "granted");
     getExpoPushTokenAsync := Normal (js "ExponentPushToken[x]");
     osInternalBuildId := Some (js "build-1");
     modelId := None;
     deviceName := Some (js "phone");
     brand := None;
     modelName := None |}.

Definition fresh_world : World :=
  {| storage := ∅;
     requests := [];
     console := [];
     alerts := [];
     screen := {| registering := false;
                  deviceRegistration := JNull;
                  selectedSeverity := medium;
                  permissionStatus := js "granted" |} |}.

Definition registered_world : World :=
  {| storage := <[js "deviceId" := js "build-1"]>
                  (<[js "deviceSecret" := js "s3cret"]> ∅);
     requests := [];
     console := [];
     alerts := [];
     screen := {| registering := false;
                  deviceRegistration := JNull;
                  selectedSeverity := medium;
                  permissionStatus := js "granted" |} |}.

Definition registration_failed_error (error : JsVal) : ConsoleCall :=
  {| level := LevelError;
     text := js "Failed to register device:";
     detail := Some (Rejection error) |}.

(** An action that issues no request. *)
Definition keeps_requests {A} (m : Action A) : Prop :=
  forall w, requests (snd (m w)) = requests w.

(** A serializer and a parser for examples; the theorems hold for every
    JSON.stringify and JSON.parse. *)
Definition sample_stringify (v : JsVal) : jsstring := js "{}".

Definition sample_parse (s : jsstring) : Completion JsVal := Normal (JObj []).

(** * Further operations of the client *)

(** ** The rest of DeviceService and the push token provider *)

Section DeviceService.

Variable JSON_parse : jsstring -> Completion JsVal.
Variable env : Environment.

(** When the batch removal fails: the reason, and the keys that were
    removed before the failure. *)
Variable multiRemove_fault : option (JsVal * (jsstring -> bool)).

Definition AsyncStorage_multiRemove (keys : list jsstring) : Action unit :=
  fun w =>
    match multiRemove_fault with
    | Some (reason, removed) =>
        (Throw (Rejection reason),
         with_storage w
           (foldr delete (storage w) (filter (fun k => removed k = true) keys)))
    | None => (Normal tt, with_storage w (foldr delete (storage w) keys))
    end.

Definition sendHeartbeat (pushToken : option jsstring) : Action bool :=
  try_catch
    (await credentials <- getDeviceCredentials env ;;
     match credentials with
     | None =>
         console_log (js "No device credentials found for heartbeat") ;;;
         ret false
     | Some credentials =>
         let heartbeatData :=
           match pushToken with
           | Some token =>
               if truthy (JStr token) then [(js "pushToken", JStr token)] else []
           | None => []
           end in
         axios env
           {| method := js "POST";
              url := buildApiUrl API_ENDPOINTS.DEVICE_HEARTBEAT;
              body := JObj heartbeatData;
              headers := [(js "x-device-id", deviceId credentials);
                          (js "x-device-secret", deviceSecret credentials)] |} ;;;
         console_log (js "Device heartbeat sent successfully") ;;;
         ret true
     end)
    (fun error =>
       console_error (js "Failed to send device heartbeat:") error ;;;
       ret false).

Definition isDeviceRegistered : Action bool :=
  await registration <- getDeviceRegistration JSON_parse env ;;
  await credentials <- getDeviceCredentials env ;;
  ret (truthy registration
       && match credentials with Some _ => true | None => false end).

(** [registration?.subscriptionSeverity || null]. *)
Definition getSubscriptionSeverity : Action JsVal :=
  await registration <- getDeviceRegistration JSON_parse env ;;
  await severity <-
    (match registration with
     | JUndefined | JNull => ret JUndefined
     | _ => lift (get_property registration (js "subscriptionSeverity"))
     end) ;;
  ret (if truthy severity then severity else JNull).

Definition clearDeviceRegistration : Action unit :=
  try_catch
    (AsyncStorage_multiRemove
       [js "deviceRegistration"; js "deviceId"; js "deviceSecret"] ;;;
     console_log (js "Device registration cleared"))
    (fun error =>
       console_error (js "Failed to clear device registration:") error).

(** *** NotificationProvider *)

Definition API_BASE_URL : jsstring :=
  js "https://56ac3b63-8319-469f-bf69-ed75605af1f3-00-1my3hb9q1uspg.picard.replit.dev".

Definition sendTokenToServer (expoPushToken : jsstring) : Action unit :=
  try_catch
    (if negb (truthy (JStr expoPushToken)) then ret tt
     else
       await token <- AsyncStorage_getItem env (js "authToken") ;;
       match token with
       | Some token =>
           if absent (Some token) then ret tt
           else
             axios env
               {| method := js "POST";
                  url := API_BASE_URL ++ js "/api/register-push-token";
                  body := JObj [(js "expoPushToken", JStr expoPushToken)];
                  headers := [(js "Authorization", js "Bearer " ++ token)] |} ;;;
             console_log (js "Push token registered with server")
       | None => ret tt
       end)
    (fun error => console_error (js "Failed to register push token:") error).

End DeviceService.

(** ** The list screen: loading the escalations *)

(** The state hooks of the list screen. *)
Record FeedbackState : Type := {
  feedbacks : JsVal;
  loading : bool;
  refreshing : bool;
  deviceRegistered : bool;
  subscriptionSeverity : JsVal
}.

(** The device client together with the hooks of the mounted screen. *)
Record FeedbackWorld : Type := {
  device : World;
  hooks : FeedbackState
}.

Definition Handler (A : Type) : Type :=
  FeedbackWorld -> Completion A * FeedbackWorld.

(** A call into the device client. *)
Definition on_device {A} (m : Action A) : Handler A :=
  fun s =>
    let '(r, w') := m (device s) in
    (r, {| device := w'; hooks := hooks s |}).

Definition then_ {A B} (m : Handler A) (k : A -> Handler B) : Handler B :=
  fun s =>
    match m s with
    | (Normal a, s') => k a s'
    | (Throw e, s') => (Throw e, s')
    end.

Definition catching {A} (block : Handler A) (handler : Thrown -> Handler A)
  : Handler A :=
  fun s =>
    match block s with
    | (Normal a, s') => (Normal a, s')
    | (Throw e, s') => handler e s'
    end.

Definition finally {A} (block : Handler A) (finalizer : Handler unit) : Handler A :=
  fun s =>
    let '(r, s') := block s in
    match finalizer s' with
    | (Normal _, s'') => (r, s'')
    | (Throw e, s'') => (Throw e, s'')
    end.

Declare Scope handler_scope.
Delimit Scope handler_scope with handler.

Notation "'await' x <- m ;; k" := (then_ m (fun x => k))
  (at level 100, x name, m at next level, right associativity) : handler_scope.
Notation "m ;;; k" := (then_ m (fun _ => k))
  (at level 100, right associativity) : handler_scope.

Definition set_hooks (f : FeedbackState -> FeedbackState) : Handler unit :=
  fun s => (Normal tt, {| device := device s; hooks := f (hooks s) |}).

Definition setFeedbacks (v : JsVal) : Handler unit :=
  set_hooks (fun h =>
    {| feedbacks := v; loading := loading h; refreshing := refreshing h;
       deviceRegistered := deviceRegistered h;
       subscriptionSeverity := subscriptionSeverity h |}).

Definition setLoading (b : bool) : Handler unit :=
  set_hooks (fun h =>
    {| feedbacks := feedbacks h; loading := b; refreshing := refreshing h;
       deviceRegistered := deviceRegistered h;
       subscriptionSeverity := subscriptionSeverity h |}).

Definition setRefreshing (b : bool) : Handler unit :=
  set_hooks (fun h =>
    {| feedbacks := feedbacks h; loading := loading h; refreshing := b;
       deviceRegistered := deviceRegistered h;
       subscriptionSeverity := subscriptionSeverity h |}).

Definition setDeviceRegistered (b : bool) : Handler unit :=
  set_hooks (fun h =>
    {| feedbacks := feedbacks h; loading := loading h; refreshing := refreshing h;
       deviceRegistered := b;
       subscriptionSeverity := subscriptionSeverity h |}).

Definition setSubscriptionSeverity (v : JsVal) : Handler unit :=
  set_hooks (fun h =>
    {| feedbacks := feedbacks h; loading := loading h; refreshing := refreshing h;
       deviceRegistered := deviceRegistered h;
       subscriptionSeverity := v |}).

Section FeedbackScreen.

Variable JSON_parse : jsstring -> Completion JsVal.
Variable env : Environment.

Definition fetchDeviceFilteredEscalations : Handler unit :=
  (finally
     (catching
        (await escalations <- on_device (getDeviceFilteredEscalations env) ;;
         setFeedbacks escalations)
        (fun error =>
           on_device
             (console_error (js "Failed to fetch device-filtered escalations:")
                error) ;;;
           on_device
             (Alert_alert (js "Error")
                (js "Failed to load escalations. Please check your device registration.")
                [js "OK"; js "Register Device"])))
     (setLoading false ;;; setRefreshing false))%handler.

Definition initializeAndFetch : Handler unit :=
  (await isRegistered <- on_device (isDeviceRegistered JSON_parse env) ;;
   setDeviceRegistered isRegistered ;;;
   if isRegistered then
     await severity <- on_device (getSubscriptionSeverity JSON_parse env) ;;
     setSubscriptionSeverity severity ;;;
     fetchDeviceFilteredEscalations
   else setLoading false)%handler.

(** The value of [deviceRegistered] is that of the render in which the
    handler was created.  The handler does not wait for the work it
    starts; the result is the state once that work has ended. *)
Definition onRefresh : Handler unit :=
  fun s0 =>
    let deviceRegistered := deviceRegistered (hooks s0) in
    (setRefreshing true ;;;
     if deviceRegistered then fetchDeviceFilteredEscalations
     else initializeAndFetch)%handler s0.

End FeedbackScreen.

(** ** The detail screen: the row of stars *)

Definition num_sub : number -> number -> number := SFsub prec emax.

(** Math.floor. *)
Definition Math_floor (x : number) : number :=
  match x with
  | S754_finite s m e =>
      if 0 <=? e then x
      else if s then num_of_Z (- ((Z.pos m + 2 ^ (- e) - 1) / 2 ^ (- e)))
      else num_of_Z (Z.pos m / 2 ^ (- e))
  | _ => x
  end.

(** [x % 1]: the remainder has the sign of the dividend and is exact. *)
Definition remainder_by_one (x : number) : number :=
  match x with
  | S754_nan | S754_infinity _ => S754_nan
  | S754_zero _ => x
  | S754_finite s m e =>
      if 0 <=? e then S754_zero s
      else
        let r := Z.pos m mod 2 ^ (- e) in
        if r =? 0 then S754_zero s
        else binary_normalize prec emax (if s then - r else r) e false
  end.

Inductive Integral : Type :=
  | Integer (z : Z)
  | PositiveInfinity
  | NegativeInfinity.

Definition ToIntegerOrInfinity (x : number) : Integral :=
  match x with
  | S754_nan | S754_zero _ => Integer 0
  | S754_infinity s => if s then NegativeInfinity else PositiveInfinity
  | S754_finite s m e =>
      let t := if 0 <=? e then Z.pos m * 2 ^ e else Z.pos m / 2 ^ (- e) in
      Integer (if s then - t else t)
  end.

(** A result, or the RangeError a built-in raises. *)
Inductive Raised (A : Type) : Type :=
  | Returned (a : A)
  | RangeError.
Arguments Returned {A} a.
Arguments RangeError {A}.

(** String.prototype.repeat: a negative or an infinite count is a
    RangeError. *)
Definition String_repeat (s : jsstring) (count : number) : Raised jsstring :=
  match ToIntegerOrInfinity count with
  | Integer n =>
      if n <? 0 then RangeError
      else Returned (concat (replicate (Z.to_nat n) s))
  | PositiveInfinity | NegativeInfinity => RangeError
  end.

(** The characters U+2605 and U+2606. *)
Definition black_star : jsstring := [9733%N].
Definition white_star : jsstring := [9734%N].

Definition getStars (rating : number) : Raised jsstring :=
  let fullStars := Math_floor rating in
  let hasHalfStar := num_ge (remainder_by_one rating) (num_of_ratio 5 10) in
  let emptyStars :=
    num_sub (num_sub (num_of_Z 5) fullStars)
            (if hasHalfStar then num_of_Z 1 else num_of_Z 0) in
  match String_repeat black_star fullStars with
  | RangeError => RangeError
  | Returned full =>
      match String_repeat white_star emptyStars with
      | RangeError => RangeError
      | Returned empty =>
          Returned (full ++ (if hasHalfStar then white_star else []) ++ empty)
      end
  end.

(** ** The detail screen: contacting the customer *)

Definition line_feed : jsstring := [10%N].

Section Contact.

(** encodeURIComponent, which raises a URIError on a lone surrogate. *)
Variable encodeURIComponent : jsstring -> Completion jsstring.

Definition contactCustomer (feedback : DeviceFilteredEscalation) : Action unit :=
  if absent (Escalation.customerPhone feedback) then
    Alert_alert (js "No Contact Info") (js "Customer did not provide phone number") []
  else
    Alert_alert (js "Contact Customer")
      (js "Send WhatsApp message to " ++
       or_else (Escalation.customerName feedback) (js "customer") ++ js "?")
      [js "Cancel"; js "WhatsApp"].

(** The address the WhatsApp button of that alert opens; [customerPhone]
    is the phone number of the record, which is not empty there. *)
Definition whatsappUrl (feedback : DeviceFilteredEscalation)
    (customerPhone : jsstring) : Completion jsstring :=
  let phoneNumber :=
    if startsWith customerPhone (js "+") then customerPhone
    else js "+91" ++ customerPhone in
  let customerName :=
    or_else (Escalation.customerName feedback) (js "Valued Customer") in
  let defaultMessage :=
    js "Dear " ++ customerName ++ js "," ++ line_feed ++ line_feed ++
    js "Thank you for your feedback about your recent visit. We sincerely apologize for not meeting your expectations and take your concerns seriously." ++
    line_feed ++ line_feed ++
    js "We would like to make this right and discuss how we can improve your experience. Could we please speak with you?" ++
    line_feed ++ line_feed ++
    js "Thank you for giving us the opportunity to serve you better." ++
    line_feed ++ line_feed ++
    js "Best regards," ++ line_feed ++
    js "Restaurant Management" in
  encoded <~ encodeURIComponent defaultMessage ;;
  Normal (js "https://wa.me/" ++ replace phoneNumber (js "+") [] ++
          js "?text=" ++ encoded).

End Contact.

(** ** The notification channel screen: the subscription levels *)

Module SeverityOption.

Record t : Type := {
  level : SeverityLevel;
  title : jsstring;
  description : jsstring;
  icon : jsstring;
  color : jsstring;
  bgColor : jsstring
}.

End SeverityOption.

Definition severityOptions : list SeverityOption.t :=
  [ {| SeverityOption.level := high;
       SeverityOption.title := js "High Priority Only";
       SeverityOption.description := js "Critical issues and serious complaints only";
       SeverityOption.icon := js "alert-circle";
       SeverityOption.color := js "#EF4444";
       SeverityOption.bgColor := js "#FEF2F2" |};
    {| SeverityOption.level := medium;
       SeverityOption.title := js "Medium Priority";
       SeverityOption.description := js "Moderate issues requiring attention";
       SeverityOption.icon := js "warning";
       SeverityOption.color := js "#F59E0B";
       SeverityOption.bgColor := js "#FFFBEB" |};
    {| SeverityOption.level := low;
       SeverityOption.title := js "All Notifications";
       SeverityOption.description := js "All escalated feedback and minor issues";
       SeverityOption.icon := js "information-circle";
       SeverityOption.color := js "#3B82F6";
       SeverityOption.bgColor := js "#EBF4FF" |} ].

(** * Specification of the further operations *)

(** The identifier and the secret held by the store, both non-empty. *)
Definition stored_credentials (w : World) (credentials : Credentials) : Prop :=
  storage w !! js "deviceId" = Some (deviceId credentials) /\
  storage w !! js "deviceSecret" = Some (deviceSecret credentials) /\
  deviceId credentials <> [] /\ deviceSecret credentials <> [].

Definition heartbeat_request (credentials : Credentials) (pushToken : option jsstring)
  : HttpRequest :=
  {| method := js "POST";
     url := js "https://api.twelvelabs.tech/api/devices/heartbeat";
     body := JObj match pushToken with
                  | Some token => if bool_decide (token = []) then []
                                  else [(js "pushToken", JStr token)]
                  | None => []
                  end;
     headers := [(js "x-device-id", deviceId credentials);
                 (js "x-device-secret", deviceSecret credentials)] |}.

Definition subscription_request (credentials : Credentials)
    (newSeverity : SeverityLevel) : HttpRequest :=
  {| method := js "PATCH";
     url := buildApiUrl
              (replace API_ENDPOINTS.DEVICE_SUBSCRIPTION (js ":deviceId")
                       (deviceId credentials));
     body := JObj [(js "subscriptionSeverity", JStr (severity_text newSeverity))];
     headers := [(js "x-device-secret", deviceSecret credentials)] |}.

Definition push_token_request (expoPushToken token : jsstring) : HttpRequest :=
  {| method := js "POST";
     url := API_BASE_URL ++ js "/api/register-push-token";
     body := JObj [(js "expoPushToken", JStr expoPushToken)];
     headers := [(js "Authorization", js "Bearer " ++ token)] |}.

(** The registration with its severity replaced. *)
Definition with_severity (registration : JsVal) (newSeverity : SeverityLevel) : JsVal :=
  spread_with registration (js "subscriptionSeverity")
    (JStr (severity_text newSeverity)).

Definition update_failed_alert : AlertCall :=
  {| title := js "Update Failed";
     message := js "Unable to update your notification subscription. Please try again.";
     buttons := [js "OK"] |}.

(** The identifier the device registers under. *)
Definition device_identifier (env : Environment) : jsstring :=
  or_else (osInternalBuildId env) (or_else (modelId env) (js "unknown")).

Definition register_request (env : Environment) (severity : SeverityLevel)
    (pushToken : jsstring) : HttpRequest :=
  {| method := js "POST";
     url := js "https://api.twelvelabs.tech/api/devices/register";
     body := JObj [(js "deviceId", JStr (device_identifier env));
                   (js "deviceName",
                    JStr (or_else (deviceName env)
                            (template (brand env) ++ js " " ++
                             template (modelName env))));
                   (js "pushToken", JStr pushToken);
                   (js "subscriptionSeverity", JStr (severity_text severity))];
     headers := [] |}.

(** [data.key] on an object. *)
Definition property (props : list (jsstring * JsVal)) (key : jsstring) : JsVal :=
  match find (fun kv => bool_decide (fst kv = key)) props with
  | Some kv => snd kv
  | None => JUndefined
  end.

(** The registration kept from the reply of the server. *)
Definition registration_of (props : list (jsstring * JsVal)) : JsVal :=
  JObj [(js "id", property props (js "id"));
        (js "deviceSecret", property props (js "deviceSecret"));
        (js "subscriptionSeverity", property props (js "subscriptionSeverity"))].

(** The user is signed in and the notifications are or get granted. *)
Definition may_register (env : Environment) (user : option JsVal) (w : World) : Prop :=
  (exists u, user = Some u /\ truthy u = true) /\
  (permissionStatus (screen w) = js "granted" \/
   requestPermissionsAsync env = Normal (js "granted")).

Definition load_failed_alert : AlertCall :=
  {| title := js "Error";
     message := js "Failed to load escalations. Please check your device registration.";
     buttons := [js "OK"; js "Register Device"] |}.

(** A row of five stars of which the first [filled] are black. *)
Definition star_row (filled : Z) : jsstring :=
  replicate (Z.to_nat filled) 9733%N ++ replicate (Z.to_nat (5 - filled)) 9734%N.

Definition Raised_eqb (a b : Raised jsstring) : bool :=
  match a, b with
  | Returned x, Returned y => bool_decide (x = y)
  | RangeError, RangeError => true
  | _, _ => false
  end.

Definition no_contact_alert : AlertCall :=
  {| title := js "No Contact Info";
     message := js "Customer did not provide phone number";
     buttons := [] |}.

(** The number WhatsApp is addressed with. *)
Definition whatsapp_number (customerPhone : jsstring) : jsstring :=
  if startsWith customerPhone (js "+") then drop 1 customerPhone
  else js "91" ++ customerPhone.

(** The banner style an option of the subscription screen is drawn
    with. *)
Definition option_style (option : SeverityOption.t) : BannerStyle :=
  {| backgroundColor := SeverityOption.bgColor option;
     iconName := SeverityOption.icon option;
     iconColor := SeverityOption.color option;
     textColor := SeverityOption.color option |}.

(** *** Platforms and states for examples *)

Definition sample_reply : list (jsstring * JsVal) :=
  [(js "id", JStr (js "d-1"));
   (js "deviceSecret", JStr (js "s3cret"));
   (js "subscriptionSeverity", JStr (js "medium"))].

(** A server that accepts every request. *)
Definition online_environment : Environment :=
  {| getItem_fault := fun _ => None;
     setItem_fault := fun _ => None;
     setItem_other := fun _ _ => Throw (TypeError (js "value is not a string"));
     server := fun _ _ => Fulfilled (JObj sample_reply);
     requestPermissionsAsync := Normal (js "granted");
     getExpoPushTokenAsync := Normal (js "ExponentPushToken[x]");
     osInternalBuildId := Some (js "build-1");
     modelId := None;
     deviceName := Some (js "phone");
     brand := None;
     modelName := None |}.

(** The same, on a store that fails to write the secret. *)
Definition failing_store_environment : Environment :=
  {| getItem_fault := fun _ => None;
     setItem_fault := fun key =>
       if bool_decide (key = js "deviceSecret")
       then Some (JStr (js "disk full")) else None;
     setItem_other := fun _ _ => Throw (TypeError (js "value is not a string"));
     server := fun _ _ => Fulfilled (JObj sample_reply);
     requestPermissionsAsync := Normal (js "granted");
     getExpoPushTokenAsync := Normal (js "ExponentPushToken[x]");
     osInternalBuildId := Some (js "build-1");
     modelId := None;
     deviceName := Some (js "phone");
     brand := None;
     modelName := None |}.

Definition build_1_credentials : Credentials :=
  {| deviceId := js "build-1"; deviceSecret := js "s3cret" |}.

Definition medium_registration : JsVal :=
  JObj [(js "subscriptionSeverity", JStr (js "medium"))].

(** A registered device whose screen shows the registration. *)
Definition subscribed_world : World :=
  {| storage := <[js "deviceRegistration" := js "medium"]>
                  (<[js "deviceId" := js "build-1"]>
                     (<[js "deviceSecret" := js "s3cret"]> ∅));
     requests := [];
     console := [];
     alerts := [];
     screen := {| registering := false;
                  deviceRegistration := medium_registration;
                  selectedSeverity := medium;
                  permissionStatus := js "granted" |} |}.

(** A serialization for examples that keeps the severity only, and the
    parser that reads it back. *)
Definition severity_stringify (v : JsVal) : jsstring :=
  match get_property v (js "subscriptionSeverity") with
  | Normal (JStr s) => s
  | _ => js "none"
  end.

Definition severity_parse (s : jsstring) : Completion JsVal :=
  Normal (JObj [(js "subscriptionSeverity", JStr s)]).

Definition sample_encode (s : jsstring) : Completion jsstring := Normal s.

Definition initial_hooks : FeedbackState :=
  {| feedbacks := JArr [];
     loading := true;
     refreshing := false;
     deviceRegistered := false;
     subscriptionSeverity := JNull |}.

Definition escalation_of (customerPhone : option jsstring)
  : DeviceFilteredEscalation :=
  {| Escalation.id := js "e1";
     Escalation.restaurantId := js "r1";
     Escalation.formData := JObj [];
     Escalation.customerName := Some (js "Asha");
     Escalation.customerPhone := customerPhone;
     Escalation.feedbackType := Escalation.inStore;
     Escalation.isEscalated := true;
     Escalation.escalationReason := None;
     Escalation.createdAt := js "2025-01-01T00:00:00.000Z";
     Escalation.severity := Some (js "high");
     Escalation.ratings := JObj [];
     Escalation.comments := JObj [];
     Escalation.primaryRating := None;
     Escalation.primaryComment := None |}.

(** * Verification *)

(** ** Decimal digits *)

Lemma decimal_fuel_acc (fuel : nat) (n : N) (acc : jsstring) :
  decimal_fuel fuel n acc = decimal_fuel fuel n [] ++ acc.
Proof.
  revert n acc. induction fuel as [|fuel IH]; intros n acc; [reflexivity|].
  cbn [decimal_fuel]. destruct (n <? 10)%N; [reflexivity|].
  rewrite IH, (IH _ [_]), <- app_assoc. reflexivity.
Qed.

Lemma decimal_fuel_enough (f1 f2 : nat) (n : N) :
  (0 < f1)%nat -> (0 < f2)%nat ->
  (n < 2 ^ N.of_nat f1)%N -> (n < 2 ^ N.of_nat f2)%N ->
  decimal_fuel f1 n [] = decimal_fuel f2 n [].
Proof.
  revert f2 n. induction f1 as [|f1 IH]; intros f2 n H1 H2 Hn1 Hn2; [lia|].
  destruct f2 as [|f2]; [lia|]. cbn [decimal_fuel].
  destruct (N.ltb_spec n 10) as [Hlt|Hge]; [reflexivity|].
  rewrite decimal_fuel_acc, (decimal_fuel_acc f2). f_equal.
  assert (Hpow : forall f : nat, (n < 2 ^ N.of_nat (S f))%N ->
                  (0 < f)%nat /\ (n / 10 < 2 ^ N.of_nat f)%N).
  { intros f Hf. rewrite Nat2N.inj_succ, N.pow_succ_r' in Hf. split.
    - destruct f; [|lia]. simpl in Hf. lia.
    - apply N.Div0.div_lt_upper_bound. lia. }
  destruct (Hpow _ Hn1), (Hpow _ Hn2). apply IH; assumption.
Qed.

Lemma decimal_small (n : N) : (n < 10)%N -> decimal n = [(48 + n)%N].
Proof.
  intros H. unfold decimal. cbn [decimal_fuel].
  destruct (N.ltb_spec n 10); [|lia]. rewrite N.mod_small by assumption. reflexivity.
Qed.

Lemma log2_bound (n : N) : (n < 2 ^ N.of_nat (S (N.to_nat (N.log2 n))))%N.
Proof.
  rewrite Nat2N.inj_succ, N2Nat.id. destruct n as [|p]; [reflexivity|].
  apply N.log2_spec. lia.
Qed.

Lemma decimal_step (n : N) :
  (10 <= n)%N -> decimal n = decimal (n / 10) ++ [(48 + n mod 10)%N].
Proof.
  intros H. unfold decimal at 1. cbn [decimal_fuel].
  destruct (N.ltb_spec n 10); [lia|]. rewrite decimal_fuel_acc. f_equal.
  pose proof (log2_bound n) as Hn. rewrite Nat2N.inj_succ, N.pow_succ_r' in Hn.
  assert (0 < N.to_nat (N.log2 n))%nat.
  { destruct (N.to_nat (N.log2 n)) eqn:E; [|lia]. simpl in Hn. lia. }
  apply decimal_fuel_enough; try lia.
  - apply N.Div0.div_lt_upper_bound. lia.
  - apply log2_bound.
Qed.

Lemma decimal_nonempty (n : N) : (0 < length (decimal n))%nat.
Proof. unfold decimal. cbn [decimal_fuel]. destruct (n <? 10)%N; [simpl; lia|].
  rewrite decimal_fuel_acc, length_app. simpl. lia. Qed.

Lemma fixed1_digits_one_decimal (n : Z) : 0 <= n -> fixed1_digits n = one_decimal n.
Proof.
  intros Hn. unfold fixed1_digits, one_decimal.
  assert (Hmod : Z.to_N (n mod 10) = (Z.to_N n mod 10)%N) by (apply Z2N.inj_mod; lia).
  assert (Hdiv : Z.to_N (n / 10) = (Z.to_N n / 10)%N) by (apply Z2N.inj_div; lia).
  rewrite Hmod, Hdiv. set (k := Z.to_N n).
  rewrite (decimal_small (k mod 10)) by (apply N.mod_lt; lia).
  destruct (N.lt_ge_cases k 10) as [Hlt|Hge].
  - rewrite (decimal_small k Hlt), N.mod_small, N.div_small by assumption.
    reflexivity.
  - rewrite (decimal_step k Hge).
    pose proof (decimal_nonempty (k / 10)) as Hne.
    cbv zeta. rewrite !length_app. cbn [length].
    destruct (Nat.leb_spec (length (decimal (k / 10)) + 1) 1); [lia|].
    rewrite !length_app. cbn [length].
    replace (length (decimal (k / 10)) + 1 - 1)%nat
      with (length (decimal (k / 10))) by lia.
    rewrite take_app_length, drop_app_length. reflexivity.
Qed.

(** ** Rounding to tenths *)

Lemma tenths_nonneg (m : positive) (e : Z) : 0 <= tenths m e.
Proof.
  unfold tenths. destruct (Z.leb_spec 0 e).
  - pose proof (Z.pow_nonneg 2 e). nia.
  - apply Z.div_pos.
    + pose proof (Z.pow_nonneg 2 (- e)). lia.
    + apply Z.pow_pos_nonneg; lia.
Qed.

Lemma tenths_nearest (m : positive) (e : Z) : nearest_tenth m e (tenths m e).
Proof.
  unfold nearest_tenth, magnitude, tenths. destruct (Z.leb_spec 0 e); cbn [fst snd].
  - lia.
  - replace (- e + 1) with (Z.succ (- e)) by lia. rewrite Z.pow_succ_r by lia.
    assert (Hp : 0 < 2 ^ (- e)) by (apply Z.pow_pos_nonneg; lia).
    set (q := 2 ^ (- e)) in *.
    pose proof (Z.div_mod (20 * Z.pos m + q) (2 * q) ltac:(lia)) as Hd.
    pose proof (Z.mod_pos_bound (20 * Z.pos m + q) (2 * q) ltac:(lia)) as Hb.
    set (n := (20 * Z.pos m + q) / (2 * q)) in *. nia.
Qed.

Lemma magnitude_denominator (m : positive) (e : Z) : 0 < snd (magnitude m e).
Proof.
  unfold magnitude. destruct (Z.leb_spec 0 e); unfold snd; [reflexivity|].
  apply Z.pow_pos_nonneg; lia.
Qed.

(** The nearest tenth is determined by the number. *)
Lemma nearest_tenth_unique (m : positive) (e n n' : Z) :
  nearest_tenth m e n -> nearest_tenth m e n' -> n = n'.
Proof.
  unfold nearest_tenth. pose proof (magnitude_denominator m e) as Hq.
  set (q := snd (magnitude m e)) in *. set (p := fst (magnitude m e)).
  intros [A B] [C D].
  assert (H1 : (2 * n - 1) * q < (2 * n' + 1) * q) by lia.
  assert (H2 : (2 * n' - 1) * q < (2 * n + 1) * q) by lia.
  apply Z.mul_lt_mono_pos_r in H1; [|exact Hq].
  apply Z.mul_lt_mono_pos_r in H2; [|exact Hq]. lia.
Qed.

Lemma at_least_1e21_spec (m : positive) (e : Z) :
  at_least_1e21 m e = true <->
  10 ^ 21 * snd (magnitude m e) <= fst (magnitude m e).
Proof.
  unfold at_least_1e21, magnitude. destruct (0 <=? e); cbn [fst snd];
    rewrite Z.leb_le; lia.
Qed.

Lemma toFixed1_rounded (x : number) : rounded_to_one_decimal x (toFixed1 x).
Proof.
  destruct x as [s|s| |s m e]; cbn [toFixed1].
  - apply rounded_zero.
  - destruct s; [apply (rounded_infinity true) | apply (rounded_infinity false)].
  - apply rounded_nan.
  - destruct (at_least_1e21 m e) eqn:E.
    + apply rounded_large. apply at_least_1e21_spec. exact E.
    + rewrite fixed1_digits_one_decimal by apply tenths_nonneg.
      apply rounded_tenths; [|apply tenths_nearest].
      destruct (Z.lt_ge_cases (fst (magnitude m e)) (10 ^ 21 * snd (magnitude m e)))
        as [Hlt|Hge]; [exact Hlt|].
      apply at_least_1e21_spec in Hge. congruence.
Qed.

(** ** The number model on known values *)

Example toFixed1_integer : toFixed1 (num_of_Z 3) = js "3.0".
Proof. vm_compute. reflexivity. Qed.

Example toFixed1_half : toFixed1 (num_of_ratio 45 10) = js "4.5".
Proof. vm_compute. reflexivity. Qed.

Example toFixed1_negative_small : toFixed1 (num_of_ratio (-1) 100) = js "-0.0".
Proof. vm_compute. reflexivity. Qed.

(** The rounding acts on the binary value of the number: 1.25 is a tie
    and goes up, the number written 1.45 lies below 1.45 and goes down. *)
Example toFixed1_tie : toFixed1 (num_of_ratio 125 100) = js "1.3".
Proof. vm_compute. reflexivity. Qed.

Example toFixed1_below_tie : toFixed1 (num_of_ratio 145 100) = js "1.4".
Proof. vm_compute. reflexivity. Qed.

Example toFixed1_1e21 : toFixed1 (num_of_Z (10 ^ 21)) = js "1e+21".
Proof. vm_compute. reflexivity. Qed.

Example toFixed1_large :
  toFixed1 (num_of_Z (2 ^ 70)) = js "1.1805916207174113e+21".
Proof. vm_compute. reflexivity. Qed.

Example toFixed1_overflow : toFixed1 (num_of_Z (2 ^ 1024)) = js "Infinity".
Proof. vm_compute. reflexivity. Qed.

Example trim_example : trim (js "  a b  ") = js "a b".
Proof. vm_compute. reflexivity. Qed.

Example replace_example :
  replace API_ENDPOINTS.DEVICE_SUBSCRIPTION (js ":deviceId") (js "build-1")
  = js "/api/devices/build-1/subscription".
Proof. vm_compute. reflexivity. Qed.

(** ** Comparisons *)

Lemma num_of_Z_0 : num_of_Z 0 = S754_zero false.
Proof. reflexivity. Qed.

Lemma num_of_Z_3 : num_of_Z 3 = S754_finite false 6755399441055744 (-51).
Proof. vm_compute. reflexivity. Qed.

Lemma num_of_Z_4 : num_of_Z 4 = S754_finite false 4503599627370496 (-50).
Proof. vm_compute. reflexivity. Qed.

Lemma SFcompare_antisym (x y : number) :
  SFcompare y x = option_map CompOpp (SFcompare x y).
Proof.
  destruct x as [sx|sx| |sx mx ex], y as [sy|sy| |sy my ey];
    try destruct sx; try destruct sy; cbn [SFcompare option_map CompOpp];
    try reflexivity;
    rewrite (Z.compare_antisym ex ey);
    destruct (ex ?= ey); cbn [CompOpp]; try reflexivity;
    rewrite (Pos.compare_cont_antisym mx my Eq); cbn [CompOpp];
    destruct (Pos.compare_cont Eq my mx); reflexivity.
Qed.

Lemma num_lt_not_ge (x y : number) : num_lt x y = true -> num_ge x y = false.
Proof.
  unfold num_lt, num_ge, SFltb, SFleb. rewrite (SFcompare_antisym x y).
  destruct (SFcompare x y) as [[]|]; cbn [option_map CompOpp]; congruence.
Qed.

Lemma lt_3_not_ge_4 (x : number) :
  num_lt x (num_of_Z 3) = true -> num_ge x (num_of_Z 4) = false.
Proof.
  rewrite num_of_Z_3, num_of_Z_4. unfold num_lt, num_ge, SFltb, SFleb.
  destruct x as [s|s| |s m e]; cbn [SFcompare]; try destruct s;
    try discriminate; try reflexivity.
  destruct (Z.compare_spec e (-51)) as [->|Hlt|Hgt]; try discriminate.
  - reflexivity.
  - intros _. destruct (Z.compare_spec (-50) e); try lia; reflexivity.
Qed.

Lemma positive_is_truthy (x : number) :
  num_gt x (num_of_Z 0) = true -> num_truthy x = true.
Proof. rewrite num_of_Z_0. destruct x as [s|s| |s m e]; try destruct s; easy. Qed.

(** ** The average rating *)

Lemma omap_positive_number (props : list (jsstring * JsVal)) :
  omap positive_number (map snd props) = positive_ratings props.
Proof.
  unfold positive_ratings.
  induction props as [|[k v] props IH]; [reflexivity|].
  change (omap positive_number (map snd ((k, v) :: props)))
    with (match positive_number v with
          | Some y => y :: omap positive_number (map snd props)
          | None => omap positive_number (map snd props)
          end).
  rewrite IH. cbn [positive_entries].
  destruct v as [| | |x| | |]; cbn [positive_number]; try reflexivity.
  destruct (num_gt x (num_of_Z 0)); reflexivity.
Qed.

Lemma fold_left_num_add (xs : list number) (acc : number) :
  fold_left num_add xs acc = sum_from acc xs.
Proof. revert acc. induction xs as [|x xs IH]; intros acc; [reflexivity|apply IH]. Qed.

(** Without a primary rating the result is read off the mapping. *)
Lemma getAverageRating_from_mapping (feedback : DeviceFilteredEscalation)
    (props : list (jsstring * JsVal)) :
  primary_rating_unset feedback ->
  Escalation.ratings feedback = JObj props ->
  getAverageRating feedback =
    Normal (match positive_ratings props with
            | [] => js "0.0"
            | _ :: _ => toFixed1 (arithmetic_mean (positive_ratings props))
            end).
Proof.
  intros Hp Hr. unfold getAverageRating. rewrite Hr.
  cbn [truthy typeof TypeTag_eqb andb Object_values Object_entries cbind].
  rewrite omap_positive_number, fold_left_num_add.
  fold (arithmetic_mean (positive_ratings props)).
  assert (Hlen : (0 <? length (positive_ratings props))%nat
                 = match positive_ratings props with [] => false | _ => true end)
    by (destruct (positive_ratings props); reflexivity).
  rewrite Hlen.
  unfold primary_rating_unset in Hp.
  destruct (Escalation.primaryRating feedback) as [p|].
  - rewrite Hp, andb_false_r. destruct (positive_ratings props); reflexivity.
  - destruct (positive_ratings props); reflexivity.
Qed.

Lemma positive_ratings_In (props : list (jsstring * JsVal)) (k : jsstring) (x : number) :
  In (k, JNum x) props -> num_gt x (num_of_Z 0) = true ->
  positive_ratings props <> [].
Proof.
  unfold positive_ratings.
  induction props as [|[k' v] props IH]; intros Hin Hx; [destruct Hin|].
  destruct Hin as [Heq|Hin].
  - injection Heq as -> ->. cbn [positive_entries]. rewrite Hx. discriminate.
  - specialize (IH Hin Hx). cbn [positive_entries].
    destruct v as [| | |y| | |]; try exact IH.
    destruct (num_gt y (num_of_Z 0)); [discriminate|exact IH].
Qed.

(** C1: when no primary rating counts and the mapping of named ratings
    holds at least one number greater than 0, getAverageRating returns
    the arithmetic mean of exactly the numbers greater than 0 among the
    values of the mapping, rounded to one decimal place; for the ratings
    {a: 2, b: 4} it returns 3.0. *)
Theorem getAverageRating_mean_of_positive_ratings :
  (forall (feedback : DeviceFilteredEscalation) (props : list (jsstring * JsVal)),
      primary_rating_unset feedback ->
      Escalation.ratings feedback = JObj props ->
      (exists k x, In (k, JNum x) props /\ num_gt x (num_of_Z 0) = true) ->
      getAverageRating feedback
        = Normal (toFixed1 (arithmetic_mean (positive_ratings props))) /\
      rounded_to_one_decimal (arithmetic_mean (positive_ratings props))
        (toFixed1 (arithmetic_mean (positive_ratings props)))) /\
  (forall feedback : DeviceFilteredEscalation,
      primary_rating_unset feedback ->
      Escalation.ratings feedback =
        JObj [(js "a", JNum (num_of_Z 2)); (js "b", JNum (num_of_Z 4))] ->
      getAverageRating feedback = Normal (js "3.0")).
Proof.
  split.
  - intros feedback props Hp Hr (k & x & Hin & Hx). split.
    + rewrite (getAverageRating_from_mapping feedback props Hp Hr).
      pose proof (positive_ratings_In props k x Hin Hx).
      destruct (positive_ratings props); [congruence|reflexivity].
    + apply toFixed1_rounded.
  - intros feedback Hp Hr.
    rewrite (getAverageRating_from_mapping feedback _ Hp Hr).
    vm_compute. reflexivity.
Qed.

Lemma getAverageRating_mean_of_positive_ratings_witness :
  getAverageRating
    (escalation_with None
       (JObj [(js "service", JNum (num_of_Z 5)); (js "note", JStr (js "x"));
              (js "food", JNum (num_of_Z 2)); (js "speed", JNum (num_of_Z 0))])
       None JUndefined)
  = Normal (toFixed1 (arithmetic_mean [num_of_Z 5; num_of_Z 2])) /\
  toFixed1 (arithmetic_mean [num_of_Z 5; num_of_Z 2]) = js "3.5".
Proof.
  split; [|vm_compute; reflexivity].
  apply (proj1 getAverageRating_mean_of_positive_ratings
           (escalation_with None
              (JObj [(js "service", JNum (num_of_Z 5)); (js "note", JStr (js "x"));
                     (js "food", JNum (num_of_Z 2)); (js "speed", JNum (num_of_Z 0))])
              None JUndefined)
           [(js "service", JNum (num_of_Z 5)); (js "note", JStr (js "x"));
            (js "food", JNum (num_of_Z 2)); (js "speed", JNum (num_of_Z 0))]).
  - exact I.
  - reflexivity.
  - exists (js "service"), (num_of_Z 5).
    split; [left; reflexivity | vm_compute; reflexivity].
Defined.

(** The mean is the quotient of the language: seventeen ratings of 1
    and three of 2 have the sum 23, and 23 / 20 is the number nearest to
    1.15, which lies below it and is shown as 1.1. *)
Example getAverageRating_binary_quotient :
  getAverageRating
    (escalation_with None
       (JObj (map (fun i => (js "q" ++ decimal (N.of_nat i), JNum (num_of_Z 1)))
                  (seq 1 17) ++
              map (fun i => (js "q" ++ decimal (N.of_nat i), JNum (num_of_Z 2)))
                  (seq 18 3)))
       None JUndefined)
  = Normal (js "1.1").
Proof. vm_compute. reflexivity. Qed.

(** C2: a primary rating that is present and greater than 0 is returned
    rounded to one decimal place, whatever the mapping of named ratings
    holds; with the primary rating 4.5 and the ratings {a: 1} the result
    is 4.5. *)
Theorem getAverageRating_primary_rating_first :
  (forall (feedback : DeviceFilteredEscalation) (p : number),
      Escalation.primaryRating feedback = Some p ->
      num_gt p (num_of_Z 0) = true ->
      getAverageRating feedback = Normal (toFixed1 p) /\
      rounded_to_one_decimal p (toFixed1 p)) /\
  (forall feedback : DeviceFilteredEscalation,
      Escalation.primaryRating feedback = Some (num_of_ratio 45 10) ->
      Escalation.ratings feedback = JObj [(js "a", JNum (num_of_Z 1))] ->
      getAverageRating feedback = Normal (js "4.5")).
Proof.
  assert (H : forall feedback p,
             Escalation.primaryRating feedback = Some p ->
             num_gt p (num_of_Z 0) = true ->
             getAverageRating feedback = Normal (toFixed1 p)).
  { intros feedback p Hp Hgt. unfold getAverageRating.
    rewrite Hp, Hgt, (positive_is_truthy p Hgt). reflexivity. }
  split.
  - intros feedback p Hp Hgt. split; [apply H; assumption|apply toFixed1_rounded].
  - intros feedback Hp _. rewrite (H feedback _ Hp); vm_compute; reflexivity.
Qed.

Lemma getAverageRating_primary_rating_first_witness :
  getAverageRating
    (escalation_with (Some (num_of_ratio 38 10))
       (JObj [(js "a", JNum (num_of_Z 1))]) None JUndefined)
  = Normal (toFixed1 (num_of_ratio 38 10)) /\
  rounded_to_one_decimal (num_of_ratio 38 10) (toFixed1 (num_of_ratio 38 10)).
Proof.
  apply (proj1 getAverageRating_primary_rating_first
           (escalation_with (Some (num_of_ratio 38 10))
              (JObj [(js "a", JNum (num_of_Z 1))]) None JUndefined)).
  - reflexivity.
  - vm_compute. reflexivity.
Defined.

Lemma omap_positive_number_nil (values : list JsVal) :
  (forall x, In (JNum x) values -> num_gt x (num_of_Z 0) = false) ->
  omap positive_number values = [].
Proof.
  induction values as [|v values IH]; intros H; [reflexivity|].
  change (omap positive_number (v :: values))
    with (match positive_number v with
          | Some y => y :: omap positive_number values
          | None => omap positive_number values
          end).
  rewrite IH by (intros x Hx; apply H; right; exact Hx).
  destruct v as [| | |x| | |]; try reflexivity.
  cbn [positive_number]. rewrite (H x) by (left; reflexivity). reflexivity.
Qed.

Lemma Object_values_guarded (v : JsVal) :
  truthy v && TypeTag_eqb (typeof v) TObject = true ->
  exists values, Object_values v = Normal values.
Proof.
  destruct v; try discriminate; intros _; eexists; reflexivity.
Qed.

(** C3: with no primary rating and no number greater than 0 among the
    named ratings, getAverageRating returns 0.0; and on every record it
    returns a string, never raising an error. *)
Theorem getAverageRating_total_with_zero_default :
  (forall feedback : DeviceFilteredEscalation,
      primary_rating_unset feedback ->
      (forall values x,
          Object_values (Escalation.ratings feedback) = Normal values ->
          In (JNum x) values -> num_gt x (num_of_Z 0) = false) ->
      getAverageRating feedback = Normal (js "0.0")) /\
  (forall feedback : DeviceFilteredEscalation,
      exists s, getAverageRating feedback = Normal s).
Proof.
  split.
  - intros feedback Hp Hnone. unfold getAverageRating.
    assert (Hfrom :
      (if truthy (Escalation.ratings feedback)
          && TypeTag_eqb (typeof (Escalation.ratings feedback)) TObject
       then
         values <~ Object_values (Escalation.ratings feedback) ;;
         (if (0 <? length (omap positive_number values))%nat
          then Normal (toFixed1
                 (num_div (fold_left num_add (omap positive_number values) (num_of_Z 0))
                          (num_of_Z (Z.of_nat (length (omap positive_number values))))))
          else Normal (js "0.0"))
       else Normal (js "0.0")) = Normal (js "0.0")).
    { destruct (truthy (Escalation.ratings feedback)
                && TypeTag_eqb (typeof (Escalation.ratings feedback)) TObject) eqn:G;
        [|reflexivity].
      destruct (Object_values_guarded _ G) as [values Hv]. rewrite Hv.
      cbn [cbind]. rewrite (omap_positive_number_nil values (fun x => Hnone values x Hv)).
      reflexivity. }
    cbv zeta. rewrite Hfrom. unfold primary_rating_unset in Hp.
    destruct (Escalation.primaryRating feedback) as [p|]; [|reflexivity].
    rewrite Hp, andb_false_r. reflexivity.
  - intros feedback. unfold getAverageRating. cbv zeta.
    assert (Hfrom : exists s,
      (if truthy (Escalation.ratings feedback)
          && TypeTag_eqb (typeof (Escalation.ratings feedback)) TObject
       then
         values <~ Object_values (Escalation.ratings feedback) ;;
         (if (0 <? length (omap positive_number values))%nat
          then Normal (toFixed1
                 (num_div (fold_left num_add (omap positive_number values) (num_of_Z 0))
                          (num_of_Z (Z.of_nat (length (omap positive_number values))))))
          else Normal (js "0.0"))
       else Normal (js "0.0")) = Normal s).
    { destruct (truthy (Escalation.ratings feedback)
                && TypeTag_eqb (typeof (Escalation.ratings feedback)) TObject) eqn:G;
        [|eexists; reflexivity].
      destruct (Object_values_guarded _ G) as [values Hv]. rewrite Hv.
      cbn [cbind]. destruct (0 <? length (omap positive_number values))%nat;
        eexists; reflexivity. }
    destruct Hfrom as [s Hs].
    destruct (Escalation.primaryRating feedback) as [p|].
    + destruct (num_truthy p && num_gt p (num_of_Z 0)); eexists; [reflexivity|exact Hs].
    + exists s. exact Hs.
Qed.

Lemma getAverageRating_total_with_zero_default_witness :
  getAverageRating
    (escalation_with None
       (JObj [(js "service", JNum (num_of_Z 0)); (js "note", JStr (js "5"))])
       None JUndefined)
  = Normal (js "0.0").
Proof.
  apply (proj1 getAverageRating_total_with_zero_default
           (escalation_with None
              (JObj [(js "service", JNum (num_of_Z 0)); (js "note", JStr (js "5"))])
              None JUndefined)).
  - exact I.
  - intros values x Hv Hin. injection Hv as <-.
    destruct Hin as [Hin|[Hin|[]]]; [|discriminate].
    injection Hin as <-. reflexivity.
Defined.

(** C4: getRatingColor splits the ratings at 4 and at 3, each bound
    belonging to the tier above it: a rating of at least 4 gets the
    success colour, a rating of at least 3 and below 4 the warning
    colour, a rating below 3 the error colour; 4.0, 3.0 and 2.999 fall in
    the success, warning and error tiers. *)
Theorem getRatingColor_tiers :
  (forall rating : number,
      num_ge rating (num_of_Z 4) = true -> getRatingColor rating = color_success) /\
  (forall rating : number,
      num_ge rating (num_of_Z 3) = true -> num_lt rating (num_of_Z 4) = true ->
      getRatingColor rating = color_warning) /\
  (forall rating : number,
      num_lt rating (num_of_Z 3) = true -> getRatingColor rating = color_error) /\
  getRatingColor (num_of_ratio 40 10) = color_success /\
  getRatingColor (num_of_ratio 30 10) = color_warning /\
  getRatingColor (num_of_ratio 2999 1000) = color_error.
Proof.
  split; [|split; [|split; [|split; [|split]]]].
  - intros rating H. unfold getRatingColor. rewrite H. reflexivity.
  - intros rating H3 H4. unfold getRatingColor.
    rewrite (num_lt_not_ge _ _ H4), H3. reflexivity.
  - intros rating H. unfold getRatingColor.
    rewrite (lt_3_not_ge_4 _ H), (num_lt_not_ge _ _ H). reflexivity.
  - vm_compute. reflexivity.
  - vm_compute. reflexivity.
  - vm_compute. reflexivity.
Qed.

Lemma getRatingColor_tiers_witness :
  getRatingColor (num_of_ratio 35 10) = color_warning.
Proof.
  apply (proj1 (proj2 getRatingColor_tiers) (num_of_ratio 35 10));
    vm_compute; reflexivity.
Defined.

(** ** The ratings grid *)

Lemma filter_positive_entries (props : list (jsstring * JsVal)) :
  filter (fun kv => is_positive_number (snd kv) = true) props
  = map entry_of_rating (positive_entries props).
Proof.
  induction props as [|[k v] props IH]; [reflexivity|].
  rewrite filter_cons. cbn [snd positive_entries].
  destruct v as [| | |x| | |]; cbn [is_positive_number typeof TypeTag_eqb andb];
    try (destruct (decide (false = true)) as [E|_]; [discriminate E|exact IH]).
  destruct (num_gt x (num_of_Z 0)).
  - destruct (decide (true = true)) as [_|E]; [|contradiction].
    cbn [map]. rewrite IH. reflexivity.
  - destruct (decide (false = true)) as [E|_]; [discriminate E|exact IH].
Qed.

(** ** The order of the keys *)

Example own_property_order_mixed :
  map fst (own_property_order
             (created [(js "b", JNull); (js "10", JNull); (js "9", JNull);
                       (js "a", JNull); (js "01", JNull); (js "b", JNull)]))
  = [js "9"; js "10"; js "b"; js "a"; js "01"].
Proof. vm_compute. reflexivity. Qed.

Lemma set_property_fresh (props : list (jsstring * JsVal)) (k : jsstring) (v : JsVal) :
  k ∉ map fst props -> set_property props k v = props ++ [(k, v)].
Proof.
  induction props as [|[k' y] props IH]; intros Hk; [reflexivity|].
  cbn [set_property]. cbn [map fst] in Hk.
  apply not_elem_of_cons in Hk as [Hne Hk].
  rewrite (bool_decide_eq_false_2 (k' = k)) by congruence.
  rewrite (IH Hk). reflexivity.
Qed.

Lemma created_from (acc inserted : list (jsstring * JsVal)) :
  NoDup (map fst (acc ++ inserted)) ->
  fold_left (fun props kv => set_property props (fst kv) (snd kv)) inserted acc
  = acc ++ inserted.
Proof.
  revert acc. induction inserted as [|[k v] inserted IH]; intros acc Hnd.
  - symmetry. apply app_nil_r.
  - cbn [fold_left fst snd]. rewrite set_property_fresh.
    + rewrite IH; [rewrite <- app_assoc; reflexivity|].
      rewrite <- app_assoc. exact Hnd.
    + rewrite map_app in Hnd. apply NoDup_app in Hnd as (_ & Hdis & _).
      intros Hin. apply (Hdis k Hin). cbn [map fst]. left.
Qed.

(** Insertions of distinct keys create the properties in that order. *)
Lemma created_distinct (inserted : list (jsstring * JsVal)) :
  NoDup (map fst inserted) -> created inserted = inserted.
Proof. intros H. unfold created. rewrite created_from; [reflexivity|exact H]. Qed.

Lemma indexed_none (props : list (jsstring * JsVal)) :
  Forall (fun kv => array_index (fst kv) = None) props -> indexed props = [].
Proof.
  unfold indexed. induction 1 as [|kv props Hkv _ IH]; [reflexivity|].
  cbn [omap list_omap]. rewrite Hkv. exact IH.
Qed.

(** Without an array index among the keys the order is that of the
    creation. *)
Lemma own_property_order_named (props : list (jsstring * JsVal)) :
  Forall (fun kv => array_index (fst kv) = None) props ->
  own_property_order props = props.
Proof.
  intros H. unfold own_property_order. rewrite (indexed_none props H).
  cbn [by_index foldr map app].
  induction H as [|kv props Hkv _ IH]; [reflexivity|].
  rewrite filter_cons. destruct (decide (array_index (fst kv) = None)); [|contradiction].
  rewrite IH. reflexivity.
Qed.

Lemma insert_by_index_perm (n : N) (kv : jsstring * JsVal)
    (sorted : list (N * (jsstring * JsVal))) :
  insert_by_index n kv sorted ≡ₚ (n, kv) :: sorted.
Proof.
  induction sorted as [|[m kv'] sorted IH]; [reflexivity|].
  cbn [insert_by_index]. destruct (n <=? m)%N; [reflexivity|].
  rewrite IH. apply Permutation_swap.
Qed.

Lemma by_index_perm (entries : list (N * (jsstring * JsVal))) :
  by_index entries ≡ₚ entries.
Proof.
  induction entries as [|[n kv] entries IH]; [reflexivity|].
  cbn [by_index foldr fst snd]. fold (by_index entries).
  rewrite insert_by_index_perm, IH. reflexivity.
Qed.

Lemma insert_by_index_sorted (n : N) (kv : jsstring * JsVal)
    (sorted : list (N * (jsstring * JsVal))) :
  StronglySorted N.le (map fst sorted) ->
  StronglySorted N.le (map fst (insert_by_index n kv sorted)).
Proof.
  induction sorted as [|[m kv'] sorted IH]; intros Hs.
  - cbn. repeat constructor.
  - cbn [insert_by_index]. destruct (N.leb_spec n m) as [Hle|Hgt].
    + cbn [map fst]. constructor; [exact Hs|].
      cbn [map fst] in Hs. apply StronglySorted_inv in Hs as [_ Hall].
      constructor; [exact Hle|].
      eapply Forall_impl; [exact Hall|]. intros x Hx. cbn beta in Hx. lia.
    + cbn [map fst] in Hs |- *. apply StronglySorted_inv in Hs as [Hs Hall].
      constructor; [exact (IH Hs)|].
      rewrite (insert_by_index_perm n kv sorted). cbn [map fst].
      constructor; [lia|exact Hall].
Qed.

Lemma by_index_sorted (entries : list (N * (jsstring * JsVal))) :
  StronglySorted N.le (map fst (by_index entries)).
Proof.
  induction entries as [|[n kv] entries IH]; [constructor|].
  cbn [by_index foldr fst snd]. fold (by_index entries).
  apply insert_by_index_sorted. exact IH.
Qed.

Lemma indexed_index (props : list (jsstring * JsVal)) :
  Forall (fun nkv => array_index (fst (snd nkv)) = Some (fst nkv)) (indexed props).
Proof.
  unfold indexed. induction props as [|kv props IH]; [constructor|].
  cbn [omap list_omap]. destruct (array_index (fst kv)) as [n|] eqn:E; [|exact IH].
  constructor; [exact E|exact IH].
Qed.

Lemma indexed_split (props : list (jsstring * JsVal)) :
  map snd (indexed props) ++ filter (fun kv => array_index (fst kv) = None) props
  ≡ₚ props.
Proof.
  unfold indexed. induction props as [|kv props IH]; [reflexivity|].
  cbn [omap list_omap]. rewrite filter_cons.
  destruct (array_index (fst kv)) as [n|] eqn:E.
  - destruct (decide (Some n = None)) as [H|_]; [discriminate H|].
    cbn [map snd app]. rewrite IH. reflexivity.
  - destruct (decide (None = None)) as [_|H]; [|contradiction].
    rewrite <- Permutation_middle, IH. reflexivity.
Qed.

(** The enumeration is a rearrangement of the properties: the array
    indices first, in ascending order, then the others as created. *)
Lemma own_property_order_spec (props : list (jsstring * JsVal)) :
  own_property_order props ≡ₚ props /\
  exists first,
    own_property_order props
    = map snd first ++ filter (fun kv => array_index (fst kv) = None) props /\
    Forall (fun nkv => array_index (fst (snd nkv)) = Some (fst nkv)) first /\
    StronglySorted N.le (map fst first).
Proof.
  split.
  - unfold own_property_order. rewrite by_index_perm. apply indexed_split.
  - exists (by_index (indexed props)). split; [reflexivity|]. split.
    + rewrite by_index_perm. apply indexed_index.
    + apply by_index_sorted.
Qed.

Section Grid.

Variable toUpperCase : jsstring -> jsstring.

Lemma getAvailableRatings_mapping (feedback : DeviceFilteredEscalation)
    (props : list (jsstring * JsVal)) :
  Escalation.ratings feedback = JObj props ->
  exists cells,
    getAvailableRatings toUpperCase feedback = Normal cells /\
    map entry_of_cell cells = take 5 (map entry_of_rating (positive_entries props)) /\
    Forall (fun c => label c = capitalized toUpperCase (key c)) cells.
Proof.
  intros Hr. unfold getAvailableRatings. rewrite Hr.
  cbn [truthy typeof TypeTag_eqb andb Object_entries cbind].
  rewrite filter_positive_entries.
  generalize (take 5 (map entry_of_rating (positive_entries props))).
  intros entries. eexists. split; [reflexivity|]. split.
  - induction entries as [|[k v] entries IH]; [reflexivity|].
    cbn [map]. rewrite IH. reflexivity.
  - induction entries as [|[k v] entries IH]; [constructor|].
    cbn [map]. constructor; [|exact IH].
    cbn [label key]. destruct k as [|c k]; cbn; [apply app_nil_r|reflexivity].
Qed.

Lemma getAvailableRatings_total (feedback : DeviceFilteredEscalation) :
  exists cells,
    getAvailableRatings toUpperCase feedback = Normal cells /\
    (length cells <= 5)%nat.
Proof.
  unfold getAvailableRatings.
  destruct (Escalation.ratings feedback) as [| |b|x|s|items|props];
    cbn [truthy typeof TypeTag_eqb andb Object_entries cbind];
    try (eexists; split; [reflexivity|cbn; lia]);
    try (destruct b; eexists; split; reflexivity || (cbn; lia));
    try (destruct (num_truthy x); eexists; split; reflexivity || (cbn; lia));
    try (destruct (negb (bool_decide (s = []))); eexists; split;
         reflexivity || (cbn; lia)).
  - eexists. split; [reflexivity|]. rewrite length_map, length_take. lia.
  - eexists. split; [reflexivity|]. rewrite length_map, length_take. lia.
Qed.

Lemma positive_entries_all (props : list (jsstring * JsVal)) :
  Forall (fun kv => exists x, snd kv = JNum x /\ num_gt x (num_of_Z 0) = true) props ->
  map entry_of_rating (positive_entries props) = props.
Proof.
  induction 1 as [|[k v] props (x & Hv & Hx) _ IH]; [reflexivity|].
  cbn [snd] in Hv. subst v. cbn [positive_entries]. rewrite Hx.
  cbn [map]. rewrite IH. reflexivity.
Qed.

(** C5: getAvailableRatings returns the entries of the mapping of named
    ratings whose value is a number greater than 0, cut after the
    fifth, in the order in which the mapping is enumerated and without
    sorting them itself: the keys that are array indices first, in
    ascending order, then the other keys in the order of their
    insertion.  The label of a cell is its key with the first character
    upper-cased and its value is the number as it stands in the
    mapping.  No record yields more than 5 cells.  When no key is an
    array index the order is the order of insertion, and 7 ratings
    greater than 0 then yield exactly the first 5 inserted. *)
Theorem getAvailableRatings_first_five_enumerated :
  (forall (feedback : DeviceFilteredEscalation) (props : list (jsstring * JsVal)),
      Escalation.ratings feedback = JObj props ->
      exists cells,
        getAvailableRatings toUpperCase feedback = Normal cells /\
        map entry_of_cell cells
          = take 5 (map entry_of_rating (positive_entries props)) /\
        Forall (fun c => label c = capitalized toUpperCase (key c)) cells) /\
  (forall feedback : DeviceFilteredEscalation,
      exists cells,
        getAvailableRatings toUpperCase feedback = Normal cells /\
        (length cells <= 5)%nat) /\
  (forall (feedback : DeviceFilteredEscalation) (inserted : list (jsstring * JsVal)),
      Escalation.ratings feedback = object_of inserted ->
      exists cells first,
        getAvailableRatings toUpperCase feedback = Normal cells /\
        map entry_of_cell cells
          = take 5 (map entry_of_rating
                      (positive_entries
                         (map snd first ++
                          filter (fun kv => array_index (fst kv) = None)
                                 (created inserted)))) /\
        Forall (fun nkv => array_index (fst (snd nkv)) = Some (fst nkv)) first /\
        StronglySorted N.le (map fst first) /\
        map snd first ++
          filter (fun kv => array_index (fst kv) = None) (created inserted)
        ≡ₚ created inserted) /\
  (forall (feedback : DeviceFilteredEscalation) (inserted : list (jsstring * JsVal)),
      Escalation.ratings feedback = object_of inserted ->
      NoDup (map fst inserted) ->
      Forall (fun kv => array_index (fst kv) = None) inserted ->
      exists cells,
        getAvailableRatings toUpperCase feedback = Normal cells /\
        map entry_of_cell cells
          = take 5 (map entry_of_rating (positive_entries inserted))) /\
  (forall (feedback : DeviceFilteredEscalation) (inserted : list (jsstring * JsVal)),
      Escalation.ratings feedback = object_of inserted ->
      NoDup (map fst inserted) ->
      Forall (fun kv => array_index (fst kv) = None) inserted ->
      length inserted = 7%nat ->
      Forall (fun kv => exists x, snd kv = JNum x /\ num_gt x (num_of_Z 0) = true)
             inserted ->
      exists cells,
        getAvailableRatings toUpperCase feedback = Normal cells /\
        length cells = 5%nat /\
        map entry_of_cell cells = take 5 inserted).
Proof.
  assert (Hnamed : forall (feedback : DeviceFilteredEscalation) inserted,
            Escalation.ratings feedback = object_of inserted ->
            NoDup (map fst inserted) ->
            Forall (fun kv => array_index (fst kv) = None) inserted ->
            exists cells,
              getAvailableRatings toUpperCase feedback = Normal cells /\
              map entry_of_cell cells
                = take 5 (map entry_of_rating (positive_entries inserted))).
  { intros feedback inserted Hr Hnd Hnone.
    unfold object_of in Hr.
    rewrite (created_distinct inserted Hnd), (own_property_order_named inserted Hnone)
      in Hr.
    destruct (getAvailableRatings_mapping feedback inserted Hr)
      as (cells & Hc & He & _).
    exists cells. split; assumption. }
  split; [exact (getAvailableRatings_mapping)|].
  split; [exact (getAvailableRatings_total)|].
  split; [|split; [exact Hnamed|]].
  - intros feedback inserted Hr. unfold object_of in Hr.
    destruct (getAvailableRatings_mapping feedback _ Hr)
      as (cells & Hc & He & _).
    destruct (own_property_order_spec (created inserted))
      as (Hperm & first & Hfirst & Hidx & Hsorted).
    exists cells, first. split; [exact Hc|].
    split; [rewrite <- Hfirst; exact He|].
    split; [exact Hidx|]. split; [exact Hsorted|].
    rewrite <- Hfirst. exact Hperm.
  - intros feedback inserted Hr Hnd Hnone Hlen Hall.
    destruct (Hnamed feedback inserted Hr Hnd Hnone) as (cells & Hc & He).
    rewrite (positive_entries_all inserted Hall) in He.
    exists cells. split; [exact Hc|]. split; [|exact He].
    rewrite <- (length_map entry_of_cell), He, length_take. lia.
Qed.

End Grid.

Lemma getAvailableRatings_first_five_enumerated_witness :
  exists cells,
    getAvailableRatings ascii_toUpperCase
      (escalation_with None (object_of seven_named) None JUndefined)
    = Normal cells /\
    length cells = 5%nat /\
    map entry_of_cell cells = take 5 seven_named.
Proof.
  apply (proj2 (proj2 (proj2 (proj2
           (getAvailableRatings_first_five_enumerated ascii_toUpperCase))))
           (escalation_with None (object_of seven_named) None JUndefined)
           seven_named).
  - reflexivity.
  - apply (bool_decide_unpack _). vm_compute. exact I.
  - repeat constructor.
  - reflexivity.
  - repeat (constructor; [eexists; split; [reflexivity|vm_compute; reflexivity]|]).
    constructor.
Defined.

(** What the grid shows for seven ratings inserted under the keys 7 down
    to 1. *)
Example getAvailableRatings_seven_descending :
  match getAvailableRatings ascii_toUpperCase
          (escalation_with None (object_of seven_descending) None JUndefined) with
  | Normal cells => map key cells
  | Throw _ => []
  end = [js "1"; js "2"; js "3"; js "4"; js "5"].
Proof. vm_compute. reflexivity. Qed.

(** The order of insertion is not kept there: the grid shows the
    ratings 1 to 5, the first five inserted being 7 down to 3. *)
Lemma getAvailableRatings_insertion_order_counterexample :
  ~ insertion_order_kept ascii_toUpperCase seven_descending.
Proof.
  intros (cells & Hrun & Hkept).
  vm_compute in Hrun. injection Hrun as <-.
  vm_compute in Hkept. discriminate Hkept.
Qed.

(** ** Comments *)

Lemma trimStart_nil_iff (s : jsstring) : trimStart s = [] <-> blank s = true.
Proof.
  unfold blank. induction s as [|c s IH]; [split; reflexivity|].
  cbn [trimStart forallb]. destruct (is_whitespace c); cbn [andb];
    [exact IH|split; discriminate].
Qed.

Lemma blank_app (s t : jsstring) : blank (s ++ t) = blank s && blank t.
Proof. unfold blank. apply forallb_app. Qed.

Lemma blank_rev (s : jsstring) : blank (rev s) = blank s.
Proof.
  induction s as [|c s IH]; [reflexivity|].
  cbn [rev]. rewrite blank_app, IH. unfold blank. cbn [forallb].
  rewrite andb_true_r. apply andb_comm.
Qed.

Lemma trimStart_blank (s : jsstring) : blank (trimStart s) = blank s.
Proof.
  unfold blank. induction s as [|c s IH]; [reflexivity|].
  cbn [trimStart]. destruct (is_whitespace c) eqn:E.
  - rewrite IH. cbn [forallb]. rewrite E. reflexivity.
  - reflexivity.
Qed.

Lemma trim_nil_iff (s : jsstring) : trim s = [] <-> blank s = true.
Proof.
  unfold trim, trimEnd. split.
  - intros H. apply (f_equal (@rev N)) in H. rewrite rev_involutive in H.
    cbn [rev] in H. apply trimStart_nil_iff in H.
    rewrite blank_rev, trimStart_blank in H. exact H.
  - intros H.
    assert (H' : trimStart (rev (trimStart s)) = []).
    { apply trimStart_nil_iff. rewrite blank_rev, trimStart_blank. exact H. }
    rewrite H'. reflexivity.
Qed.

Lemma trim_length_blank (s : jsstring) :
  (0 <? length (trim s))%nat = negb (blank s).
Proof.
  destruct (blank s) eqn:E.
  - apply trim_nil_iff in E. rewrite E. reflexivity.
  - destruct (trim s) eqn:T; [|reflexivity].
    apply trim_nil_iff in T. congruence.
Qed.

Lemma primary_comment_test (c : jsstring) :
  truthy (JStr c) && truthy (JStr (trim c)) = negb (blank c).
Proof.
  cbn [truthy]. pose proof (trim_nil_iff c) as [Ht1 Ht2].
  destruct (blank c) eqn:E.
  - rewrite (Ht2 eq_refl). destruct (bool_decide (c = [])); reflexivity.
  - assert (Hc : c <> []) by (intros ->; discriminate E).
    assert (Ht : trim c <> []) by (intros T; specialize (Ht1 T); discriminate Ht1).
    rewrite (bool_decide_eq_false_2 _ Hc), (bool_decide_eq_false_2 _ Ht).
    reflexivity.
Qed.

Lemma omap_nonblank_string (props : list (jsstring * JsVal)) :
  omap nonblank_string (map snd props) = nonblank_comments props.
Proof.
  induction props as [|[k v] props IH]; [reflexivity|].
  change (omap nonblank_string (map snd ((k, v) :: props)))
    with (match nonblank_string v with
          | Some y => y :: omap nonblank_string (map snd props)
          | None => omap nonblank_string (map snd props)
          end).
  rewrite IH. cbn [nonblank_comments].
  destruct v as [| | | |c| |]; cbn [nonblank_string]; try reflexivity.
  rewrite trim_length_blank. destruct (blank c); reflexivity.
Qed.

Lemma omap_nonblank_string_nil (values : list JsVal) :
  (forall c, In (JStr c) values -> blank c = true) ->
  omap nonblank_string values = [].
Proof.
  induction values as [|v values IH]; intros H; [reflexivity|].
  change (omap nonblank_string (v :: values))
    with (match nonblank_string v with
          | Some y => y :: omap nonblank_string values
          | None => omap nonblank_string values
          end).
  rewrite IH by (intros c Hin; apply H; right; exact Hin).
  destruct v as [| | | |c| |]; try reflexivity.
  cbn [nonblank_string]. rewrite trim_length_blank.
  rewrite (H c) by (left; reflexivity). reflexivity.
Qed.

Lemma join_fold (sep : jsstring) (xs : list jsstring) (r : jsstring) :
  snd (fold_left
         (fun '(first, r) x => (false, if first : bool then r ++ x else r ++ sep ++ x))
         xs (false, r))
  = r ++ concat (map (fun x => sep ++ x) xs).
Proof.
  revert r. induction xs as [|x xs IH]; intros r; cbn [fold_left map concat].
  - symmetry. apply app_nil_r.
  - rewrite IH, <- !app_assoc. reflexivity.
Qed.

Lemma separated_cons (sep x : jsstring) (xs : list jsstring) :
  separated sep (x :: xs) = x ++ concat (map (fun y => sep ++ y) xs).
Proof.
  revert x. induction xs as [|y xs IH]; intros x.
  - cbn. symmetry. apply app_nil_r.
  - change (separated sep (x :: y :: xs)) with (x ++ sep ++ separated sep (y :: xs)).
    rewrite IH. cbn [map concat]. rewrite <- !app_assoc. reflexivity.
Qed.

Lemma join_separated (sep : jsstring) (xs : list jsstring) :
  join sep xs = separated sep xs.
Proof.
  destruct xs as [|x xs]; [reflexivity|].
  unfold join. cbn [fold_left]. rewrite join_fold, separated_cons. reflexivity.
Qed.

(** Without a primary comment the result is read off the mapping. *)
Lemma getAllComments_from_mapping (feedback : DeviceFilteredEscalation)
    (props : list (jsstring * JsVal)) :
  primary_comment_unset feedback ->
  Escalation.comments feedback = JObj props ->
  getAllComments feedback =
    Normal (match nonblank_comments props with
            | [] => None
            | _ :: _ => Some (separated (js " | ") (nonblank_comments props))
            end).
Proof.
  intros Hp Hc. unfold getAllComments. rewrite Hc.
  change (truthy (JObj props)) with true.
  cbn [typeof TypeTag_eqb andb Object_values Object_entries cbind].
  rewrite omap_nonblank_string, join_separated.
  assert (Hfrom :
    (if (0 <? length (nonblank_comments props))%nat
     then Normal (Some (separated (js " | ") (nonblank_comments props)))
     else Normal None)
    = Normal (match nonblank_comments props with
              | [] => None
              | _ :: _ => Some (separated (js " | ") (nonblank_comments props))
              end)) by (destruct (nonblank_comments props); reflexivity).
  cbv zeta. rewrite Hfrom. unfold primary_comment_unset in Hp.
  destruct (Escalation.primaryComment feedback) as [c|]; [|reflexivity].
  rewrite primary_comment_test, Hp. reflexivity.
Qed.

(** C6: getAllComments returns the primary comment unchanged when it is
    present and not blank; otherwise the string values of the mapping of
    named comments that are not blank, in the order of the mapping and
    separated by " | "; and null when there is no such value. *)
Theorem getAllComments_primary_then_joined :
  (forall (feedback : DeviceFilteredEscalation) (c : jsstring),
      Escalation.primaryComment feedback = Some c ->
      blank c = false ->
      getAllComments feedback = Normal (Some c)) /\
  (forall (feedback : DeviceFilteredEscalation) (props : list (jsstring * JsVal)),
      primary_comment_unset feedback ->
      Escalation.comments feedback = JObj props ->
      nonblank_comments props <> [] ->
      getAllComments feedback
        = Normal (Some (separated (js " | ") (nonblank_comments props)))) /\
  (forall (feedback : DeviceFilteredEscalation),
      primary_comment_unset feedback ->
      (forall values c,
          Object_values (Escalation.comments feedback) = Normal values ->
          In (JStr c) values -> blank c = true) ->
      getAllComments feedback = Normal None).
Proof.
  split; [|split].
  - intros feedback c Hc Hb. unfold getAllComments.
    rewrite Hc, primary_comment_test, Hb. reflexivity.
  - intros feedback props Hp Hc Hne.
    rewrite (getAllComments_from_mapping feedback props Hp Hc).
    destruct (nonblank_comments props); [congruence|reflexivity].
  - intros feedback Hp Hnone. unfold getAllComments. cbv zeta.
    assert (Hfrom :
      (if truthy (Escalation.comments feedback)
          && TypeTag_eqb (typeof (Escalation.comments feedback)) TObject
       then
         values <~ Object_values (Escalation.comments feedback) ;;
         (if (0 <? length (omap nonblank_string values))%nat
          then Normal (Some (join (js " | ") (omap nonblank_string values)))
          else Normal None)
       else Normal None) = Normal None).
    { destruct (truthy (Escalation.comments feedback)
                && TypeTag_eqb (typeof (Escalation.comments feedback)) TObject) eqn:G;
        [|reflexivity].
      destruct (Object_values_guarded _ G) as [values Hv]. rewrite Hv.
      cbn [cbind].
      assert (Hnil : omap nonblank_string values = [])
        by (apply omap_nonblank_string_nil; intros c; apply (Hnone values c Hv)).
      rewrite Hnil. reflexivity. }
    rewrite Hfrom. unfold primary_comment_unset in Hp.
    destruct (Escalation.primaryComment feedback) as [c|]; [|reflexivity].
    rewrite primary_comment_test, Hp. reflexivity.
Qed.

Lemma getAllComments_primary_then_joined_witness :
  getAllComments
    (escalation_with None JUndefined (Some (js "  "))
       (JObj [(js "service", JStr (js "slow")); (js "n", JNum (num_of_Z 3));
              (js "food", JStr (js " ")); (js "staff", JStr (js "rude"))]))
  = Normal (Some (js "slow | rude")).
Proof.
  apply (proj1 (proj2 getAllComments_primary_then_joined)
           (escalation_with None JUndefined (Some (js "  "))
              (JObj [(js "service", JStr (js "slow")); (js "n", JNum (num_of_Z 3));
                     (js "food", JStr (js " ")); (js "staff", JStr (js "rude"))]))
           [(js "service", JStr (js "slow")); (js "n", JNum (num_of_Z 3));
            (js "food", JStr (js " ")); (js "staff", JStr (js "rude"))]).
  - reflexivity.
  - reflexivity.
  - discriminate.
Defined.

(** ** Severity presentation *)

(** C7: every severity value, present or absent, known or unknown, has
    a banner style whose colours and icon are all defined: "high" and
    "medium" have their own, "low" has the information style, and so has
    every other value, the match being exact. *)
Theorem bannerStyle_total :
  bannerStyle (Some (js "high")) = high_style /\
  bannerStyle (Some (js "medium")) = medium_style /\
  bannerStyle (Some (js "low")) = info_style /\
  bannerStyle None = info_style /\
  bannerStyle (Some (js "unknown-value")) = info_style /\
  (forall severity : option jsstring,
      severity <> Some (js "high") -> severity <> Some (js "medium") ->
      bannerStyle severity = info_style) /\
  (forall severity : option jsstring, defined_style (bannerStyle severity)).
Proof.
  assert (Hother : forall severity : option jsstring,
             severity <> Some (js "high") -> severity <> Some (js "medium") ->
             bannerStyle severity = info_style).
  { intros severity Hh Hm.
    assert (Eh : strict_equals severity (js "high") = false).
    { destruct severity as [s|]; [|reflexivity]. cbn [strict_equals].
      apply bool_decide_eq_false_2. congruence. }
    assert (Em : strict_equals severity (js "medium") = false).
    { destruct severity as [s|]; [|reflexivity]. cbn [strict_equals].
      apply bool_decide_eq_false_2. congruence. }
    unfold bannerStyle. rewrite Eh, Em. reflexivity. }
  split; [reflexivity|]. split; [reflexivity|]. split; [reflexivity|].
  split; [reflexivity|]. split; [reflexivity|]. split; [exact Hother|].
  intros severity.
  destruct (decide (severity = Some (js "high"))) as [->|Hh];
    [repeat split; discriminate|].
  destruct (decide (severity = Some (js "medium"))) as [->|Hm];
    [repeat split; discriminate|].
  rewrite (Hother severity Hh Hm). repeat split; discriminate.
Qed.

(** An escalated item is shown with the style of its severity. *)
Lemma escalationBanner_style (toUpperCase : jsstring -> jsstring)
    (item : DeviceFilteredEscalation) :
  Escalation.isEscalated item = true ->
  exists text,
    escalationBanner toUpperCase item
      = Some (bannerStyle (Escalation.severity item), text).
Proof.
  intros H. unfold escalationBanner. rewrite H. eexists. reflexivity.
Qed.

Lemma bannerStyle_total_witness : bannerStyle (Some (js "HIGH")) = info_style.
Proof.
  apply (proj1 (proj2 (proj2 (proj2 (proj2 (proj2 bannerStyle_total)))))
           (Some (js "HIGH"))); discriminate.
Defined.

(** ** The device service *)

Ltac run_action :=
  unfold try_catch, try_finally, bind, ret, throw, lift, console_log,
    console_error, Alert_alert;
  cbv beta iota zeta.

Lemma only_logged_refl (w : World) : only_logged w w.
Proof. repeat split. Qed.

Lemma only_logged_console (w : World) (c : list ConsoleCall) :
  only_logged w (with_console w c).
Proof. repeat split. Qed.

Section DeviceFacts.

Variable toUpperCase : jsstring -> jsstring.
Variable JSON_stringify : JsVal -> jsstring.
Variable JSON_parse : jsstring -> Completion JsVal.
Variable env : Environment.

(** Reading the credentials never fails and touches nothing but the
    console; what it returns is what the store holds. *)
Lemma getDeviceCredentials_run (w : World) :
  exists (c : option Credentials) (w' : World),
    getDeviceCredentials env w = (Normal c, w') /\
    only_logged w w' /\
    (forall cr, c = Some cr ->
       storage w !! js "deviceId" = Some (deviceId cr) /\
       storage w !! js "deviceSecret" = Some (deviceSecret cr)) /\
    (unregistered w -> c = None).
Proof.
  unfold getDeviceCredentials, AsyncStorage_getItem. run_action.
  destruct (getItem_fault env (js "deviceId")) as [r1|].
  { eexists None, _. split; [reflexivity|].
    split; [apply only_logged_console|]. split; [discriminate|reflexivity]. }
  destruct (getItem_fault env (js "deviceSecret")) as [r2|].
  { eexists None, _. split; [reflexivity|].
    split; [apply only_logged_console|]. split; [discriminate|reflexivity]. }
  destruct (storage w !! js "deviceId") as [i|] eqn:Ei;
    destruct (storage w !! js "deviceSecret") as [k|] eqn:Ek;
    try (eexists None, _; split; [reflexivity|];
         split; [apply only_logged_refl|]; split; [discriminate|reflexivity]).
  destruct (absent (Some i) || absent (Some k)).
  - eexists None, _. split; [reflexivity|].
    split; [apply only_logged_refl|]. split; [discriminate|reflexivity].
  - eexists (Some _), _. split; [reflexivity|].
    split; [apply only_logged_refl|]. split.
    + intros cr [= <-]. split; reflexivity.
    + unfold unregistered. rewrite Ei, Ek. intros [H|H]; discriminate H.
Qed.

(** C8: when the device identifier or the device secret is missing from
    the store, updateSubscriptionSeverity fails with the error "Device
    not registered" (it logs it and returns false) and no request is
    issued, the store being read before the network is touched; the
    handler of the notification channel screen likewise raises one alert
    and issues no request. *)
Theorem updateSubscriptionSeverity_unregistered :
  (forall (newSeverity : SeverityLevel) (w : World),
      unregistered w ->
      exists w',
        updateSubscriptionSeverity JSON_stringify JSON_parse env newSeverity w
          = (Normal false, w') /\
        requests w' = requests w /\
        storage w' = storage w /\
        last (console w') = Some not_registered_error) /\
  (forall (newSeverity : SeverityLevel) (w : World),
      unregistered w ->
      exists w',
        updateSubscription toUpperCase JSON_stringify env newSeverity w
          = (Normal tt, w') /\
        requests w' = requests w /\
        storage w' = storage w /\
        length (alerts w') = S (length (alerts w)) /\
        (truthy (deviceRegistration (screen w)) = false ->
         last (alerts w') = Some not_registered_alert)).
Proof.
  split.
  - intros newSeverity w Hun.
    destruct (getDeviceCredentials_run w) as (c & w1 & Hrun & Hlog & _ & Hnone).
    rewrite (Hnone Hun) in Hrun. destruct Hlog as (Hs & Hr & _ & _).
    unfold updateSubscriptionSeverity. run_action. rewrite Hrun. cbv beta iota.
    eexists. split; [reflexivity|]. cbn [requests storage console with_console].
    split; [exact Hr|]. split; [exact Hs|]. apply last_snoc.
  - intros newSeverity w Hun. unfold updateSubscription. cbv zeta.
    destruct (truthy (deviceRegistration (screen w))) eqn:Ht; cbn [negb].
    + unfold AsyncStorage_getItem. run_action.
      destruct (getItem_fault env (js "deviceId")) as [r1|].
      { eexists. split; [reflexivity|]. cbn. repeat split; try discriminate.
        rewrite length_app. cbn. lia. }
      destruct (getItem_fault env (js "deviceSecret")) as [r2|].
      { eexists. split; [reflexivity|]. cbn. repeat split; try discriminate.
        rewrite length_app. cbn. lia. }
      assert (Hcase :
        storage w !! js "deviceId" = None \/ storage w !! js "deviceSecret" = None)
        by exact Hun.
      destruct (storage w !! js "deviceId") as [i|];
        destruct (storage w !! js "deviceSecret") as [k|];
        try (destruct Hcase as [Hcase|Hcase]; discriminate Hcase);
        (eexists; split; [reflexivity|]; cbn; repeat split; try discriminate;
         rewrite length_app; cbn; lia).
    + run_action. eexists. split; [reflexivity|]. cbn. repeat split.
      * rewrite length_app. cbn. lia.
      * intros _. apply last_snoc.
Qed.

(** C10: when the device identifier or the device secret is missing from
    the store, getDeviceFilteredEscalations returns the empty list, with
    no request issued and no error raised; it raises an error only when
    both credentials are stored and the request itself failed. *)
Theorem getDeviceFilteredEscalations_without_credentials :
  (forall w : World,
      unregistered w ->
      exists w',
        getDeviceFilteredEscalations env w = (Normal (JArr []), w') /\
        requests w' = requests w /\
        storage w' = storage w) /\
  (forall (w w' : World) (e : Thrown),
      getDeviceFilteredEscalations env w = (Throw e, w') ->
      exists (credentials : Credentials) (error : JsVal),
        storage w !! js "deviceId" = Some (deviceId credentials) /\
        storage w !! js "deviceSecret" = Some (deviceSecret credentials) /\
        server env (requests w) (escalations_request credentials) = Failed error /\
        e = Rejection error /\
        requests w' = requests w ++ [escalations_request credentials]).
Proof.
  split.
  - intros w Hun.
    destruct (getDeviceCredentials_run w) as (c & w1 & Hrun & Hlog & _ & Hnone).
    rewrite (Hnone Hun) in Hrun. destruct Hlog as (Hs & Hr & _ & _).
    unfold getDeviceFilteredEscalations. run_action. rewrite Hrun. cbv beta iota.
    eexists. split; [reflexivity|]. split; [exact Hr|exact Hs].
  - intros w w' e.
    destruct (getDeviceCredentials_run w) as (c & w1 & Hrun & Hlog & Hsome & _).
    destruct Hlog as (Hs & Hr & _ & _).
    unfold getDeviceFilteredEscalations, axios. run_action. rewrite Hrun.
    cbv beta iota. destruct c as [credentials|]; [|discriminate].
    change {| method := js "GET";
              url := buildApiUrl API_ENDPOINTS.ESCALATIONS_DEVICE;
              body := JUndefined;
              headers := [(js "x-device-id", deviceId credentials);
                          (js "x-device-secret", deviceSecret credentials)] |}
      with (escalations_request credentials).
    rewrite Hr.
    destruct (server env (requests w) (escalations_request credentials))
      as [data|error] eqn:Esrv; [discriminate|].
    intros [= <- <-]. exists credentials, error.
    destruct (Hsome credentials eq_refl) as [Hi Hk].
    split; [exact Hi|]. split; [exact Hk|]. split; [exact Esrv|].
    split; reflexivity.
Qed.

End DeviceFacts.

Lemma bind_run {A B} (m : Action A) (k : A -> Action B) (w : World) :
  bind m k w
  = match m w with
    | (Normal a, w') => k a w'
    | (Throw e, w') => (Throw e, w')
    end.
Proof. reflexivity. Qed.

(** ** Actions that issue no request *)

Lemma keeps_ret {A} (a : A) : keeps_requests (ret a).
Proof. intros w. reflexivity. Qed.

Lemma keeps_throw {A} (e : Thrown) : keeps_requests (@throw A e).
Proof. intros w. reflexivity. Qed.

Lemma keeps_lift {A} (c : Completion A) : keeps_requests (lift c).
Proof. intros w. reflexivity. Qed.

Lemma keeps_bind {A B} (m : Action A) (k : A -> Action B) :
  keeps_requests m -> (forall a, keeps_requests (k a)) -> keeps_requests (bind m k).
Proof.
  intros Hm Hk w. unfold bind. specialize (Hm w).
  destruct (m w) as [[a|e] w1]; cbn [snd] in *; [|exact Hm].
  rewrite (Hk a w1). exact Hm.
Qed.

Lemma keeps_try_catch {A} (m : Action A) (h : Thrown -> Action A) :
  keeps_requests m -> (forall e, keeps_requests (h e)) ->
  keeps_requests (try_catch m h).
Proof.
  intros Hm Hh w. unfold try_catch. specialize (Hm w).
  destruct (m w) as [[a|e] w1]; cbn [snd] in *; [exact Hm|].
  rewrite (Hh e w1). exact Hm.
Qed.

Lemma keeps_console_log (t : jsstring) : keeps_requests (console_log t).
Proof. intros w. reflexivity. Qed.

Lemma keeps_console_error (t : jsstring) (e : Thrown) :
  keeps_requests (console_error t e).
Proof. intros w. reflexivity. Qed.

Lemma keeps_Alert_alert (t m : jsstring) (b : list jsstring) :
  keeps_requests (Alert_alert t m b).
Proof. intros w. reflexivity. Qed.

Lemma keeps_setDeviceRegistration (r : JsVal) :
  keeps_requests (setDeviceRegistration r).
Proof. intros w. reflexivity. Qed.

Lemma keeps_setItem (env : Environment) (k : jsstring) (v : JsVal) :
  keeps_requests (AsyncStorage_setItem env k v).
Proof.
  intros w. unfold AsyncStorage_setItem.
  destruct v; try (destruct (setItem_other env k _); reflexivity).
  destruct (setItem_fault env k); reflexivity.
Qed.

Create HintDb keeps.

#[local] Hint Resolve keeps_ret keeps_throw keeps_lift keeps_console_log
  keeps_console_error keeps_Alert_alert keeps_setDeviceRegistration
  keeps_setItem : keeps.

Ltac keeps :=
  repeat first
    [ apply keeps_bind; [|intros ?]
    | apply keeps_try_catch; [|intros ?]
    | solve [auto with keeps] ].

Section Registration.

Variable toUpperCase : jsstring -> jsstring.
Variable JSON_stringify : JsVal -> jsstring.
Variable env : Environment.

(** Asking for the permission issues no request and writes nothing. *)
Lemma requestNotificationPermission_run (w : World) :
  exists (granted : bool) (w' : World),
    requestNotificationPermission env w = (Normal granted, w') /\
    requests w' = requests w /\ storage w' = storage w /\
    (granted = true -> alerts w' = alerts w /\ console w' = console w).
Proof.
  unfold requestNotificationPermission, setPermissionStatus. run_action.
  destruct (requestPermissionsAsync env) as [status|e].
  - destruct (bool_decide (status = js "granted")); cbn [negb].
    + eexists true, _. split; [reflexivity|]. repeat split.
    + eexists false, _. split; [reflexivity|]. repeat split; discriminate.
  - eexists false, _. split; [reflexivity|]. repeat split; discriminate.
Qed.

(** C9: in every execution of registerDevice in which the request was
    sent and the network or the server failed, the handler ends
    normally, tells the user that the registration failed and may be
    tried again, and leaves the store as it was: the identifier and the
    secret are stored together or not at all after it if they were so
    before it. *)
Theorem registerDevice_failure_keeps_storage
    (user : option JsVal) (w w' : World) (r : Completion unit)
    (request : HttpRequest) (error : JsVal) :
  registerDevice toUpperCase JSON_stringify env user w = (r, w') ->
  requests w' = requests w ++ [request] ->
  server env (requests w) request = Failed error ->
  r = Normal tt /\
  storage w' = storage w /\
  (credentials_paired (storage w) -> credentials_paired (storage w')) /\
  alerts w' = alerts w ++ [registration_failed_alert] /\
  last (console w') = Some (registration_failed_error error) /\
  registering (screen w') = false.
Proof.
  intros Hrun Hreq Hfail.
  assert (Hno : forall v : World, requests v = requests w -> v <> w').
  { intros v Hv ->. rewrite Hreq in Hv.
    apply (f_equal length) in Hv. rewrite length_app in Hv. cbn in Hv. lia. }
  unfold registerDevice in Hrun. cbv zeta in Hrun.
  destruct (negb match user with Some u => truthy u | None => false end).
  { injection Hrun as _ Hw. exfalso. eapply Hno; [|exact Hw]; reflexivity. }
  unfold bind at 1 in Hrun. cbn [setRegistering] in Hrun. cbv beta iota in Hrun.
  unfold try_finally, try_catch in Hrun.
  set (w1 := with_screen w _) in Hrun.
  assert (Hw1 : requests w1 = requests w /\ storage w1 = storage w /\
                alerts w1 = alerts w /\ console w1 = console w) by (repeat split).
  clearbody w1. destruct Hw1 as (Hr1 & Hs1 & Ha1 & Hc1).
  rewrite bind_run in Hrun.
  assert (Hperm : exists (granted : bool) (w2 : World),
            (if negb (bool_decide (permissionStatus (screen w) = js "granted"))
             then requestNotificationPermission env else ret true) w1
            = (Normal granted, w2) /\
            requests w2 = requests w /\ storage w2 = storage w /\
            (granted = true -> alerts w2 = alerts w /\ console w2 = console w)).
  { destruct (negb (bool_decide (permissionStatus (screen w) = js "granted"))).
    - destruct (requestNotificationPermission_run w1) as (g & w2 & H & A & B & C).
      exists g, w2. split; [exact H|]. split; [congruence|]. split; [congruence|].
      intros Hg. destruct (C Hg). split; congruence.
    - exists true, w1. repeat split; assumption. }
  destruct Hperm as (granted & w2 & Hperm & Hr2 & Hs2 & Hg2).
  rewrite Hperm in Hrun. destruct granted; cbn [negb] in Hrun.
  2:{ injection Hrun as _ Hw. exfalso. eapply Hno; [|exact Hw]. exact Hr2. }
  destruct (Hg2 eq_refl) as [Ha2 Hc2]. clear Hg2 Hperm.
  rewrite bind_run in Hrun. unfold lift at 1 in Hrun.
  destruct (getExpoPushTokenAsync env) as [pushToken|e].
  2:{ injection Hrun as _ Hw. exfalso. eapply Hno; [|exact Hw]. exact Hr2. }
  rewrite bind_run in Hrun. unfold axios at 1 in Hrun. cbv zeta in Hrun.
  rewrite Hr2 in Hrun.
  match type of Hrun with
  | context [server env (requests w) ?q] => set (req := q) in Hrun
  end.
  destruct (server env (requests w) req) as [data|error0] eqn:Esrv.
  - exfalso.
    match type of Hrun with
    | context [bind (lift (get_property data ?key)) ?k ?v] =>
        assert (Hk : keeps_requests (bind (lift (get_property data key)) k))
          by keeps;
        specialize (Hk v);
        destruct (bind (lift (get_property data key)) k v) as [r3 w4]
    end.
    cbn [snd requests with_requests] in Hk.
    assert (Hw' : requests w' = requests w ++ [req]).
    { destruct r3 as [a|e]; injection Hrun as _ <-; exact Hk. }
    rewrite Hreq in Hw'. apply app_inj_tail in Hw' as [_ ->]. congruence.
  - unfold bind, console_error, Alert_alert in Hrun.
    cbn [setRegistering] in Hrun. injection Hrun as <- <-.
    cbn [requests with_requests with_console with_alerts with_screen] in Hreq.
    apply app_inj_tail in Hreq as [_ <-].
    assert (error0 = error) as -> by congruence.
    cbn [storage alerts console screen registering with_screen with_alerts
         with_console with_requests].
    rewrite Hs2, Ha2.
    split; [reflexivity|]. split; [reflexivity|]. split; [auto|].
    split; [reflexivity|]. split; [apply last_snoc|reflexivity].
Qed.

End Registration.

(** ** The device client on a server that is down *)

Lemma updateSubscriptionSeverity_unregistered_witness :
  exists w',
    updateSubscriptionSeverity sample_stringify sample_parse offline_environment
      high fresh_world = (Normal false, w') /\
    requests w' = requests fresh_world /\
    storage w' = storage fresh_world /\
    last (console w') = Some not_registered_error.
Proof.
  apply (proj1 (updateSubscriptionSeverity_unregistered ascii_toUpperCase
                  sample_stringify sample_parse offline_environment)
           high fresh_world).
  left. reflexivity.
Defined.

Lemma getDeviceFilteredEscalations_without_credentials_witness :
  (exists w',
     getDeviceFilteredEscalations offline_environment fresh_world
       = (Normal (JArr []), w') /\
     requests w' = requests fresh_world /\
     storage w' = storage fresh_world) /\
  (exists (credentials : Credentials) (error : JsVal),
     storage registered_world !! js "deviceId" = Some (deviceId credentials) /\
     storage registered_world !! js "deviceSecret"
       = Some (deviceSecret credentials) /\
     server offline_environment (requests registered_world)
       (escalations_request credentials) = Failed error /\
     Rejection (JStr (js "Network Error")) = Rejection error /\
     requests (snd (getDeviceFilteredEscalations offline_environment
                      registered_world))
       = requests registered_world ++ [escalations_request credentials]).
Proof.
  split.
  - apply (proj1 (getDeviceFilteredEscalations_without_credentials
                    offline_environment) fresh_world).
    left. reflexivity.
  - apply (proj2 (getDeviceFilteredEscalations_without_credentials
                    offline_environment) registered_world).
    vm_compute. reflexivity.
Defined.

Lemma registerDevice_failure_keeps_storage_witness :
  fst (registerDevice ascii_toUpperCase sample_stringify offline_environment
         (Some (JObj [])) fresh_world) = Normal tt /\
  storage (snd (registerDevice ascii_toUpperCase sample_stringify
                  offline_environment (Some (JObj [])) fresh_world)) = ∅.
Proof.
  destruct (registerDevice_failure_keeps_storage ascii_toUpperCase
              sample_stringify offline_environment (Some (JObj [])) fresh_world
              (snd (registerDevice ascii_toUpperCase sample_stringify
                      offline_environment (Some (JObj [])) fresh_world))
              (fst (registerDevice ascii_toUpperCase sample_stringify
                      offline_environment (Some (JObj [])) fresh_world))
              {| method := js "POST";
                 url := js "https://api.twelvelabs.tech/api/devices/register";
                 body := JObj [(js "deviceId", JStr (js "build-1"));
                               (js "deviceName", JStr (js "phone"));
                               (js "pushToken", JStr (js "ExponentPushToken[x]"));
                               (js "subscriptionSeverity", JStr (js "medium"))];
                 headers := [] |}
              (JStr (js "Network Error")))
    as (Hr & Hs & _).
  - apply surjective_pairing.
  - vm_compute. reflexivity.
  - reflexivity.
  - split; [exact Hr|exact Hs].
Defined.

(** * Further properties of the client *)

Ltac split_run :=
  repeat (match goal with
          | |- context [match ?x with _ => _ end] =>
              lazymatch x with
              | context [match _ with _ => _ end] => fail
              | _ => destruct x eqn:?
              end
          end; cbv beta iota).

Ltac js_neq := let H := fresh in intros H; vm_compute in H; discriminate H.

(** ** Addresses *)

Lemma startsWith_app (p s : jsstring) : startsWith (p ++ s) p = true.
Proof.
  induction p as [|c p IH]; [destruct s; reflexivity|].
  cbn [app startsWith]. rewrite N.eqb_refl. exact IH.
Qed.

(** X13: every address buildApiUrl builds is the base address followed
    by a slash: an endpoint that starts with a slash is appended as it
    is, and an endpoint without one gets the address of the same
    endpoint written with a leading slash. *)
Theorem buildApiUrl_leading_slash :
  (forall endpoint,
      startsWith (buildApiUrl endpoint) (API_CONFIG_baseUrl ++ js "/") = true) /\
  (forall endpoint,
      startsWith endpoint (js "/") = false ->
      buildApiUrl (js "/" ++ endpoint) = buildApiUrl endpoint) /\
  (forall endpoint,
      startsWith endpoint (js "/") = true ->
      buildApiUrl endpoint = API_CONFIG_baseUrl ++ endpoint).
Proof.
  split; [|split].
  - intros endpoint. unfold buildApiUrl.
    destruct (startsWith endpoint (js "/")) eqn:E.
    + destruct endpoint as [|c rest]; [discriminate E|].
      change (js "/") with [47%N] in E. cbn [startsWith] in E.
      destruct (N.eqb_spec 47 c) as [<-|]; [|discriminate E].
      change (47%N :: rest) with (js "/" ++ rest).
      rewrite app_assoc. apply startsWith_app.
    + rewrite app_assoc. apply startsWith_app.
  - intros endpoint E. unfold buildApiUrl. rewrite E.
    change (js "/" ++ endpoint) with (47%N :: endpoint).
    change (js "/") with [47%N]. cbn [startsWith]. rewrite N.eqb_refl.
    destruct endpoint; reflexivity.
  - intros endpoint E. unfold buildApiUrl. rewrite E. reflexivity.
Qed.

Lemma buildApiUrl_leading_slash_witness :
  buildApiUrl (js "/" ++ js "api/feedback") = buildApiUrl (js "api/feedback").
Proof.
  apply (proj1 (proj2 buildApiUrl_leading_slash) (js "api/feedback")).
  reflexivity.
Defined.

(** A replacement text without a dollar sign is inserted as it is. *)
Lemma substitution_plain (matched before after repl : jsstring) :
  Forall (fun c => c <> 36%N) repl ->
  substitution matched before after repl = repl.
Proof.
  induction 1 as [|c repl Hc _ IH]; [reflexivity|].
  cbn [substitution].
  destruct c as [|p]; [rewrite IH; reflexivity|].
  do 6 (destruct p as [p|p|]; try (rewrite IH; reflexivity)).
  contradiction.
Qed.

(** X14: for a device identifier without a dollar sign, the endpoint of
    the subscription is /api/devices/<identifier>/subscription and the
    request goes to that path under the base address. *)
Theorem subscription_endpoint (id : jsstring) :
  Forall (fun c => c <> 36%N) id ->
  replace API_ENDPOINTS.DEVICE_SUBSCRIPTION (js ":deviceId") id
  = js "/api/devices/" ++ id ++ js "/subscription" /\
  buildApiUrl (replace API_ENDPOINTS.DEVICE_SUBSCRIPTION (js ":deviceId") id)
  = js "https://api.twelvelabs.tech/api/devices/" ++ id ++ js "/subscription".
Proof.
  intros Hid.
  assert (H : replace API_ENDPOINTS.DEVICE_SUBSCRIPTION (js ":deviceId") id
              = js "/api/devices/" ++ id ++ js "/subscription").
  { unfold replace.
    change (find_first (js ":deviceId") API_ENDPOINTS.DEVICE_SUBSCRIPTION)
      with (Some (js "/api/devices/", js "/subscription")).
    cbv beta iota.
    rewrite (substitution_plain _ _ _ _ Hid). reflexivity. }
  split; [exact H|]. rewrite H. reflexivity.
Qed.

Lemma subscription_endpoint_witness :
  replace API_ENDPOINTS.DEVICE_SUBSCRIPTION (js ":deviceId") (js "QP1A.190711")
  = js "/api/devices/" ++ js "QP1A.190711" ++ js "/subscription" /\
  buildApiUrl (replace API_ENDPOINTS.DEVICE_SUBSCRIPTION (js ":deviceId")
                 (js "QP1A.190711"))
  = js "https://api.twelvelabs.tech/api/devices/" ++ js "QP1A.190711" ++
    js "/subscription".
Proof.
  apply (subscription_endpoint (js "QP1A.190711")).
  repeat constructor; discriminate.
Defined.

(** ** Comments and ratings, continued *)

Lemma Object_entries_guarded (v : JsVal) :
  truthy v && TypeTag_eqb (typeof v) TObject = true ->
  exists entries, Object_entries v = Normal entries.
Proof.
  destruct v; try discriminate; intros _; eexists; reflexivity.
Qed.

Lemma omap_nonblank_string_Forall (values : list JsVal) :
  Forall (fun c => blank c = false) (omap nonblank_string values).
Proof.
  induction values as [|v values IH]; [constructor|].
  change (omap nonblank_string (v :: values))
    with (match nonblank_string v with
          | Some y => y :: omap nonblank_string values
          | None => omap nonblank_string values
          end).
  destruct v as [| | | |c| |]; try exact IH.
  cbn [nonblank_string]. rewrite trim_length_blank.
  destruct (blank c) eqn:E; [exact IH|].
  constructor; [exact E|exact IH].
Qed.

(** X15: getAllComments never raises an error, on any record, and the
    text it returns is never blank: it is null or holds a character
    that is not white space. *)
Theorem getAllComments_not_blank (feedback : DeviceFilteredEscalation) :
  (exists shown, getAllComments feedback = Normal shown) /\
  (forall c, getAllComments feedback = Normal (Some c) -> blank c = false).
Proof.
  unfold getAllComments. cbv zeta.
  assert (Hfrom : exists shown,
    (if truthy (Escalation.comments feedback)
        && TypeTag_eqb (typeof (Escalation.comments feedback)) TObject
     then
       values <~ Object_values (Escalation.comments feedback) ;;
       (if (0 <? length (omap nonblank_string values))%nat
        then Normal (Some (join (js " | ") (omap nonblank_string values)))
        else Normal None)
     else Normal None) = Normal shown /\
    forall c, shown = Some c -> blank c = false).
  { destruct (truthy (Escalation.comments feedback)
              && TypeTag_eqb (typeof (Escalation.comments feedback)) TObject) eqn:G;
      [|exists None; split; [reflexivity|discriminate]].
    destruct (Object_values_guarded _ G) as [values Hv]. rewrite Hv.
    cbn [cbind].
    pose proof (omap_nonblank_string_Forall values) as Hall.
    destruct (omap nonblank_string values) as [|x xs];
      [exists None; split; [reflexivity|discriminate]|].
    eexists. split; [reflexivity|].
    intros c Hc. injection Hc as <-.
    rewrite join_separated, separated_cons, blank_app.
    inversion Hall as [|? ? Hx _]; subst. rewrite Hx. reflexivity. }
  destruct Hfrom as (shown & Hrun & Hshown).
  destruct (Escalation.primaryComment feedback) as [c|].
  - rewrite primary_comment_test.
    destruct (blank c) eqn:E; cbn [negb].
    + rewrite Hrun. split; [exists shown; reflexivity|].
      intros c' Hc'. injection Hc' as ->. apply Hshown. reflexivity.
    + split; [exists (Some c); reflexivity|].
      intros c' Hc'. injection Hc' as <-. exact E.
  - rewrite Hrun. split; [exists shown; reflexivity|].
    intros c' Hc'. injection Hc' as ->. apply Hshown. reflexivity.
Qed.

Lemma getAllComments_not_blank_witness : blank (js "slow | rude") = false.
Proof.
  apply (proj2 (getAllComments_not_blank
                  (escalation_with None JUndefined (Some (js "  "))
                     (JObj [(js "service", JStr (js "slow"));
                            (js "food", JStr (js " "));
                            (js "staff", JStr (js "rude"))])))
           (js "slow | rude")).
  vm_compute. reflexivity.
Defined.

Lemma positive_filter_nil (entries : list (jsstring * JsVal)) :
  filter (fun kv => is_positive_number (snd kv) = true) entries = [] ->
  omap positive_number (map snd entries) = [].
Proof.
  rewrite filter_positive_entries, omap_positive_number. unfold positive_ratings.
  destruct (positive_entries entries); [reflexivity|discriminate].
Qed.

(** X16: a card whose ratings grid is empty shows the rating 0.0,
    unless a primary rating counts: when getAvailableRatings returns no
    cell and no primary rating is greater than 0, getAverageRating
    returns 0.0. *)
Theorem getAvailableRatings_empty_zero_average
    (toUpperCase : jsstring -> jsstring) (feedback : DeviceFilteredEscalation) :
  primary_rating_unset feedback ->
  getAvailableRatings toUpperCase feedback = Normal [] ->
  getAverageRating feedback = Normal (js "0.0").
Proof.
  intros Hp Hgrid. unfold getAverageRating. cbv zeta.
  assert (Hfrom :
    (if truthy (Escalation.ratings feedback)
        && TypeTag_eqb (typeof (Escalation.ratings feedback)) TObject
     then
       values <~ Object_values (Escalation.ratings feedback) ;;
       (if (0 <? length (omap positive_number values))%nat
        then Normal (toFixed1
               (num_div (fold_left num_add (omap positive_number values) (num_of_Z 0))
                        (num_of_Z (Z.of_nat (length (omap positive_number values))))))
        else Normal (js "0.0"))
     else Normal (js "0.0")) = Normal (js "0.0")).
  { unfold getAvailableRatings in Hgrid.
    destruct (truthy (Escalation.ratings feedback)
              && TypeTag_eqb (typeof (Escalation.ratings feedback)) TObject) eqn:G;
      [|reflexivity].
    destruct (Object_entries_guarded _ G) as [entries He].
    unfold Object_values. rewrite He in Hgrid |- *. cbn [cbind] in Hgrid |- *.
    injection Hgrid as Hgrid. apply map_eq_nil in Hgrid.
    assert (Hnil : filter (fun kv => is_positive_number (snd kv) = true) entries = []).
    { destruct (filter (fun kv => is_positive_number (snd kv) = true) entries);
        [reflexivity|discriminate Hgrid]. }
    rewrite (positive_filter_nil entries Hnil). reflexivity. }
  rewrite Hfrom. unfold primary_rating_unset in Hp.
  destruct (Escalation.primaryRating feedback) as [p|]; [|reflexivity].
  rewrite Hp, andb_false_r. reflexivity.
Qed.

Lemma getAvailableRatings_empty_zero_average_witness :
  getAverageRating
    (escalation_with (Some (num_of_Z 0))
       (JObj [(js "food", JNum (num_of_Z 0)); (js "note", JStr (js "4"))])
       None JNull)
  = Normal (js "0.0").
Proof.
  apply (getAvailableRatings_empty_zero_average ascii_toUpperCase).
  - vm_compute. reflexivity.
  - vm_compute. reflexivity.
Defined.

(** ** The row of stars *)

Lemma Raised_eqb_eq (a b : Raised jsstring) : Raised_eqb a b = true -> a = b.
Proof.
  destruct a as [x|], b as [y|]; cbn [Raised_eqb]; try discriminate; [|reflexivity].
  intros H. apply bool_decide_eq_true_1 in H. congruence.
Qed.

Lemma forallb_range (P : Z -> bool) (lo : Z) (len : nat) :
  forallb P (map (fun i => lo + Z.of_nat i) (seq 0 len)) = true ->
  forall n, lo <= n < lo + Z.of_nat len -> P n = true.
Proof.
  intros H n Hn. rewrite forallb_forall in H. apply H.
  apply in_map_iff. exists (Z.to_nat (n - lo)). split; [lia|].
  apply in_seq. lia.
Qed.

(** X17: on a rating of n tenths, getStars returns a row of five stars
    whose first floor(n / 10) are black when the rating is below 5.5, a
    half star being drawn like an empty one; from 5.5 up to 100 it
    raises a RangeError, the count of empty stars being negative. *)
Theorem getStars_tenths (n : Z) :
  (0 <= n < 55 -> getStars (num_of_ratio n 10) = Returned (star_row (n / 10))) /\
  (55 <= n <= 1000 -> getStars (num_of_ratio n 10) = RangeError).
Proof.
  split; intros Hn.
  - apply Raised_eqb_eq.
    apply (forallb_range
             (fun n => Raised_eqb (getStars (num_of_ratio n 10))
                         (Returned (star_row (n / 10)))) 0 55);
      [vm_compute; reflexivity|lia].
  - apply Raised_eqb_eq.
    apply (forallb_range
             (fun n => Raised_eqb (getStars (num_of_ratio n 10)) RangeError) 55 946);
      [vm_compute; reflexivity|lia].
Qed.

Lemma getStars_tenths_witness :
  getStars (num_of_ratio 45 10) = Returned (star_row 4) /\
  getStars (num_of_ratio 55 10) = RangeError.
Proof.
  split.
  - apply (proj1 (getStars_tenths 45)). lia.
  - apply (proj2 (getStars_tenths 55)). lia.
Defined.

(** ** Contacting the customer *)

Lemma replace_leading_plus (s : jsstring) : replace (js "+" ++ s) (js "+") [] = s.
Proof.
  unfold replace. change (js "+" ++ s) with (43%N :: s). change (js "+") with [43%N].
  destruct s; reflexivity.
Qed.

(** X18: without a phone number contactCustomer only tells that there
    is no contact information; with one it asks before anything is sent,
    and the address the WhatsApp button opens is
    https://wa.me/<number>?text=<message>, the number being the phone
    number without its leading plus sign, or 91 followed by the phone
    number when it has none. *)
Theorem contactCustomer_whatsapp
    (encodeURIComponent : jsstring -> Completion jsstring)
    (feedback : DeviceFilteredEscalation) :
  (forall w,
      absent (Escalation.customerPhone feedback) = true ->
      contactCustomer feedback w
      = (Normal tt, with_alerts w (alerts w ++ [no_contact_alert]))) /\
  (forall w phone,
      Escalation.customerPhone feedback = Some phone -> phone <> [] ->
      exists shown,
        contactCustomer feedback w = (Normal tt, with_alerts w (alerts w ++ [shown])) /\
        title shown = js "Contact Customer" /\
        buttons shown = [js "Cancel"; js "WhatsApp"]) /\
  (forall phone,
      match whatsappUrl encodeURIComponent feedback phone with
      | Normal address =>
          exists encoded,
            address = js "https://wa.me/" ++ whatsapp_number phone ++
                      js "?text=" ++ encoded
      | Throw _ => True
      end).
Proof.
  split; [|split].
  - intros w Habs. unfold contactCustomer. rewrite Habs. reflexivity.
  - intros w phone Hp Hne. unfold contactCustomer. rewrite Hp.
    cbn [absent truthy]. rewrite (bool_decide_eq_false_2 _ Hne). cbn [negb].
    eexists. split; [reflexivity|]. split; reflexivity.
  - intros phone. unfold whatsappUrl, whatsapp_number. cbv zeta.
    destruct (encodeURIComponent _) as [encoded|e]; [|exact I].
    cbn [cbind]. exists encoded. f_equal. f_equal.
    destruct (startsWith phone (js "+")) eqn:E.
    + destruct phone as [|c rest]; [discriminate E|].
      change (js "+") with [43%N] in E. cbn [startsWith] in E.
      destruct (N.eqb_spec 43 c) as [<-|]; [|discriminate E].
      exact (replace_leading_plus rest).
    + exact (replace_leading_plus (js "91" ++ phone)).
Qed.

Lemma contactCustomer_whatsapp_witness :
  exists shown,
    contactCustomer (escalation_of (Some (js "9876543210"))) fresh_world
    = (Normal tt, with_alerts fresh_world (alerts fresh_world ++ [shown])) /\
    title shown = js "Contact Customer" /\
    buttons shown = [js "Cancel"; js "WhatsApp"].
Proof.
  apply (proj1 (proj2 (contactCustomer_whatsapp sample_encode
                         (escalation_of (Some (js "9876543210")))))
           fresh_world (js "9876543210")).
  - reflexivity.
  - discriminate.
Defined.

(** ** The subscription levels *)

(** X22: the subscription screen offers each of the three levels once,
    and an escalation of a level is drawn on the list with the colours
    and the icon of the option of that level. *)
Theorem severityOptions_match_banner :
  map SeverityOption.level severityOptions = [high; medium; low] /\
  (forall option,
      In option severityOptions ->
      bannerStyle (Some (severity_text (SeverityOption.level option)))
      = option_style option).
Proof.
  split; [reflexivity|].
  intros option [<-|[<-|[<-|[]]]]; reflexivity.
Qed.

Lemma severityOptions_match_banner_witness :
  bannerStyle (Some (js "high")) = high_style.
Proof.
  apply (proj2 severityOptions_match_banner
           {| SeverityOption.level := high;
              SeverityOption.title := js "High Priority Only";
              SeverityOption.description :=
                js "Critical issues and serious complaints only";
              SeverityOption.icon := js "alert-circle";
              SeverityOption.color := js "#EF4444";
              SeverityOption.bgColor := js "#FEF2F2" |}).
  left. reflexivity.
Defined.

(** ** The device service, continued *)

Lemma absent_Some (s : jsstring) : absent (Some s) = bool_decide (s = []).
Proof. cbn [absent truthy]. apply negb_involutive. Qed.

Lemma stored_credentials_unique (w : World) (c1 c2 : Credentials) :
  stored_credentials w c1 -> stored_credentials w c2 -> c1 = c2.
Proof.
  destruct c1 as [i1 k1], c2 as [i2 k2]. unfold stored_credentials.
  cbn [deviceId deviceSecret]. intros (A & B & _) (C & D & _). congruence.
Qed.

Lemma stored_credentials_logged (w w' : World) (cr : Credentials) :
  only_logged w w' -> stored_credentials w' cr -> stored_credentials w cr.
Proof. intros (Hs & _) H. unfold stored_credentials in *. rewrite Hs in H. exact H. Qed.

Lemma unregistered_logged (w w' : World) :
  only_logged w w' -> unregistered w -> unregistered w'.
Proof. intros (Hs & _) H. unfold unregistered. rewrite Hs. exact H. Qed.

Lemma only_logged_trans (w1 w2 w3 : World) :
  only_logged w1 w2 -> only_logged w2 w3 -> only_logged w1 w3.
Proof.
  intros (A1 & A2 & A3 & A4) (B1 & B2 & B3 & B4).
  repeat split; congruence.
Qed.

Lemma find_set_property (props : list (jsstring * JsVal)) (key : jsstring) (x : JsVal) :
  find (fun kv => bool_decide (fst kv = key)) (set_property props key x)
  = Some (key, x).
Proof.
  induction props as [|[k y] props IH]; cbn [set_property find fst].
  - rewrite (bool_decide_eq_true_2 _ eq_refl). reflexivity.
  - destruct (bool_decide_reflect (k = key)) as [->|Hne]; cbn [find fst].
    + rewrite (bool_decide_eq_true_2 _ eq_refl). reflexivity.
    + rewrite (bool_decide_eq_false_2 _ Hne). exact IH.
Qed.

Lemma severity_text_truthy (s : SeverityLevel) : truthy (JStr (severity_text s)) = true.
Proof. destruct s; reflexivity. Qed.

Lemma lift_run {A} (c : Completion A) (w : World) : lift c w = (c, w).
Proof. reflexivity. Qed.

Section DeviceServiceFacts.

Variable toUpperCase : jsstring -> jsstring.
Variable JSON_stringify : JsVal -> jsstring.
Variable JSON_parse : jsstring -> Completion JsVal.
Variable env : Environment.
Variable multiRemove_fault : option (JsVal * (jsstring -> bool)).

Lemma axios_run (request : HttpRequest) (w : World) :
  axios env request w
  = match server env (requests w) request with
    | Fulfilled data => (Normal data, with_requests w (requests w ++ [request]))
    | Failed error =>
        (Throw (Rejection error), with_requests w (requests w ++ [request]))
    end.
Proof. reflexivity. Qed.

(** What the credentials read returns, in full. *)
Lemma getDeviceCredentials_result (w : World) :
  exists (c : option Credentials) (w' : World),
    getDeviceCredentials env w = (Normal c, w') /\
    only_logged w w' /\
    (forall cr, c = Some cr -> stored_credentials w cr) /\
    (forall cr, stored_credentials w cr ->
       getItem_fault env (js "deviceId") = None ->
       getItem_fault env (js "deviceSecret") = None ->
       c = Some cr /\ w' = w).
Proof.
  unfold getDeviceCredentials, AsyncStorage_getItem, stored_credentials. run_action.
  destruct (getItem_fault env (js "deviceId")) as [r1|].
  { eexists None, _. split; [reflexivity|].
    split; [apply only_logged_console|]. split; discriminate. }
  destruct (getItem_fault env (js "deviceSecret")) as [r2|].
  { eexists None, _. split; [reflexivity|].
    split; [apply only_logged_console|]. split; discriminate. }
  destruct (storage w !! js "deviceId") as [i|] eqn:Ei;
    destruct (storage w !! js "deviceSecret") as [k|] eqn:Ek;
    try (eexists None, _; split; [reflexivity|];
         split; [apply only_logged_refl|]; split;
         [discriminate|intros cr (H1 & H2 & _); discriminate]).
  rewrite !absent_Some.
  destruct (bool_decide_reflect (i = [])) as [->|Hi]; cbn [orb].
  { eexists None, _. split; [reflexivity|]. split; [apply only_logged_refl|].
    split; [discriminate|]. intros cr (H1 & _ & H3 & _). congruence. }
  destruct (bool_decide_reflect (k = [])) as [->|Hk].
  { eexists None, _. split; [reflexivity|]. split; [apply only_logged_refl|].
    split; [discriminate|]. intros cr (_ & H2 & _ & H4). congruence. }
  eexists (Some _), _. split; [reflexivity|]. split; [apply only_logged_refl|].
  split.
  - intros cr [= <-]. cbn [deviceId deviceSecret]. repeat split; assumption.
  - intros [i' k'] (H1 & H2 & _). cbn [deviceId deviceSecret] in *.
    intros _ _. split; [|reflexivity]. congruence.
Qed.

Lemma getDeviceCredentials_stored (w : World) (cr : Credentials) :
  stored_credentials w cr ->
  getItem_fault env (js "deviceId") = None ->
  getItem_fault env (js "deviceSecret") = None ->
  getDeviceCredentials env w = (Normal (Some cr), w).
Proof.
  intros Hcr F1 F2.
  destruct (getDeviceCredentials_result w) as (c & w' & Hrun & _ & _ & Hall).
  destruct (Hall cr Hcr F1 F2) as [-> ->]. exact Hrun.
Qed.

(** Reading the cached registration never fails and touches nothing but
    the console. *)
Lemma getDeviceRegistration_run (w : World) :
  exists (r : JsVal) (w' : World),
    getDeviceRegistration JSON_parse env w = (Normal r, w') /\
    only_logged w w' /\
    (truthy r = true ->
     exists text,
       storage w !! js "deviceRegistration" = Some text /\ text <> [] /\
       JSON_parse text = Normal r).
Proof.
  unfold getDeviceRegistration, AsyncStorage_getItem. run_action.
  destruct (getItem_fault env (js "deviceRegistration")) as [reason|].
  { eexists JNull, _. split; [reflexivity|]. split; [apply only_logged_console|].
    discriminate. }
  destruct (storage w !! js "deviceRegistration") as [text|] eqn:Et.
  2:{ eexists JNull, _. split; [reflexivity|]. split; [apply only_logged_refl|].
      discriminate. }
  rewrite absent_Some. destruct (bool_decide_reflect (text = [])) as [->|Hne].
  { eexists JNull, _. split; [reflexivity|]. split; [apply only_logged_refl|].
    discriminate. }
  destruct (JSON_parse text) as [r|e] eqn:Ep.
  - eexists r, _. split; [reflexivity|]. split; [apply only_logged_refl|].
    intros _. exists text. repeat split; assumption.
  - eexists JNull, _. split; [reflexivity|]. split; [apply only_logged_console|].
    discriminate.
Qed.

(** The registration check never fails and only logs. *)
Lemma isDeviceRegistered_run (w : World) :
  exists (registered : bool) (w' : World),
    isDeviceRegistered JSON_parse env w = (Normal registered, w') /\
    only_logged w w' /\
    (unregistered w -> registered = false).
Proof.
  destruct (getDeviceRegistration_run w) as (r & w1 & Hreg & Hlog1 & _).
  destruct (getDeviceCredentials_run env w1) as (c & w2 & Hcred & Hlog2 & _ & Hnone).
  unfold isDeviceRegistered. rewrite bind_run, Hreg, bind_run, Hcred.
  eexists _, w2. split; [reflexivity|].
  split; [exact (only_logged_trans _ _ _ Hlog1 Hlog2)|].
  intros Hun. rewrite (Hnone (unregistered_logged _ _ Hlog1 Hun)).
  apply andb_false_r.
Qed.

(** Reading the subscribed severity never fails and only logs. *)
Lemma getSubscriptionSeverity_run (w : World) :
  exists (severity : JsVal) (w' : World),
    getSubscriptionSeverity JSON_parse env w = (Normal severity, w') /\
    only_logged w w'.
Proof.
  destruct (getDeviceRegistration_run w) as (r & w1 & Hreg & Hlog1 & _).
  unfold getSubscriptionSeverity. rewrite bind_run, Hreg.
  destruct r; run_action; eexists _, _; (split; [reflexivity|exact Hlog1]).
Qed.

(** The fetch of the escalations, by cases. *)
Lemma getDeviceFilteredEscalations_run (w : World) :
  exists (r : Completion JsVal) (w' : World),
    getDeviceFilteredEscalations env w = (r, w') /\
    storage w' = storage w /\ alerts w' = alerts w /\ screen w' = screen w /\
    (length (requests w') <= S (length (requests w)))%nat /\
    (unregistered w -> r = Normal (JArr []) /\ requests w' = requests w) /\
    (forall cr,
       stored_credentials w cr ->
       getItem_fault env (js "deviceId") = None ->
       getItem_fault env (js "deviceSecret") = None ->
       requests w' = requests w ++ [escalations_request cr] /\
       r = match server env (requests w) (escalations_request cr) with
           | Fulfilled data => Normal (if truthy data then data else JArr [])
           | Failed error => Throw (Rejection error)
           end).
Proof.
  destruct (getDeviceCredentials_run env w) as (c & w1 & Hrun & Hlog & _ & Hnone).
  destruct Hlog as (Hs & Hr & Ha & Hsc).
  unfold getDeviceFilteredEscalations, axios. run_action. rewrite Hrun. cbv beta iota.
  destruct c as [credentials|].
  - change (buildApiUrl API_ENDPOINTS.ESCALATIONS_DEVICE)
      with (js "https://api.twelvelabs.tech/api/escalations/device").
    fold (escalations_request credentials). rewrite Hr.
    assert (Hcr : forall cr, stored_credentials w cr ->
              getItem_fault env (js "deviceId") = None ->
              getItem_fault env (js "deviceSecret") = None ->
              cr = credentials /\ w1 = w).
    { intros cr Hcr F1 F2. rewrite (getDeviceCredentials_stored w cr Hcr F1 F2) in Hrun.
      injection Hrun as -> ->. split; reflexivity. }
    destruct (server env (requests w) (escalations_request credentials))
      as [data|error] eqn:Esrv.
    + eexists _, _. split; [reflexivity|].
      cbn [storage alerts screen requests with_requests with_console].
      split; [exact Hs|]. split; [exact Ha|]. split; [exact Hsc|].
      split; [rewrite length_app; cbn [length]; lia|]. split.
      * intros Hun. specialize (Hnone Hun). discriminate Hnone.
      * intros cr H F1 F2. destruct (Hcr cr H F1 F2) as [-> ->].
        rewrite Esrv. split; reflexivity.
    + eexists _, _. split; [reflexivity|].
      cbn [storage alerts screen requests with_requests with_console].
      split; [exact Hs|]. split; [exact Ha|]. split; [exact Hsc|].
      split; [rewrite length_app; cbn [length]; lia|]. split.
      * intros Hun. specialize (Hnone Hun). discriminate Hnone.
      * intros cr H F1 F2. destruct (Hcr cr H F1 F2) as [-> ->].
        rewrite Esrv. split; reflexivity.
  - eexists _, _. split; [reflexivity|].
    cbn [storage alerts screen requests with_requests with_console].
    split; [exact Hs|]. split; [exact Ha|]. split; [exact Hsc|].
    split; [rewrite Hr; lia|]. split.
    + intros _. split; [reflexivity|exact Hr].
    + intros cr H F1 F2. rewrite (getDeviceCredentials_stored w cr H F1 F2) in Hrun.
      discriminate Hrun.
Qed.

(** X1: sendHeartbeat never raises an error and never writes to the
    store.  It returns true only when credentials are stored and the
    server accepted exactly one request carrying them, with the push
    token in the body when one is given; without credentials it returns
    false and sends nothing. *)
Theorem sendHeartbeat_outcome (pushToken : option jsstring) (w : World) :
  exists (sent : bool) (w' : World),
    sendHeartbeat env pushToken w = (Normal sent, w') /\
    storage w' = storage w /\
    (unregistered w -> sent = false /\ requests w' = requests w) /\
    (sent = true ->
     exists credentials data,
       stored_credentials w credentials /\
       requests w' = requests w ++ [heartbeat_request credentials pushToken] /\
       server env (requests w) (heartbeat_request credentials pushToken)
         = Fulfilled data) /\
    (forall credentials data,
       stored_credentials w credentials ->
       getItem_fault env (js "deviceId") = None ->
       getItem_fault env (js "deviceSecret") = None ->
       server env (requests w) (heartbeat_request credentials pushToken)
         = Fulfilled data ->
       sent = true).
Proof.
  destruct (getDeviceCredentials_result w) as (c & w1 & Hrun & Hlog & Hsome & Hall).
  destruct (getDeviceCredentials_run env w) as (c' & w1' & Hrun' & _ & _ & Hnone).
  rewrite Hrun in Hrun'. injection Hrun' as <- <-.
  destruct Hlog as (Hs & Hr & _ & _).
  unfold sendHeartbeat, axios. run_action. rewrite Hrun. cbv beta iota.
  destruct c as [credentials|].
  - assert (Hreq :
      {| method := js "POST";
         url := buildApiUrl API_ENDPOINTS.DEVICE_HEARTBEAT;
         body := JObj match pushToken with
                      | Some token =>
                          if truthy (JStr token)
                          then [(js "pushToken", JStr token)] else []
                      | None => []
                      end;
         headers := [(js "x-device-id", deviceId credentials);
                     (js "x-device-secret", deviceSecret credentials)] |}
      = heartbeat_request credentials pushToken).
    { unfold heartbeat_request. f_equal. f_equal.
      destruct pushToken as [token|]; [|reflexivity].
      cbn [truthy]. destruct (bool_decide (token = [])); reflexivity. }
    rewrite Hreq, Hr.
    destruct (server env (requests w) (heartbeat_request credentials pushToken))
      as [data|error] eqn:Esrv.
    + eexists true, _. split; [reflexivity|].
      cbn [storage requests console with_console with_requests].
      split; [exact Hs|]. split.
      * intros Hun. specialize (Hnone Hun). discriminate Hnone.
      * split; [|reflexivity]. intros _. exists credentials, data.
        split; [apply Hsome; reflexivity|]. split; [reflexivity|exact Esrv].
    + eexists false, _. split; [reflexivity|].
      cbn [storage requests console with_console with_requests].
      split; [exact Hs|]. split.
      * intros Hun. specialize (Hnone Hun). discriminate Hnone.
      * split; [discriminate|]. intros cr data Hcr F1 F2 Hsrv.
        destruct (Hall cr Hcr F1 F2) as [[= <-] _]. congruence.
  - eexists false, _. split; [reflexivity|].
    cbn [storage requests console with_console with_requests].
    split; [exact Hs|]. split; [intros _; split; [reflexivity|exact Hr]|].
    split; [discriminate|]. intros cr data Hcr F1 F2 _.
    destruct (Hall cr Hcr F1 F2) as [H _]. discriminate H.
Qed.

(** X2: updateSubscriptionSeverity never raises an error and writes no
    key of the store but the cached registration.  It returns true only
    when credentials are stored and the server accepted the one request
    sent; when the server refuses, it returns false and the store is as
    it was. *)
Theorem updateSubscriptionSeverity_outcome (newSeverity : SeverityLevel) (w : World) :
  exists (updated : bool) (w' : World),
    updateSubscriptionSeverity JSON_stringify JSON_parse env newSeverity w
      = (Normal updated, w') /\
    (forall key, key <> js "deviceRegistration" ->
       storage w' !! key = storage w !! key) /\
    (updated = true ->
     exists credentials data,
       stored_credentials w credentials /\
       requests w' = requests w ++ [subscription_request credentials newSeverity] /\
       server env (requests w) (subscription_request credentials newSeverity)
         = Fulfilled data) /\
    (forall credentials error,
       stored_credentials w credentials ->
       server env (requests w) (subscription_request credentials newSeverity)
         = Failed error ->
       updated = false /\ storage w' = storage w).
Proof.
  destruct (getDeviceCredentials_result w) as (c & w1 & Hrun & Hlog & Hsome & _).
  destruct Hlog as (Hs & Hr & _ & _).
  unfold updateSubscriptionSeverity. unfold try_catch at 1. rewrite bind_run, Hrun.
  destruct c as [credentials|].
  2:{ run_action. eexists false, _. split; [reflexivity|].
      cbn [storage with_console]. split; [intros; rewrite Hs; reflexivity|].
      split; [discriminate|]. intros; split; [reflexivity|exact Hs]. }
  specialize (Hsome credentials eq_refl).
  fold (subscription_request credentials newSeverity).
  rewrite bind_run. unfold axios at 1. cbv zeta. rewrite Hr.
  destruct (server env (requests w) (subscription_request credentials newSeverity))
    as [data|error] eqn:Esrv.
  2:{ run_action. eexists false, _. split; [reflexivity|].
      cbn [storage with_console with_requests].
      split; [intros; rewrite Hs; reflexivity|].
      split; [discriminate|]. intros; split; [reflexivity|exact Hs]. }
  set (w2 := with_requests w1 _).
  assert (Hw2 : storage w2 = storage w /\
                requests w2 = requests w ++ [subscription_request credentials newSeverity])
    by (split; [exact Hs|reflexivity]).
  clearbody w2. destruct Hw2 as [Hs2 Hr2].
  unfold getDeviceRegistration, AsyncStorage_getItem, AsyncStorage_setItem.
  run_action.
  assert (Hfail : forall cr e,
            stored_credentials w cr ->
            server env (requests w) (subscription_request cr newSeverity) = Failed e ->
            False).
  { intros cr e Hcr He.
    rewrite (stored_credentials_unique w cr credentials Hcr Hsome) in He.
    congruence. }
  assert (Hkey : forall (v : jsstring) key, key <> js "deviceRegistration" ->
            <[js "deviceRegistration" := v]> (storage w2) !! key = storage w !! key).
  { intros v key Hne. rewrite lookup_insert_ne by congruence. rewrite Hs2. reflexivity. }
  split_run.
  all: try match goal with H : truthy JNull = true |- _ => discriminate H end.
  all: try (eexists _, _; split; [reflexivity|];
     cbn [storage requests with_console with_requests with_storage];
     split; [first [exact (Hkey _) | intros; rewrite Hs2; reflexivity]|];
     split; [first [discriminate | intros _; exists credentials, data;
                    split; [exact Hsome|]; split; [exact Hr2|exact Esrv]]|];
     intros ? ? Hcr He; exfalso; exact (Hfail _ _ Hcr He)).
Qed.

(** X3: isDeviceRegistered never raises an error and changes nothing but
    the console.  It answers true only when the store holds a non-empty
    identifier, a non-empty secret and a non-empty cached registration;
    without an identifier or a secret it answers false. *)
Theorem isDeviceRegistered_sound (w : World) :
  exists (registered : bool) (w' : World),
    isDeviceRegistered JSON_parse env w = (Normal registered, w') /\
    only_logged w w' /\
    (registered = true ->
     exists credentials text,
       stored_credentials w credentials /\
       storage w !! js "deviceRegistration" = Some text /\ text <> []) /\
    (unregistered w -> registered = false).
Proof.
  destruct (getDeviceRegistration_run w) as (r & w1 & Hreg & Hlog1 & Htruthy).
  destruct (getDeviceCredentials_result w1) as (c & w2 & Hcred & Hlog2 & Hsome & _).
  destruct (getDeviceCredentials_run env w1) as (c' & w2' & Hcred' & _ & _ & Hnone).
  rewrite Hcred in Hcred'. injection Hcred' as <- <-.
  unfold isDeviceRegistered. rewrite bind_run, Hreg, bind_run, Hcred.
  eexists _, w2. split; [reflexivity|].
  split; [exact (only_logged_trans _ _ _ Hlog1 Hlog2)|]. split.
  - intros Hb. apply andb_true_iff in Hb as [Hr Hc].
    destruct c as [credentials|]; [|discriminate Hc].
    destruct (Htruthy Hr) as (text & Ht & Hne & _).
    exists credentials, text. split; [|split; assumption].
    exact (stored_credentials_logged _ _ _ Hlog1 (Hsome _ eq_refl)).
  - intros Hun. rewrite Hnone; [apply andb_false_r|].
    exact (unregistered_logged _ _ Hlog1 Hun).
Qed.

(** X4: clearDeviceRegistration never raises an error, sends nothing
    and touches no key of the store but the registration, the
    identifier and the secret, also when the removal fails half way;
    when the removal succeeds the three keys are gone. *)
Theorem clearDeviceRegistration_outcome (w : World) :
  exists w',
    clearDeviceRegistration multiRemove_fault w = (Normal tt, w') /\
    requests w' = requests w /\
    (forall key,
       key <> js "deviceRegistration" -> key <> js "deviceId" ->
       key <> js "deviceSecret" -> storage w' !! key = storage w !! key) /\
    (multiRemove_fault = None ->
     storage w' !! js "deviceRegistration" = None /\
     storage w' !! js "deviceId" = None /\
     storage w' !! js "deviceSecret" = None).
Proof.
  unfold clearDeviceRegistration, AsyncStorage_multiRemove. run_action.
  destruct multiRemove_fault as [[reason removed]|].
  - eexists. split; [reflexivity|].
    cbn [requests storage with_console with_storage]. split; [reflexivity|].
    split; [|discriminate]. intros key H1 H2 H3.
    rewrite !filter_cons, filter_nil.
    repeat (destruct (decide (removed _ = true))); cbn [foldr];
      rewrite ?lookup_delete_ne by congruence; reflexivity.
  - eexists. split; [reflexivity|].
    cbn [requests storage with_console with_storage foldr]. split; [reflexivity|].
    split.
    + intros key H1 H2 H3. rewrite !lookup_delete_ne by congruence. reflexivity.
    + intros _. split; [apply lookup_delete_eq|]. split.
      * rewrite lookup_delete_ne by js_neq. apply lookup_delete_eq.
      * rewrite !lookup_delete_ne by js_neq. apply lookup_delete_eq.
Qed.

(** X5: after a clearDeviceRegistration that succeeded the device is not
    registered any more: isDeviceRegistered answers false, and
    getDeviceFilteredEscalations returns the empty list without sending
    a request. *)
Theorem clearDeviceRegistration_unregisters (w : World) :
  multiRemove_fault = None ->
  exists w1 w2 w3,
    clearDeviceRegistration multiRemove_fault w = (Normal tt, w1) /\
    isDeviceRegistered JSON_parse env w1 = (Normal false, w2) /\
    getDeviceFilteredEscalations env w2 = (Normal (JArr []), w3) /\
    requests w3 = requests w.
Proof.
  intros Hfault.
  assert (Hclear : exists w1,
            clearDeviceRegistration multiRemove_fault w = (Normal tt, w1) /\
            requests w1 = requests w /\ unregistered w1).
  { unfold clearDeviceRegistration, AsyncStorage_multiRemove. rewrite Hfault.
    run_action. eexists. split; [reflexivity|]. split; [reflexivity|].
    left. cbn [storage with_console with_storage foldr].
    rewrite lookup_delete_ne by js_neq. apply lookup_delete_eq. }
  destruct Hclear as (w1 & Hclear & Hr1 & Hun1).
  destruct (isDeviceRegistered_run w1) as (b & w2 & Hreg & Hlog & Hun).
  rewrite (Hun Hun1) in Hreg.
  destruct (getDeviceFilteredEscalations_run w2)
    as (r & w3 & Hrun & _ & _ & _ & _ & Hnone & _).
  destruct (Hnone (unregistered_logged _ _ Hlog Hun1)) as [-> Hr3].
  destruct Hlog as (_ & Hr2 & _).
  exists w1, w2, w3. split; [exact Hclear|]. split; [exact Hreg|].
  split; [exact Hrun|]. congruence.
Qed.

(** X10: sendTokenToServer never raises an error and never writes to the
    store; it sends nothing without a push token or without a session
    token, and what it sends is one request that carries the push token
    and the session token as a bearer. *)
Theorem sendTokenToServer_outcome (expoPushToken : jsstring) (w : World) :
  exists w',
    sendTokenToServer env expoPushToken w = (Normal tt, w') /\
    storage w' = storage w /\
    (expoPushToken = [] \/ storage w !! js "authToken" = None ->
     requests w' = requests w) /\
    (requests w' <> requests w ->
     exists token,
       storage w !! js "authToken" = Some token /\ token <> [] /\
       requests w' = requests w ++ [push_token_request expoPushToken token]).
Proof.
  unfold sendTokenToServer, AsyncStorage_getItem, axios. cbn [truthy].
  rewrite negb_involutive. run_action.
  destruct (bool_decide_reflect (expoPushToken = [])) as [He|He].
  { eexists. split; [reflexivity|]. split; [reflexivity|].
    split; [reflexivity|]. intros H. contradiction. }
  destruct (getItem_fault env (js "authToken")) as [reason|].
  { eexists. split; [reflexivity|]. split; [reflexivity|].
    split; [reflexivity|]. cbn [requests with_console]. intros H. contradiction. }
  destruct (storage w !! js "authToken") as [token|] eqn:Et.
  2:{ eexists. split; [reflexivity|]. split; [reflexivity|].
      split; [reflexivity|]. intros H. contradiction. }
  rewrite absent_Some. destruct (bool_decide_reflect (token = [])) as [Hn|Hn].
  { eexists. split; [reflexivity|]. split; [reflexivity|].
    split; [reflexivity|]. intros H. contradiction. }
  fold (push_token_request expoPushToken token).
  destruct (server env (requests w) (push_token_request expoPushToken token));
    (eexists; split; [reflexivity|]; split; [reflexivity|];
     cbn [requests with_console with_requests];
     split; [intros [H|H]; [contradiction|discriminate H]|];
     intros _; exists token; repeat split; assumption).
Qed.

(** X11: a severity that updateSubscriptionSeverity has set is the one
    getSubscriptionSeverity reads afterwards: on a registered device
    whose store has no fault, whose cached registration parses, and
    with a serialization that the parser reads back, the update returns
    true and the next read returns the new severity. *)
Theorem updateSubscriptionSeverity_then_read (newSeverity : SeverityLevel) (w : World)
    (credentials : Credentials) (data registration : JsVal) (text : jsstring) :
  stored_credentials w credentials ->
  (forall key, getItem_fault env key = None) ->
  setItem_fault env (js "deviceRegistration") = None ->
  server env (requests w) (subscription_request credentials newSeverity)
    = Fulfilled data ->
  storage w !! js "deviceRegistration" = Some text ->
  text <> [] ->
  JSON_parse text = Normal registration ->
  truthy registration = true ->
  JSON_stringify (with_severity registration newSeverity) <> [] ->
  JSON_parse (JSON_stringify (with_severity registration newSeverity))
    = Normal (with_severity registration newSeverity) ->
  exists w' w'',
    updateSubscriptionSeverity JSON_stringify JSON_parse env newSeverity w
      = (Normal true, w') /\
    getSubscriptionSeverity JSON_parse env w'
      = (Normal (JStr (severity_text newSeverity)), w'').
Proof.
  destruct credentials as [i k]. unfold stored_credentials, subscription_request.
  cbn [deviceId deviceSecret].
  intros (Hi & Hk & Hin & Hkn) Hget Hset Hsrv Htext Hne Hparse Htruthy Hout Hround.
  unfold updateSubscriptionSeverity, getDeviceCredentials, getDeviceRegistration,
    AsyncStorage_getItem, AsyncStorage_setItem, axios.
  run_action. rewrite !Hget, Hi, Hk, !absent_Some.
  rewrite (bool_decide_eq_false_2 _ Hin), (bool_decide_eq_false_2 _ Hkn).
  cbn [orb deviceId deviceSecret].
  rewrite Hsrv. cbn [storage with_requests].
  rewrite Htext, absent_Some, (bool_decide_eq_false_2 _ Hne), Hparse, Htruthy, Hset.
  fold (with_severity registration newSeverity).
  eexists _, _. split; [reflexivity|].
  unfold getSubscriptionSeverity, getDeviceRegistration, AsyncStorage_getItem.
  run_action. rewrite Hget. cbn [storage with_console with_storage].
  rewrite lookup_insert_eq, absent_Some, (bool_decide_eq_false_2 _ Hout), Hround.
  unfold with_severity, spread_with. cbv beta iota.
  unfold get_property. cbn [Object_entries cbind].
  rewrite find_set_property. cbn [snd]. rewrite severity_text_truthy.
  reflexivity.
Qed.

(** X12: updateSubscription on the screen of a registered device ends
    normally.  When the server refuses, the store and the screen stay as
    they were and the user is told that the update failed; when it
    accepts and the store takes the write, the cached registration, the
    registration on the screen and the selected level all hold the new
    severity and the user is told so. *)
Theorem updateSubscription_outcome (newSeverity : SeverityLevel) (w : World)
    (credentials : Credentials) :
  truthy (deviceRegistration (screen w)) = true ->
  stored_credentials w credentials ->
  getItem_fault env (js "deviceId") = None ->
  getItem_fault env (js "deviceSecret") = None ->
  (forall error,
     server env (requests w) (subscription_request credentials newSeverity)
       = Failed error ->
     exists w',
       updateSubscription toUpperCase JSON_stringify env newSeverity w
         = (Normal tt, w') /\
       storage w' = storage w /\ screen w' = screen w /\
       alerts w' = alerts w ++ [update_failed_alert]) /\
  (forall data,
     server env (requests w) (subscription_request credentials newSeverity)
       = Fulfilled data ->
     setItem_fault env (js "deviceRegistration") = None ->
     exists w' shown,
       updateSubscription toUpperCase JSON_stringify env newSeverity w
         = (Normal tt, w') /\
       storage w' =
         <[js "deviceRegistration" :=
             JSON_stringify (with_severity (deviceRegistration (screen w)) newSeverity)]>
           (storage w) /\
       selectedSeverity (screen w') = newSeverity /\
       deviceRegistration (screen w')
         = with_severity (deviceRegistration (screen w)) newSeverity /\
       alerts w' = alerts w ++ [shown] /\
       title shown = js "Subscription Updated").
Proof.
  destruct credentials as [i k]. unfold stored_credentials, subscription_request.
  cbn [deviceId deviceSecret].
  intros Hreg (Hi & Hk & Hin & Hkn) F1 F2.
  split.
  - intros error Hsrv.
    unfold updateSubscription, AsyncStorage_getItem, axios. cbv zeta.
    rewrite Hreg. cbn [negb]. run_action.
    rewrite F1, F2, Hi, Hk, !absent_Some, (bool_decide_eq_false_2 _ Hin),
      (bool_decide_eq_false_2 _ Hkn). cbn [orb]. rewrite Hsrv.
    eexists. split; [reflexivity|]. repeat split.
  - intros data Hsrv Hset.
    unfold updateSubscription, AsyncStorage_getItem, AsyncStorage_setItem, axios.
    cbv zeta. rewrite Hreg. cbn [negb]. run_action.
    rewrite F1, F2, Hi, Hk, !absent_Some, (bool_decide_eq_false_2 _ Hin),
      (bool_decide_eq_false_2 _ Hkn). cbn [orb]. rewrite Hsrv, Hset.
    cbn [setDeviceRegistration setSelectedSeverity].
    eexists _, _. split; [reflexivity|]. repeat split.
Qed.

(** *** Registration *)

Lemma or_else_nonempty (a : option jsstring) (b : jsstring) :
  b <> [] -> or_else a b <> [].
Proof.
  intros Hb. unfold or_else. destruct a as [s|]; [|exact Hb].
  cbn [truthy]. destruct (bool_decide_reflect (s = [])); cbn [negb]; assumption.
Qed.

Lemma device_identifier_nonempty : device_identifier env <> [].
Proof.
  unfold device_identifier. apply or_else_nonempty, or_else_nonempty. discriminate.
Qed.

(** With the permission granted, or granted on request, the first step
    of a registration goes through and changes neither the store nor
    the requests. *)
Lemma permission_step (user : option JsVal) (w w1 : World) :
  may_register env user w ->
  storage w1 = storage w -> requests w1 = requests w -> alerts w1 = alerts w ->
  deviceRegistration (screen w1) = deviceRegistration (screen w) ->
  selectedSeverity (screen w1) = selectedSeverity (screen w) ->
  exists w2,
    (if negb (bool_decide (permissionStatus (screen w) = js "granted"))
     then requestNotificationPermission env else ret true) w1
    = (Normal true, w2) /\
    storage w2 = storage w /\ requests w2 = requests w /\ alerts w2 = alerts w /\
    deviceRegistration (screen w2) = deviceRegistration (screen w) /\
    selectedSeverity (screen w2) = selectedSeverity (screen w).
Proof.
  intros [_ Hperm] Hs Hr Ha Hd Hv.
  destruct (bool_decide_reflect (permissionStatus (screen w) = js "granted"))
    as [Hg|Hng]; cbn [negb].
  - exists w1. repeat split; assumption.
  - destruct Hperm as [Hg|Hreq]; [contradiction|].
    unfold requestNotificationPermission, setPermissionStatus. run_action.
    rewrite Hreq. rewrite (bool_decide_eq_true_2 _ eq_refl). cbn [negb].
    eexists. split; [reflexivity|].
    cbn [storage requests alerts screen with_screen deviceRegistration
         selectedSeverity].
    repeat split; assumption.
Qed.

Ltac register_prefix Hmay Htoken w2 :=
  let w1 := fresh "w1" in
  let Hstep := fresh "Hstep" in
  unfold registerDevice; cbv zeta;
  match goal with
  | Hu : ?user = Some ?u, Ht : truthy ?u = true |- _ => rewrite Hu, Ht
  end;
  cbn [negb]; unfold bind at 1; cbn [setRegistering]; cbv beta iota;
  unfold try_finally, try_catch;
  match goal with
  | |- context [bind _ _ ?v] => set (w1 := v)
  end;
  destruct (permission_step _ _ w1 Hmay eq_refl eq_refl eq_refl eq_refl eq_refl)
    as (w2 & Hstep & ? & ? & ? & ? & ?);
  clearbody w1;
  rewrite bind_run, Hstep; cbn [negb];
  rewrite bind_run; unfold lift at 1; rewrite Htoken;
  rewrite bind_run; unfold axios at 1; cbv zeta;
  fold (device_identifier env).

(** The run of a registration the server accepts. *)
Lemma registerDevice_accepted (user : option JsVal) (w : World)
    (pushToken secret : jsstring) (props : list (jsstring * JsVal)) :
  may_register env user w ->
  getExpoPushTokenAsync env = Normal pushToken ->
  server env (requests w)
    (register_request env (selectedSeverity (screen w)) pushToken)
    = Fulfilled (JObj props) ->
  property props (js "deviceSecret") = JStr secret ->
  (forall key, setItem_fault env key = None) ->
  exists w',
    registerDevice toUpperCase JSON_stringify env user w = (Normal tt, w') /\
    storage w' =
      <[js "deviceSecret" := secret]>
        (<[js "deviceId" := device_identifier env]>
           (<[js "deviceRegistration" := JSON_stringify (registration_of props)]>
              (storage w))) /\
    requests w' =
      requests w ++ [register_request env (selectedSeverity (screen w)) pushToken] /\
    deviceRegistration (screen w') = registration_of props /\
    registering (screen w') = false /\
    exists shown, alerts w' = alerts w ++ [shown] /\ title shown = js "Device Registered".
Proof.
  intros Hmay Htoken Hsrv Hsecret Hfault.
  pose proof Hmay as [(u & Hu & Ht) _].
  register_prefix Hmay Htoken w2.
  match goal with
  | |- context [server env _ ?q] =>
      change q with (register_request env (selectedSeverity (screen w)) pushToken)
  end.
  match goal with Hr : requests w2 = requests w |- _ => rewrite Hr end.
  rewrite Hsrv. run_action.
  unfold get_property. cbn [Object_entries cbind].
  fold (property props (js "id")). fold (property props (js "deviceSecret")).
  fold (property props (js "subscriptionSeverity")).
  fold (registration_of props). rewrite Hsecret.
  unfold AsyncStorage_setItem. rewrite !Hfault.
  cbn [setDeviceRegistration setRegistering].
  eexists. split; [reflexivity|].
  cbn [storage requests alerts screen registering deviceRegistration
       with_storage with_requests with_alerts with_screen].
  match goal with Hs : storage w2 = storage w |- _ => rewrite Hs end.
  match goal with Ha : alerts w2 = alerts w |- _ => rewrite Ha end.
  split; [reflexivity|]. split; [reflexivity|]. split; [reflexivity|].
  split; [reflexivity|]. eexists. split; reflexivity.
Qed.

(** X6: a registration the server accepts, by a signed-in user with the
    notifications granted and a store without faults, leaves the device
    registered: a non-empty identifier, the secret of the reply and the
    registration are stored, no other key of the store changes, one
    request was sent, and the screen shows the registration and is not
    busy any more. *)
Theorem registerDevice_success (user : option JsVal) (w : World)
    (pushToken secret : jsstring) (props : list (jsstring * JsVal)) :
  may_register env user w ->
  getExpoPushTokenAsync env = Normal pushToken ->
  server env (requests w)
    (register_request env (selectedSeverity (screen w)) pushToken)
    = Fulfilled (JObj props) ->
  property props (js "deviceSecret") = JStr secret ->
  (forall key, setItem_fault env key = None) ->
  exists w',
    registerDevice toUpperCase JSON_stringify env user w = (Normal tt, w') /\
    storage w' !! js "deviceId" = Some (device_identifier env) /\
    device_identifier env <> [] /\
    storage w' !! js "deviceSecret" = Some secret /\
    storage w' !! js "deviceRegistration"
      = Some (JSON_stringify (registration_of props)) /\
    (forall key,
       key <> js "deviceRegistration" -> key <> js "deviceId" ->
       key <> js "deviceSecret" -> storage w' !! key = storage w !! key) /\
    requests w' =
      requests w ++ [register_request env (selectedSeverity (screen w)) pushToken] /\
    deviceRegistration (screen w') = registration_of props /\
    registering (screen w') = false.
Proof.
  intros Hmay Htoken Hsrv Hsecret Hfault.
  destruct (registerDevice_accepted user w pushToken secret props
              Hmay Htoken Hsrv Hsecret Hfault)
    as (w' & Hrun & Hs & Hr & Hd & Hg & _).
  exists w'. split; [exact Hrun|]. rewrite Hs.
  split; [rewrite lookup_insert_ne by js_neq; apply lookup_insert_eq|].
  split; [apply device_identifier_nonempty|].
  split; [apply lookup_insert_eq|].
  split; [rewrite !lookup_insert_ne by js_neq; apply lookup_insert_eq|].
  split; [intros key H1 H2 H3; rewrite !lookup_insert_ne by congruence; reflexivity|].
  split; [exact Hr|]. split; [exact Hd|exact Hg].
Qed.

(** X7: the credentials a registration stores are the ones the next
    fetch presents: after an accepted registration with a non-empty
    secret, on a store without faults, getDeviceFilteredEscalations
    sends its request with the identifier the device registered under
    and the secret the server issued. *)
Theorem registerDevice_then_fetch (user : option JsVal) (w : World)
    (pushToken secret : jsstring) (props : list (jsstring * JsVal)) :
  may_register env user w ->
  getExpoPushTokenAsync env = Normal pushToken ->
  server env (requests w)
    (register_request env (selectedSeverity (screen w)) pushToken)
    = Fulfilled (JObj props) ->
  property props (js "deviceSecret") = JStr secret ->
  secret <> [] ->
  (forall key, setItem_fault env key = None) ->
  (forall key, getItem_fault env key = None) ->
  exists w' r w'',
    registerDevice toUpperCase JSON_stringify env user w = (Normal tt, w') /\
    getDeviceFilteredEscalations env w' = (r, w'') /\
    requests w'' =
      requests w ++
      [register_request env (selectedSeverity (screen w)) pushToken;
       escalations_request
         {| deviceId := device_identifier env; deviceSecret := secret |}].
Proof.
  intros Hmay Htoken Hsrv Hsecret Hne Hset Hget.
  destruct (registerDevice_accepted user w pushToken secret props
              Hmay Htoken Hsrv Hsecret Hset)
    as (w' & Hrun & Hs & Hr & _).
  destruct (getDeviceFilteredEscalations_run w')
    as (r & w'' & Hfetch & _ & _ & _ & _ & _ & Hstored).
  destruct (Hstored {| deviceId := device_identifier env; deviceSecret := secret |})
    as [Hr'' _].
  { unfold stored_credentials. cbn [deviceId deviceSecret]. rewrite Hs.
    split; [rewrite lookup_insert_ne by js_neq; apply lookup_insert_eq|].
    split; [apply lookup_insert_eq|].
    split; [apply device_identifier_nonempty|exact Hne]. }
  { apply Hget. }
  { apply Hget. }
  exists w', r, w''. split; [exact Hrun|]. split; [exact Hfetch|].
  rewrite Hr'', Hr, <- app_assoc. reflexivity.
Qed.

(** X8: when the store takes the registration and the identifier but
    fails on the secret, registerDevice ends normally with the
    registration and the identifier written and the secret entry as it
    was before, tells the user that the registration failed, and leaves
    the registration on the screen unchanged. *)
Theorem registerDevice_secret_write_fails (user : option JsVal) (w : World)
    (pushToken secret : jsstring) (props : list (jsstring * JsVal))
    (reason : JsVal) :
  may_register env user w ->
  getExpoPushTokenAsync env = Normal pushToken ->
  server env (requests w)
    (register_request env (selectedSeverity (screen w)) pushToken)
    = Fulfilled (JObj props) ->
  property props (js "deviceSecret") = JStr secret ->
  setItem_fault env (js "deviceRegistration") = None ->
  setItem_fault env (js "deviceId") = None ->
  setItem_fault env (js "deviceSecret") = Some reason ->
  exists w',
    registerDevice toUpperCase JSON_stringify env user w = (Normal tt, w') /\
    storage w' !! js "deviceId" = Some (device_identifier env) /\
    storage w' !! js "deviceSecret" = storage w !! js "deviceSecret" /\
    storage w' !! js "deviceRegistration"
      = Some (JSON_stringify (registration_of props)) /\
    deviceRegistration (screen w') = deviceRegistration (screen w) /\
    alerts w' = alerts w ++ [registration_failed_alert] /\
    registering (screen w') = false.
Proof.
  intros Hmay Htoken Hsrv Hsecret F1 F2 F3.
  pose proof Hmay as [(u & Hu & Ht) _].
  register_prefix Hmay Htoken w2.
  match goal with
  | |- context [server env _ ?q] =>
      change q with (register_request env (selectedSeverity (screen w)) pushToken)
  end.
  match goal with Hr : requests w2 = requests w |- _ => rewrite Hr end.
  rewrite Hsrv. run_action.
  unfold get_property. cbn [Object_entries cbind].
  fold (property props (js "id")). fold (property props (js "deviceSecret")).
  fold (property props (js "subscriptionSeverity")).
  fold (registration_of props). rewrite Hsecret.
  unfold AsyncStorage_setItem. rewrite F1, F2, F3.
  cbn [setDeviceRegistration setRegistering].
  eexists. split; [reflexivity|].
  cbn [storage requests alerts screen registering deviceRegistration
       with_storage with_requests with_alerts with_screen with_console].
  repeat match goal with Hs : _ w2 = _ w |- _ => rewrite Hs; clear Hs end.
  split; [apply lookup_insert_eq|].
  split; [rewrite !lookup_insert_ne by js_neq; reflexivity|].
  split; [rewrite lookup_insert_ne by js_neq; apply lookup_insert_eq|].
  split; [assumption|]. split; reflexivity.
Qed.

(** X9: registerDevice ends normally in every execution, whatever the
    permission service, the token service, the server and the store do;
    for a signed-in user the screen is not busy any more when it ends;
    and it sends one request at most. *)
Theorem registerDevice_always_ends (user : option JsVal) (w : World) :
  exists w',
    registerDevice toUpperCase JSON_stringify env user w = (Normal tt, w') /\
    ((exists u, user = Some u /\ truthy u = true) ->
     registering (screen w') = false) /\
    (requests w' = requests w \/
     exists request, requests w' = requests w ++ [request]).
Proof.
  unfold registerDevice. cbv zeta.
  destruct (negb match user with Some u => truthy u | None => false end) eqn:Huser.
  { eexists. split; [reflexivity|]. split; [|left; reflexivity].
    intros (u & -> & Ht). rewrite Ht in Huser. discriminate Huser. }
  unfold bind at 1. cbn [setRegistering]. cbv beta iota.
  unfold try_finally, try_catch.
  match goal with |- context [bind _ _ ?v] => set (w1 := v) end.
  assert (Hr1 : requests w1 = requests w) by reflexivity. clearbody w1.
  match goal with
  | |- context [bind ?m ?k w1] =>
      assert (Hbody : requests (snd (bind m k w1)) = requests w \/
                      exists request,
                        requests (snd (bind m k w1)) = requests w ++ [request]);
      [|destruct (bind m k w1) as [[[]|e] w3]]
  end.
  { rewrite bind_run.
    assert (Hperm : exists granted w2,
              (if negb (bool_decide (permissionStatus (screen w) = js "granted"))
               then requestNotificationPermission env else ret true) w1
              = (Normal granted, w2) /\ requests w2 = requests w).
    { destruct (negb (bool_decide (permissionStatus (screen w) = js "granted"))).
      - destruct (requestNotificationPermission_run env w1)
          as (g & w2 & H & A & _).
        exists g, w2. split; [exact H|congruence].
      - exists true, w1. split; [reflexivity|exact Hr1]. }
    destruct Hperm as (granted & w2 & -> & Hr2).
    destruct granted; cbn [negb]; [|left; exact Hr2].
    rewrite bind_run, lift_run.
    destruct (getExpoPushTokenAsync env) as [pushToken|e]; [|left; exact Hr2].
    rewrite bind_run, axios_run.
    match goal with |- context [server env ?h ?q] => destruct (server env h q) end.
    2:{ right. eexists. cbn [snd requests with_requests]. rewrite Hr2. reflexivity. }
    match goal with
    | |- context [bind (lift (get_property ?d ?key)) ?k ?v] =>
        assert (Hk : keeps_requests (bind (lift (get_property d key)) k))
          by keeps;
        specialize (Hk v)
    end.
    right. eexists. rewrite Hk. cbn [requests with_requests]. rewrite Hr2.
    reflexivity. }
  - cbn [snd] in Hbody. cbn [setRegistering]. eexists. split; [reflexivity|].
    split; [reflexivity|exact Hbody].
  - cbn [snd] in Hbody. run_action. cbn [setRegistering].
    eexists. split; [reflexivity|]. split; [reflexivity|exact Hbody].
Qed.

(** *** The list screen *)

Ltac run_handler :=
  unfold finally, catching, then_, on_device, setFeedbacks, setLoading,
    setRefreshing, setDeviceRegistered, setSubscriptionSeverity, set_hooks;
  cbv beta iota zeta.

(** X19: fetchDeviceFilteredEscalations on the list screen never raises
    an error and always ends with the loading and the refreshing
    indicators off and the store untouched.  On a device without
    credentials the list becomes empty and nothing is sent or shown;
    with credentials one request is sent, and the list is the reply of
    the server, or stays as it was under an alert when the server
    fails. *)
Theorem fetchDeviceFilteredEscalations_settles (s : FeedbackWorld) :
  exists s',
    fetchDeviceFilteredEscalations env s = (Normal tt, s') /\
    loading (hooks s') = false /\ refreshing (hooks s') = false /\
    storage (device s') = storage (device s) /\
    (unregistered (device s) ->
     feedbacks (hooks s') = JArr [] /\
     requests (device s') = requests (device s) /\
     alerts (device s') = alerts (device s)) /\
    (forall credentials,
       stored_credentials (device s) credentials ->
       getItem_fault env (js "deviceId") = None ->
       getItem_fault env (js "deviceSecret") = None ->
       requests (device s') = requests (device s) ++ [escalations_request credentials] /\
       match server env (requests (device s)) (escalations_request credentials) with
       | Fulfilled data =>
           feedbacks (hooks s') = (if truthy data then data else JArr []) /\
           alerts (device s') = alerts (device s)
       | Failed error =>
           feedbacks (hooks s') = feedbacks (hooks s) /\
           alerts (device s') = alerts (device s) ++ [load_failed_alert]
       end).
Proof.
  destruct (getDeviceFilteredEscalations_run (device s))
    as (r & w' & Hrun & Hs & Ha & _ & _ & Hun & Hreg).
  unfold fetchDeviceFilteredEscalations. run_handler. rewrite Hrun.
  destruct r as [data|error].
  - eexists. split; [reflexivity|]. cbn [hooks device loading refreshing feedbacks].
    split; [reflexivity|]. split; [reflexivity|]. split; [exact Hs|]. split.
    + intros H. destruct (Hun H) as [[= ->] Hr]. repeat split; assumption.
    + intros cr H F1 F2. destruct (Hreg cr H F1 F2) as [Hr Hres].
      split; [exact Hr|].
      destruct (server env (requests (device s)) (escalations_request cr));
        [|discriminate Hres].
      injection Hres as ->. split; [reflexivity|exact Ha].
  - run_action. eexists. split; [reflexivity|].
    cbn [hooks device loading refreshing feedbacks storage requests alerts
         with_console with_alerts].
    split; [reflexivity|]. split; [reflexivity|]. split; [exact Hs|]. split.
    + intros H. destruct (Hun H) as [Hres _]. discriminate Hres.
    + intros cr H F1 F2. destruct (Hreg cr H F1 F2) as [Hr Hres].
      split; [exact Hr|].
      destruct (server env (requests (device s)) (escalations_request cr));
        [discriminate Hres|].
      split; [reflexivity|]. rewrite Ha. reflexivity.
Qed.

(** X20: initializeAndFetch never raises an error, always ends with the
    loading indicator off, never writes to the store and sends one
    request at most; on a device without credentials it marks the
    device as not registered and sends and shows nothing. *)
Theorem initializeAndFetch_settles (s : FeedbackWorld) :
  exists s',
    initializeAndFetch JSON_parse env s = (Normal tt, s') /\
    loading (hooks s') = false /\
    storage (device s') = storage (device s) /\
    (length (requests (device s')) <= S (length (requests (device s))))%nat /\
    (unregistered (device s) ->
     deviceRegistered (hooks s') = false /\
     feedbacks (hooks s') = feedbacks (hooks s) /\
     requests (device s') = requests (device s) /\
     alerts (device s') = alerts (device s)).
Proof.
  destruct (isDeviceRegistered_run (device s)) as (b & w1 & Hreg & Hlog1 & Hun).
  unfold initializeAndFetch. unfold then_ at 1, on_device at 1. rewrite Hreg.
  cbv beta iota. unfold then_ at 1, setDeviceRegistered at 1, set_hooks at 1.
  cbv beta iota. cbn [device hooks].
  destruct Hlog1 as (Hs1 & Hr1 & Ha1 & _).
  destruct b.
  - destruct (getSubscriptionSeverity_run w1) as (v & w2 & Hsev & Hlog2).
    destruct Hlog2 as (Hs2 & Hr2 & Ha2 & _).
    unfold then_ at 1, on_device at 1. cbn [device hooks]. rewrite Hsev.
    cbv beta iota. unfold then_ at 1, setSubscriptionSeverity at 1, set_hooks at 1.
    cbv beta iota. cbn [device hooks].
    match goal with
    | |- context [fetchDeviceFilteredEscalations env ?s0] =>
        destruct (getDeviceFilteredEscalations_run (device s0))
          as (r & w' & Hrun & Hs & Ha & _ & Hlen & _ & _);
        cbn [device] in Hrun, Hs, Ha, Hlen
    end.
    unfold fetchDeviceFilteredEscalations. run_handler. cbn [device hooks].
    rewrite Hrun.
    destruct r as [data|error]; run_action; (eexists; split; [reflexivity|]);
      cbn [hooks device loading storage requests alerts with_console with_alerts];
      (split; [reflexivity|]); (split; [congruence|]);
      (split; [rewrite <- Hr1, <- Hr2; exact Hlen|]);
      intros H; specialize (Hun H); discriminate Hun.
  - unfold setLoading, set_hooks. eexists. split; [reflexivity|].
    cbn [hooks device loading deviceRegistered feedbacks].
    split; [reflexivity|]. split; [exact Hs1|]. split; [rewrite Hr1; lia|].
    intros _. repeat split; assumption.
Qed.

(** X21: onRefresh never raises an error and never writes to the store.
    On a screen that holds the device as registered the refreshing and
    the loading indicators are off when the refresh has ended; on a
    screen that holds it as not registered, over a device without
    credentials, the refreshing indicator stays on and nothing is
    sent. *)
Theorem onRefresh_settles (s : FeedbackWorld) :
  exists s',
    onRefresh JSON_parse env s = (Normal tt, s') /\
    storage (device s') = storage (device s) /\
    (deviceRegistered (hooks s) = true ->
     refreshing (hooks s') = false /\ loading (hooks s') = false) /\
    (deviceRegistered (hooks s) = false -> unregistered (device s) ->
     refreshing (hooks s') = true /\ loading (hooks s') = false /\
     requests (device s') = requests (device s)).
Proof.
  unfold onRefresh. cbv zeta. unfold then_ at 1, setRefreshing at 1, set_hooks at 1.
  cbv beta iota.
  destruct (deviceRegistered (hooks s)) eqn:Ereg.
  - match goal with
    | |- context [fetchDeviceFilteredEscalations env ?s0] =>
        destruct (getDeviceFilteredEscalations_run (device s0))
          as (r & w' & Hrun & Hs & _);
        cbn [device] in Hrun, Hs
    end.
    unfold fetchDeviceFilteredEscalations. run_handler. cbn [device hooks].
    rewrite Hrun.
    destruct r as [data|error]; run_action; (eexists; split; [reflexivity|]);
      cbn [hooks device loading refreshing storage with_console with_alerts];
      (split; [exact Hs|]); (split; [intros _; split; reflexivity|discriminate]).
  - destruct (isDeviceRegistered_run (device s)) as (b & w1 & Hreg & Hlog1 & Hun).
    destruct Hlog1 as (Hs1 & Hr1 & Ha1 & _).
    unfold initializeAndFetch. unfold then_ at 1, on_device at 1. cbn [device hooks].
    rewrite Hreg.
    cbv beta iota. unfold then_ at 1, setDeviceRegistered at 1, set_hooks at 1.
    cbv beta iota. cbn [device hooks].
    destruct b.
    + destruct (getSubscriptionSeverity_run w1) as (v & w2 & Hsev & Hlog2).
      destruct Hlog2 as (Hs2 & _).
      unfold then_ at 1, on_device at 1. cbn [device hooks]. rewrite Hsev.
      cbv beta iota. unfold then_ at 1, setSubscriptionSeverity at 1, set_hooks at 1.
      cbv beta iota. cbn [device hooks].
      match goal with
      | |- context [fetchDeviceFilteredEscalations env ?s0] =>
          destruct (getDeviceFilteredEscalations_run (device s0))
            as (r & w' & Hrun & Hs & _);
          cbn [device] in Hrun, Hs
      end.
      unfold fetchDeviceFilteredEscalations. run_handler. cbn [device hooks].
      rewrite Hrun.
      destruct r as [data|error]; run_action; (eexists; split; [reflexivity|]);
        cbn [hooks device loading refreshing storage with_console with_alerts];
        (split; [congruence|]); (split; [discriminate|]);
        intros _ H; specialize (Hun H); discriminate Hun.
    + unfold setLoading, set_hooks. eexists. split; [reflexivity|].
      cbn [hooks device loading refreshing].
      split; [exact Hs1|]. split; [discriminate|].
      intros _ _. repeat split. exact Hr1.
Qed.

End DeviceServiceFacts.

(** ** The further operations on examples *)

Lemma sendHeartbeat_outcome_witness :
  exists w',
    sendHeartbeat offline_environment None fresh_world = (Normal false, w') /\
    requests w' = requests fresh_world.
Proof.
  destruct (sendHeartbeat_outcome offline_environment None fresh_world)
    as (sent & w' & Hrun & _ & Hun & _).
  destruct Hun as [-> Hr]; [left; reflexivity|].
  exists w'. split; [exact Hrun|exact Hr].
Defined.

Lemma updateSubscriptionSeverity_outcome_witness :
  exists w',
    updateSubscriptionSeverity sample_stringify sample_parse offline_environment
      high registered_world = (Normal false, w') /\
    storage w' = storage registered_world.
Proof.
  destruct (updateSubscriptionSeverity_outcome sample_stringify sample_parse
              offline_environment high registered_world)
    as (updated & w' & Hrun & _ & _ & Hfail).
  destruct (Hfail build_1_credentials (JStr (js "Network Error"))) as [-> Hs].
  - split; [vm_compute; reflexivity|]. split; [vm_compute; reflexivity|].
    split; js_neq.
  - reflexivity.
  - exists w'. split; [exact Hrun|exact Hs].
Defined.

Lemma isDeviceRegistered_sound_witness :
  exists w',
    isDeviceRegistered sample_parse offline_environment fresh_world
    = (Normal false, w').
Proof.
  destruct (isDeviceRegistered_sound sample_parse offline_environment fresh_world)
    as (registered & w' & Hrun & _ & _ & Hun).
  rewrite Hun in Hrun by (left; reflexivity).
  exists w'. exact Hrun.
Defined.

Lemma clearDeviceRegistration_outcome_witness :
  exists w',
    clearDeviceRegistration None registered_world = (Normal tt, w') /\
    storage w' !! js "deviceId" = None /\
    storage w' !! js "deviceSecret" = None.
Proof.
  destruct (clearDeviceRegistration_outcome None registered_world)
    as (w' & Hrun & _ & _ & Hgone).
  destruct (Hgone eq_refl) as (_ & Hid & Hsecret).
  exists w'. split; [exact Hrun|]. split; [exact Hid|exact Hsecret].
Defined.

Lemma clearDeviceRegistration_unregisters_witness :
  exists w1 w2 w3,
    clearDeviceRegistration None registered_world = (Normal tt, w1) /\
    isDeviceRegistered sample_parse offline_environment w1 = (Normal false, w2) /\
    getDeviceFilteredEscalations offline_environment w2 = (Normal (JArr []), w3) /\
    requests w3 = requests registered_world.
Proof.
  apply (clearDeviceRegistration_unregisters sample_parse offline_environment None
           registered_world).
  reflexivity.
Defined.

Lemma registerDevice_success_witness :
  exists w',
    registerDevice ascii_toUpperCase sample_stringify online_environment
      (Some (JObj [])) fresh_world = (Normal tt, w') /\
    storage w' !! js "deviceId" = Some (js "build-1") /\
    storage w' !! js "deviceSecret" = Some (js "s3cret") /\
    registering (screen w') = false.
Proof.
  destruct (registerDevice_success ascii_toUpperCase sample_stringify
              online_environment (Some (JObj [])) fresh_world
              (js "ExponentPushToken[x]") (js "s3cret") sample_reply)
    as (w' & Hrun & Hid & _ & Hsecret & _ & _ & _ & _ & Hbusy).
  - split; [exists (JObj []); split; reflexivity|left; reflexivity].
  - reflexivity.
  - reflexivity.
  - vm_compute. reflexivity.
  - intros key. reflexivity.
  - exists w'. split; [exact Hrun|]. split; [exact Hid|].
    split; [exact Hsecret|exact Hbusy].
Defined.

Lemma registerDevice_then_fetch_witness :
  exists w' r w'',
    registerDevice ascii_toUpperCase sample_stringify online_environment
      (Some (JObj [])) fresh_world = (Normal tt, w') /\
    getDeviceFilteredEscalations online_environment w' = (r, w'') /\
    requests w'' =
      requests fresh_world ++
      [register_request online_environment (selectedSeverity (screen fresh_world))
         (js "ExponentPushToken[x]");
       escalations_request
         {| deviceId := device_identifier online_environment;
            deviceSecret := js "s3cret" |}].
Proof.
  apply (registerDevice_then_fetch ascii_toUpperCase sample_stringify
           online_environment (Some (JObj [])) fresh_world
           (js "ExponentPushToken[x]") (js "s3cret") sample_reply).
  - split; [exists (JObj []); split; reflexivity|left; reflexivity].
  - reflexivity.
  - reflexivity.
  - vm_compute. reflexivity.
  - js_neq.
  - intros key. reflexivity.
  - intros key. reflexivity.
Defined.

Lemma registerDevice_secret_write_fails_witness :
  exists w',
    registerDevice ascii_toUpperCase sample_stringify failing_store_environment
      (Some (JObj [])) fresh_world = (Normal tt, w') /\
    storage w' !! js "deviceId" = Some (js "build-1") /\
    storage w' !! js "deviceSecret" = None /\
    alerts w' = [registration_failed_alert].
Proof.
  destruct (registerDevice_secret_write_fails ascii_toUpperCase sample_stringify
              failing_store_environment (Some (JObj [])) fresh_world
              (js "ExponentPushToken[x]") (js "s3cret") sample_reply
              (JStr (js "disk full")))
    as (w' & Hrun & Hid & Hsecret & _ & _ & Halerts & _).
  - split; [exists (JObj []); split; reflexivity|left; reflexivity].
  - reflexivity.
  - reflexivity.
  - vm_compute. reflexivity.
  - vm_compute. reflexivity.
  - vm_compute. reflexivity.
  - vm_compute. reflexivity.
  - exists w'. split; [exact Hrun|]. split; [exact Hid|].
    split; [exact Hsecret|exact Halerts].
Defined.

Lemma registerDevice_always_ends_witness :
  exists w',
    registerDevice ascii_toUpperCase sample_stringify offline_environment
      (Some (JObj [])) fresh_world = (Normal tt, w') /\
    registering (screen w') = false.
Proof.
  destruct (registerDevice_always_ends ascii_toUpperCase sample_stringify
              offline_environment (Some (JObj [])) fresh_world)
    as (w' & Hrun & Hbusy & _).
  exists w'. split; [exact Hrun|].
  apply Hbusy. exists (JObj []). split; reflexivity.
Defined.

Lemma sendTokenToServer_outcome_witness :
  exists w',
    sendTokenToServer online_environment (js "ExponentPushToken[x]") fresh_world
    = (Normal tt, w') /\
    requests w' = requests fresh_world.
Proof.
  destruct (sendTokenToServer_outcome online_environment
              (js "ExponentPushToken[x]") fresh_world)
    as (w' & Hrun & _ & Hnone & _).
  exists w'. split; [exact Hrun|]. apply Hnone. right. reflexivity.
Defined.

Lemma updateSubscriptionSeverity_then_read_witness :
  exists w' w'',
    updateSubscriptionSeverity severity_stringify severity_parse online_environment
      high subscribed_world = (Normal true, w') /\
    getSubscriptionSeverity severity_parse online_environment w'
    = (Normal (JStr (js "high")), w'').
Proof.
  apply (updateSubscriptionSeverity_then_read severity_stringify severity_parse
           online_environment high subscribed_world build_1_credentials
           (JObj sample_reply) medium_registration (js "medium")).
  - split; [vm_compute; reflexivity|]. split; [vm_compute; reflexivity|].
    split; js_neq.
  - intros key. reflexivity.
  - reflexivity.
  - reflexivity.
  - vm_compute. reflexivity.
  - js_neq.
  - reflexivity.
  - reflexivity.
  - js_neq.
  - vm_compute. reflexivity.
Defined.

Lemma updateSubscription_outcome_witness :
  exists w',
    updateSubscription ascii_toUpperCase sample_stringify offline_environment
      high subscribed_world = (Normal tt, w') /\
    storage w' = storage subscribed_world /\
    screen w' = screen subscribed_world /\
    alerts w' = alerts subscribed_world ++ [update_failed_alert].
Proof.
  destruct (updateSubscription_outcome ascii_toUpperCase sample_stringify
              offline_environment high subscribed_world build_1_credentials)
    as [Hfail _].
  - reflexivity.
  - split; [vm_compute; reflexivity|]. split; [vm_compute; reflexivity|].
    split; js_neq.
  - reflexivity.
  - reflexivity.
  - apply (Hfail (JStr (js "Network Error"))). reflexivity.
Defined.

Lemma fetchDeviceFilteredEscalations_settles_witness :
  exists s',
    fetchDeviceFilteredEscalations offline_environment
      {| device := fresh_world; hooks := initial_hooks |} = (Normal tt, s') /\
    loading (hooks s') = false /\
    feedbacks (hooks s') = JArr [] /\
    requests (device s') = [].
Proof.
  destruct (fetchDeviceFilteredEscalations_settles offline_environment
              {| device := fresh_world; hooks := initial_hooks |})
    as (s' & Hrun & Hloading & _ & _ & Hun & _).
  destruct Hun as (Hlist & Hr & _); [left; reflexivity|].
  exists s'. split; [exact Hrun|]. split; [exact Hloading|].
  split; [exact Hlist|exact Hr].
Defined.

Lemma initializeAndFetch_settles_witness :
  exists s',
    initializeAndFetch sample_parse offline_environment
      {| device := fresh_world; hooks := initial_hooks |} = (Normal tt, s') /\
    loading (hooks s') = false /\
    deviceRegistered (hooks s') = false /\
    requests (device s') = [].
Proof.
  destruct (initializeAndFetch_settles sample_parse offline_environment
              {| device := fresh_world; hooks := initial_hooks |})
    as (s' & Hrun & Hloading & _ & _ & Hun).
  destruct Hun as (Hreg & _ & Hr & _); [left; reflexivity|].
  exists s'. split; [exact Hrun|]. split; [exact Hloading|].
  split; [exact Hreg|exact Hr].
Defined.

Lemma onRefresh_settles_witness :
  exists s',
    onRefresh sample_parse offline_environment
      {| device := fresh_world; hooks := initial_hooks |} = (Normal tt, s') /\
    refreshing (hooks s') = true /\
    loading (hooks s') = false.
Proof.
  destruct (onRefresh_settles sample_parse offline_environment
              {| device := fresh_world; hooks := initial_hooks |})
    as (s' & Hrun & _ & _ & Hun).
  destruct Hun as (Hrefreshing & Hloading & _); [reflexivity|left; reflexivity|].
  exists s'. split; [exact Hrun|]. split; [exact Hrefreshing|exact Hloading].
Defined.
